(** * FxCore: the orchestration pipeline of the TeamsFx core

    A shallow embedding of [packages/fx-core/src/core/FxCore.ts].

    - Part 1 transcribes the [@hooks([...])] decorators (the declared
      middleware chain of every method of the class) and the dispatchers
      that select an API generation through [isV3()].
    - Part 2 gives the effect model: asynchronous methods are state
      transformers that either resolve or reject; it also gives the file
      system operations of [fs-extra] the class uses.
    - Part 3 embeds the method bodies.
    - Part 4 gives the semantics of a decorated method ([hooks] composes the
      chain around the method, koa style) and the middleware themselves; it
      ends with the bodies of the user tasks, of the project configuration
      and of the features, and with the vocabulary of the statements.
    - Part 5 holds the theorems. *)

From stdpp Require Import base gmap strings list fin_maps.

(* ===================================================================== *)
(** * Part 1: API generations, middleware, declared chains, dispatch     *)
(* ===================================================================== *)

(** The two generations of the solution API. *)
Inductive Generation := V2 | V3.

#[global] Instance Generation_eq_dec : EqDecision Generation.
Proof. solve_decision. Defined.

(** The middleware imported by FxCore.ts from [./middleware/*].  A
    middleware factory keeps its argument: [EnvInfoWriterMW()] is
    [EnvInfoWriterMW None], [EnvInfoLoaderMW(false)] is
    [EnvInfoLoaderMW false]. *)
Inductive Middleware :=
| ErrorHandlerMW
| ConcurrentLockerMW
| ProjectMigratorMW
| ProjectSettingsLoaderMW
| EnvInfoLoaderMW (skip : bool)
| EnvInfoLoaderMW_V3 (skip : bool)
| LocalSettingsLoaderMW
| SolutionLoaderMW
| SolutionLoaderMW_V3
| QuestionModelMW
| ContextInjectorMW
| ProjectSettingsWriterMW
| EnvInfoWriterMW (skip : option bool)
| EnvInfoWriterMW_V3 (skip : option bool)
| LocalSettingsWriterMW.

#[global] Instance Middleware_eq_dec : EqDecision Middleware.
Proof. solve_decision. Defined.

(** The generation a middleware belongs to: the loaders and writers of the
    environment and of the solution exist once per generation (the [_V3]
    suffix); every other middleware serves both. *)
Definition generation_of (m : Middleware) : option Generation :=
  match m with
  | EnvInfoLoaderMW _ | SolutionLoaderMW | EnvInfoWriterMW _ => Some V2
  | EnvInfoLoaderMW_V3 _ | SolutionLoaderMW_V3 | EnvInfoWriterMW_V3 _ => Some V3
  | _ => None
  end.

(** The role a middleware plays in a chain, in the vocabulary of the
    specification (section 4.1). *)
Inductive Role :=
| ErrorHandler
| ConcurrencyLock
| ProjectMigrator
| ProjectSettingsLoader
| EnvironmentLoader
| LocalSettingsLoader
| SolutionResolver
| QuestionEngine
| ContextInjector
| ProjectSettingsWriter
| EnvironmentWriter
| LocalSettingsWriter.

#[global] Instance Role_eq_dec : EqDecision Role.
Proof. solve_decision. Defined.

Definition role_of (m : Middleware) : Role :=
  match m with
  | ErrorHandlerMW => ErrorHandler
  | ConcurrentLockerMW => ConcurrencyLock
  | ProjectMigratorMW => ProjectMigrator
  | ProjectSettingsLoaderMW => ProjectSettingsLoader
  | EnvInfoLoaderMW _ | EnvInfoLoaderMW_V3 _ => EnvironmentLoader
  | LocalSettingsLoaderMW => LocalSettingsLoader
  | SolutionLoaderMW | SolutionLoaderMW_V3 => SolutionResolver
  | QuestionModelMW => QuestionEngine
  | ContextInjectorMW => ContextInjector
  | ProjectSettingsWriterMW => ProjectSettingsWriter
  | EnvInfoWriterMW _ | EnvInfoWriterMW_V3 _ => EnvironmentWriter
  | LocalSettingsWriterMW => LocalSettingsWriter
  end.

(** The methods of class [FxCore]. *)
Module Method.
Inductive t :=
| createProjectV2 | createProjectV3
| provisionResourcesV2 | provisionResourcesV3
| provisionTeamsAppForCLI
| deployArtifactsV2 | deployArtifactsV3
| localDebugV2
| publishApplicationV2 | publishApplicationV3
| executeUserTaskV2 | executeUserTaskV3
| getQuestions | getQuestionsForUserTask
| getProjectConfig | getProjectConfigV3
| grantPermissionV2 | grantPermissionV3
| checkPermissionV2 | checkPermissionV3
| listCollaboratorV2 | listCollaboratorV3
| getSelectedEnv | encrypt | decrypt
| buildArtifacts
| createEnv | createEnvWithName | createEnvCopy
| activateEnv
| _init | init
| addFeature | _addFeature.

#[global] Instance eq_dec : EqDecision t.
Proof. solve_decision. Defined.
End Method.

(** [hooks_of unify m]: the list given to the [@hooks] decorator of method
    [m], in source order; [[]] for a method that carries no decorator.
    [unify] is the value of [isConfigUnifyEnabled()] when the class is
    loaded (it is read by the decorator of [localDebugV2]). *)
Definition hooks_of (unify : bool) (m : Method.t) : list Middleware :=
  match m with
  | Method.createProjectV2 =>
      [ErrorHandlerMW; QuestionModelMW; ContextInjectorMW;
       ProjectSettingsWriterMW; EnvInfoWriterMW (Some true)]
  | Method.createProjectV3 =>
      [ErrorHandlerMW; QuestionModelMW; ContextInjectorMW]
  | Method.provisionResourcesV2 =>
      [ErrorHandlerMW; ConcurrentLockerMW; ProjectMigratorMW;
       ProjectSettingsLoaderMW; EnvInfoLoaderMW false; SolutionLoaderMW;
       QuestionModelMW; ContextInjectorMW; ProjectSettingsWriterMW;
       EnvInfoWriterMW None]
  | Method.provisionResourcesV3 =>
      [ErrorHandlerMW; ConcurrentLockerMW; ProjectMigratorMW;
       ProjectSettingsLoaderMW; EnvInfoLoaderMW_V3 false; SolutionLoaderMW_V3;
       QuestionModelMW; ContextInjectorMW; ProjectSettingsWriterMW;
       EnvInfoWriterMW_V3 None]
  | Method.deployArtifactsV2 =>
      [ErrorHandlerMW; ConcurrentLockerMW; ProjectMigratorMW;
       ProjectSettingsLoaderMW; EnvInfoLoaderMW false; SolutionLoaderMW;
       QuestionModelMW; ContextInjectorMW; ProjectSettingsWriterMW;
       EnvInfoWriterMW None]
  | Method.deployArtifactsV3 =>
      [ErrorHandlerMW; ConcurrentLockerMW; ProjectMigratorMW;
       ProjectSettingsLoaderMW; EnvInfoLoaderMW_V3 false; SolutionLoaderMW_V3;
       QuestionModelMW; ContextInjectorMW; ProjectSettingsWriterMW;
       EnvInfoWriterMW_V3 None]
  | Method.localDebugV2 =>
      [ErrorHandlerMW; ConcurrentLockerMW; ProjectMigratorMW;
       ProjectSettingsLoaderMW; EnvInfoLoaderMW (negb unify);
       LocalSettingsLoaderMW; SolutionLoaderMW; QuestionModelMW;
       ContextInjectorMW; ProjectSettingsWriterMW;
       EnvInfoWriterMW (Some (negb unify)); LocalSettingsWriterMW]
  | Method.publishApplicationV2 =>
      [ErrorHandlerMW; ConcurrentLockerMW; ProjectMigratorMW;
       ProjectSettingsLoaderMW; EnvInfoLoaderMW false; SolutionLoaderMW;
       QuestionModelMW; ContextInjectorMW; ProjectSettingsWriterMW;
       EnvInfoWriterMW None]
  | Method.publishApplicationV3 =>
      [ErrorHandlerMW; ConcurrentLockerMW; ProjectMigratorMW;
       ProjectSettingsLoaderMW; EnvInfoLoaderMW false; SolutionLoaderMW;
       QuestionModelMW; ContextInjectorMW; ProjectSettingsWriterMW;
       EnvInfoWriterMW None]
  | Method.executeUserTaskV2 =>
      [ErrorHandlerMW; ConcurrentLockerMW; ProjectMigratorMW;
       ProjectSettingsLoaderMW; EnvInfoLoaderMW false; LocalSettingsLoaderMW;
       SolutionLoaderMW; QuestionModelMW; ContextInjectorMW;
       ProjectSettingsWriterMW; EnvInfoWriterMW None]
  | Method.executeUserTaskV3 =>
      [ErrorHandlerMW; ConcurrentLockerMW; ProjectMigratorMW;
       ProjectSettingsLoaderMW; EnvInfoLoaderMW_V3 false;
       LocalSettingsLoaderMW; SolutionLoaderMW_V3; QuestionModelMW;
       ContextInjectorMW; ProjectSettingsWriterMW; EnvInfoWriterMW None]
  | Method.getQuestions | Method.getQuestionsForUserTask =>
      [ErrorHandlerMW; ConcurrentLockerMW; ProjectSettingsLoaderMW;
       EnvInfoLoaderMW true; SolutionLoaderMW; ContextInjectorMW;
       EnvInfoWriterMW None]
  | Method.getProjectConfig =>
      [ErrorHandlerMW; ConcurrentLockerMW; ProjectMigratorMW;
       ProjectSettingsLoaderMW; EnvInfoLoaderMW false; LocalSettingsLoaderMW;
       ContextInjectorMW]
  | Method.getProjectConfigV3 =>
      [ErrorHandlerMW; ConcurrentLockerMW; ProjectSettingsLoaderMW;
       ContextInjectorMW]
  | Method.grantPermissionV2 | Method.checkPermissionV2
  | Method.listCollaboratorV2 =>
      [ErrorHandlerMW; ConcurrentLockerMW; ProjectMigratorMW;
       ProjectSettingsLoaderMW; EnvInfoLoaderMW false; SolutionLoaderMW;
       QuestionModelMW; ContextInjectorMW]
  | Method.grantPermissionV3 =>
      [ErrorHandlerMW; ConcurrentLockerMW; ProjectMigratorMW;
       ProjectSettingsLoaderMW; EnvInfoLoaderMW_V3 false; QuestionModelMW;
       ContextInjectorMW]
  | Method.checkPermissionV3 | Method.listCollaboratorV3 =>
      [ErrorHandlerMW; ConcurrentLockerMW; ProjectMigratorMW;
       ProjectSettingsLoaderMW; EnvInfoLoaderMW_V3 false; ContextInjectorMW]
  | Method.getSelectedEnv =>
      [ErrorHandlerMW; ConcurrentLockerMW; ProjectSettingsLoaderMW;
       EnvInfoLoaderMW false; ContextInjectorMW]
  | Method.encrypt | Method.decrypt =>
      [ErrorHandlerMW; ConcurrentLockerMW; ProjectSettingsLoaderMW;
       EnvInfoLoaderMW true; ContextInjectorMW]
  | Method.createEnv =>
      [ErrorHandlerMW; ConcurrentLockerMW; ProjectSettingsLoaderMW;
       SolutionLoaderMW; EnvInfoLoaderMW true; ContextInjectorMW]
  | Method.activateEnv =>
      [ErrorHandlerMW; ConcurrentLockerMW; ProjectMigratorMW;
       ProjectSettingsLoaderMW; SolutionLoaderMW; ContextInjectorMW;
       ProjectSettingsWriterMW]
  | Method.init =>
      [ErrorHandlerMW; QuestionModelMW; ContextInjectorMW;
       ProjectSettingsWriterMW]
  | Method.addFeature =>
      [ErrorHandlerMW; ConcurrentLockerMW; ProjectSettingsLoaderMW;
       SolutionLoaderMW_V3; EnvInfoLoaderMW_V3 false; QuestionModelMW;
       ContextInjectorMW; ProjectSettingsWriterMW]
  | Method.provisionTeamsAppForCLI | Method.buildArtifacts
  | Method.createEnvWithName | Method.createEnvCopy
  | Method._init | Method._addFeature => []
  end.

(** The public operations that exist once per generation behind a
    dispatcher of the form [if (isV3()) return this.xV3(..) else
    return this.xV2(..)]. *)
Inductive PublicOp :=
| createProject
| provisionResources
| deployArtifacts
| localDebug
| publishApplication
| executeUserTask
| grantPermission
| checkPermission
| listCollaborator.

#[global] Instance PublicOp_eq_dec : EqDecision PublicOp.
Proof. solve_decision. Defined.

(** The method a dispatcher delegates to; [isV3] is the value returned by
    [isV3()].  [localDebug] has no V3 method of its own: it delegates to
    [provisionResourcesV3]. *)
Definition dispatch (isV3 : bool) (op : PublicOp) : Method.t :=
  match op with
  | createProject =>
      if isV3 then Method.createProjectV3 else Method.createProjectV2
  | provisionResources =>
      if isV3 then Method.provisionResourcesV3 else Method.provisionResourcesV2
  | deployArtifacts =>
      if isV3 then Method.deployArtifactsV3 else Method.deployArtifactsV2
  | localDebug =>
      if isV3 then Method.provisionResourcesV3 else Method.localDebugV2
  | publishApplication =>
      if isV3 then Method.publishApplicationV3 else Method.publishApplicationV2
  | executeUserTask =>
      if isV3 then Method.executeUserTaskV3 else Method.executeUserTaskV2
  | grantPermission =>
      if isV3 then Method.grantPermissionV3 else Method.grantPermissionV2
  | checkPermission =>
      if isV3 then Method.checkPermissionV3 else Method.checkPermissionV2
  | listCollaborator =>
      if isV3 then Method.listCollaboratorV3 else Method.listCollaboratorV2
  end.

Definition generation_selected (isV3 : bool) : Generation :=
  if isV3 then V3 else V2.

(** The generation whose solution instance the body of a method reads from
    the hook context ([ctx.solutionV2] or [ctx.solutionV3]); [None] for a
    body that reads neither. *)
Definition solution_read_by (m : Method.t) : option Generation :=
  match m with
  | Method.createProjectV2 | Method.provisionResourcesV2
  | Method.deployArtifactsV2 | Method.localDebugV2
  | Method.publishApplicationV2 | Method.executeUserTaskV2
  | Method.getQuestions | Method.getQuestionsForUserTask
  | Method.grantPermissionV2 | Method.checkPermissionV2
  | Method.listCollaboratorV2 | Method.createEnv => Some V2
  | Method.provisionResourcesV3 | Method.deployArtifactsV3
  | Method.publishApplicationV3 | Method.executeUserTaskV3
  | Method.addFeature | Method._addFeature => Some V3
  | _ => None
  end.

(** The generations of the versioned middleware a chain declares. *)
Definition generations_declared (l : list Middleware) : list Generation :=
  omap generation_of l.

(** A chain is pure for generation [g] when every versioned middleware in
    it belongs to [g]. *)
Definition pure_for (g : Generation) (l : list Middleware) : bool :=
  forallb (fun m => match generation_of m with
                    | Some g' => bool_decide (g' = g)
                    | None => true
                    end) l.

(** The operations the specification calls mutating. *)
Definition mutating (op : PublicOp) : bool :=
  match op with
  | provisionResources | deployArtifacts | publishApplication => true
  | _ => false
  end.

Definition standard_order : list Role :=
  [ErrorHandler; ConcurrencyLock; ProjectMigrator; ProjectSettingsLoader;
   EnvironmentLoader; SolutionResolver; QuestionEngine; ContextInjector;
   ProjectSettingsWriter; EnvironmentWriter].

(* ===================================================================== *)
(** * Part 2: values, errors, state and effects                          *)
(* ===================================================================== *)

(** A normalised path, as its list of segments. *)
Abbreviation path := (list string).

(** Serialised JSON whose structure the class never inspects. *)
Abbreviation Json := string.

Inductive Platform := VSCode | CLI | VS.

#[global] Instance Platform_eq_dec : EqDecision Platform.
Proof. solve_decision. Defined.

Module Stage.
Inductive t :=
| create | build | debug | provision | deploy | publish | userTask
| getQuestions | getProjectConfig | grantPermission | checkPermission
| listCollaborator.
End Stage.

(** ** Errors *)

(** What the JavaScript runtime and the file system throw. *)
Inductive JsError :=
| TypeError (msg : string)
| FsError (code : string) (p : path).

(** [FxError] values, by the constructor of [./error] (or of the API
    package) that builds them; [Thrown] is anything a [throw] or a rejected
    promise carries. *)
Inductive FxError :=
| ObjectIsUndefinedError (name : string)
| InvalidInputError (reason : string)
| ProjectFolderExistError (p : path)
| ProjectFolderInvalidError (p : path)
| LoadSolutionError
| OperationNotSupportedForExistingAppError (op : string)
| TaskNotSupportError (s : Stage.t)
| CopyFileError (e : Thrown)
| WriteFileError (e : Thrown)
| UserCancelError
| ConcurrentError (p : path)
| SystemError (e : JsError)
| DelegatedError (source message : string)
with Thrown :=
| ThrowFx (e : FxError)
| ThrowJs (e : JsError).

(** [Result<T, FxError>] of the API package. *)
Inductive Result (T : Type) :=
| ok (v : T)
| err (e : FxError).
Arguments ok {T} v.
Arguments err {T} e.

Definition isErr {T} (r : Result T) : bool :=
  match r with ok _ => false | err _ => true end.

Definition isOk {T} (r : Result T) : bool := negb (isErr r).

(** The value [Void] of the API package. *)
Inductive VoidT := Void.

(** [FxResult] of the V2 API: the three-way outcome of
    [provisionLocalResource]. *)
Inductive FxResult (T : Type) :=
| success (output : T)
| partialSuccess (output : T) (error : FxError)
| failure (error : FxError).
Arguments success {T} output.
Arguments partialSuccess {T} output error.
Arguments failure {T} error.

(** How an asynchronous call ends: its promise resolves or rejects. *)
Inductive Outcome (A : Type) :=
| Resolved (a : A)
| Rejected (t : Thrown).
Arguments Resolved {A} a.
Arguments Rejected {A} t.

(** ** Data *)

Module SolutionSettings.
Record t := mk { name : string; version : string }.
End SolutionSettings.

Module ProjectSettings.
Record t := mk {
  appName : string;
  projectId : string;
  version : option string;
  isFromSample : option bool;
  solutionSettings : option SolutionSettings.t;
  programmingLanguage : option string;
}.

Definition set_appName (v : string) (ps : t) : t :=
  mk v (projectId ps) (version ps) (isFromSample ps) (solutionSettings ps)
     (programmingLanguage ps).
Definition set_isFromSample (v : option bool) (ps : t) : t :=
  mk (appName ps) (projectId ps) (version ps) v (solutionSettings ps)
     (programmingLanguage ps).
Definition set_solutionSettings (v : option SolutionSettings.t) (ps : t) : t :=
  mk (appName ps) (projectId ps) (version ps) (isFromSample ps) v
     (programmingLanguage ps).
Definition set_programmingLanguage (v : option string) (ps : t) : t :=
  mk (appName ps) (projectId ps) (version ps) (isFromSample ps)
     (solutionSettings ps) v.
End ProjectSettings.

Inductive ExistingTeamsAppType := Bot | StaticTab | ConfigurableTab | MessageExtension.

Module ExistingAppConfig.
Record t := mk {
  isCreatedFromExistingApp : bool;
  newAppTypes : list ExistingTeamsAppType;
}.
End ExistingAppConfig.

(** [v3.ManifestCapability]. *)
Module ManifestCapability.
Record t := mk { name : string; existingApp : bool }.
End ManifestCapability.

(** The input bag.  One field per key FxCore.ts reads or writes;
    [folder] is the key [QuestionRootFolder.name] (the question of
    [./question] is named [folder], the key [createProjectV3] also writes as
    [inputs.folder]), [scratch] is [CoreQuestionNames.CreateFromScratch] and
    [app_name] is [QuestionAppName.name]. *)
Module Inputs.
Record t := mk {
  platform : Platform;
  stage : option Stage.t;
  projectPath : option path;
  folder : option path;
  scratch : option string;
  app_name : option string;
  projectId : option string;
  existingAppConfig : option ExistingAppConfig.t;
  programmingLanguage : option string;
  solution : option string;
  capabilities : option (list string);
  env : option string;
  copy : option bool;
  sourceEnvName : option string;
  targetEnvName : option string;
}.

Definition set_stage (v : option Stage.t) (i : t) : t :=
  mk (platform i) v (projectPath i) (folder i) (scratch i) (app_name i)
     (projectId i) (existingAppConfig i) (programmingLanguage i) (solution i)
     (capabilities i) (env i) (copy i) (sourceEnvName i) (targetEnvName i).
Definition set_projectPath (v : option path) (i : t) : t :=
  mk (platform i) (stage i) v (folder i) (scratch i) (app_name i)
     (projectId i) (existingAppConfig i) (programmingLanguage i) (solution i)
     (capabilities i) (env i) (copy i) (sourceEnvName i) (targetEnvName i).
Definition set_folder (v : option path) (i : t) : t :=
  mk (platform i) (stage i) (projectPath i) v (scratch i) (app_name i)
     (projectId i) (existingAppConfig i) (programmingLanguage i) (solution i)
     (capabilities i) (env i) (copy i) (sourceEnvName i) (targetEnvName i).
Definition set_env (v : option string) (i : t) : t :=
  mk (platform i) (stage i) (projectPath i) (folder i) (scratch i) (app_name i)
     (projectId i) (existingAppConfig i) (programmingLanguage i) (solution i)
     (capabilities i) v (copy i) (sourceEnvName i) (targetEnvName i).
Definition set_copy (v : option bool) (i : t) : t :=
  mk (platform i) (stage i) (projectPath i) (folder i) (scratch i) (app_name i)
     (projectId i) (existingAppConfig i) (programmingLanguage i) (solution i)
     (capabilities i) (env i) v (sourceEnvName i) (targetEnvName i).
Definition set_sourceEnvName (v : option string) (i : t) : t :=
  mk (platform i) (stage i) (projectPath i) (folder i) (scratch i) (app_name i)
     (projectId i) (existingAppConfig i) (programmingLanguage i) (solution i)
     (capabilities i) (env i) (copy i) v (targetEnvName i).
Definition set_targetEnvName (v : option string) (i : t) : t :=
  mk (platform i) (stage i) (projectPath i) (folder i) (scratch i) (app_name i)
     (projectId i) (existingAppConfig i) (programmingLanguage i) (solution i)
     (capabilities i) (env i) (copy i) (sourceEnvName i) v.
End Inputs.

(** A solution plugin instance of either generation, identified by its
    name; what its methods do is given by [Collaborators] below. *)
Module SolutionV2.
Record t := mk { name : string }.
End SolutionV2.

Module SolutionV3.
Record t := mk { name : string }.
End SolutionV3.

(** [v2.Context]: the shared execution context handed to a solution.  Only
    the project settings it was built for are kept; the providers of the
    tools bundle are not modelled. *)
Module Context.
Record t := mk { projectSetting : ProjectSettings.t }.
End Context.

Module EnvConfig.
Record t := mk { isLocalDebug : option bool; rest : Json }.
End EnvConfig.

Module EnvInfoV2.
Record t := mk { envName : string; config : EnvConfig.t; state : Json }.
End EnvInfoV2.

Module EnvInfoV3.
Record t := mk { envName : string; config : Json; state : Json }.
End EnvInfoV3.

(** [CoreHookContext]: the hook context of one decorated call.  [result]
    is [HookContext.result]; [injected] records that [ContextInjectorMW]
    appended the context to the arguments, so that the method receives it as
    its optional last parameter [ctx]. *)
Module Ctx.
Record t := mk {
  projectSettings : option ProjectSettings.t;
  solutionV2 : option SolutionV2.t;
  solutionV3 : option SolutionV3.t;
  contextV2 : option Context.t;
  envInfoV2 : option EnvInfoV2.t;
  envInfoV3 : option EnvInfoV3.t;
  localSettings : option Json;
  injected : bool;
}.

Definition empty : t := mk None None None None None None None false.

Definition set_projectSettings (v : option ProjectSettings.t) (c : t) : t :=
  mk v (solutionV2 c) (solutionV3 c) (contextV2 c) (envInfoV2 c) (envInfoV3 c)
     (localSettings c) (injected c).
Definition set_solutionV2 (v : option SolutionV2.t) (c : t) : t :=
  mk (projectSettings c) v (solutionV3 c) (contextV2 c) (envInfoV2 c)
     (envInfoV3 c) (localSettings c) (injected c).
Definition set_solutionV3 (v : option SolutionV3.t) (c : t) : t :=
  mk (projectSettings c) (solutionV2 c) v (contextV2 c) (envInfoV2 c)
     (envInfoV3 c) (localSettings c) (injected c).
Definition set_contextV2 (v : option Context.t) (c : t) : t :=
  mk (projectSettings c) (solutionV2 c) (solutionV3 c) v (envInfoV2 c)
     (envInfoV3 c) (localSettings c) (injected c).
Definition set_envInfoV2 (v : option EnvInfoV2.t) (c : t) : t :=
  mk (projectSettings c) (solutionV2 c) (solutionV3 c) (contextV2 c) v
     (envInfoV3 c) (localSettings c) (injected c).
Definition set_localSettings (v : option Json) (c : t) : t :=
  mk (projectSettings c) (solutionV2 c) (solutionV3 c) (contextV2 c)
     (envInfoV2 c) (envInfoV3 c) v (injected c).
Definition set_injected (v : bool) (c : t) : t :=
  mk (projectSettings c) (solutionV2 c) (solutionV3 c) (contextV2 c)
     (envInfoV2 c) (envInfoV3 c) (localSettings c) v.
End Ctx.

(** ** The file system *)

(** What a file holds.  A JSON document written by the class is kept as the
    value that was serialised. *)
Inductive Content :=
| Text (lines : list string)
| SettingsJson (ps : ProjectSettings.t)
| PackageJson (name : option string)
| EnvStateJson (envName : string) (state : Json)
| LocalSettingsJson (j : Json)
| Blob (bytes : string).

Inductive Node :=
| Dir
| File (c : Content).

(** The directory tree as a finite map from paths to nodes; the root [[]]
    is a directory that is always there. *)
Abbreviation FS := (gmap path Node).

Definition is_file (fs : FS) (p : path) : bool :=
  match fs !! p with Some (File _) => true | _ => false end.

Definition is_dir (fs : FS) (p : path) : bool :=
  match p with
  | [] => true
  | _ => match fs !! p with Some Dir => true | _ => false end
  end.

(** The non-empty prefixes of a path, shortest first, the path itself
    last. *)
Definition ancestors (p : path) : list path :=
  (fun n => take n p) <$> seq 1 (length p).

Definition parent (p : path) : path := take (length p - 1) p.

(** [mkdir -p]: fails when a file stands on the way. *)
Definition mkdirs (p : path) (fs : FS) : JsError + FS :=
  match List.find (is_file fs) (ancestors p) with
  | Some q => inl (FsError "EEXIST" q)
  | None => inr (foldr (fun q acc => <[q := Dir]> acc) fs (ancestors p))
  end.

(** [fs.writeFile]: the parent must be a directory, the target must not be
    one. *)
Definition write_file (p : path) (c : Content) (fs : FS) : JsError + FS :=
  if is_dir fs p then inl (FsError "EISDIR" p)
  else if is_dir fs (parent p) then inr (<[p := File c]> fs)
  else inl (FsError "ENOENT" p).

(** The entries of [fs] at or below [src], re-rooted at [dst]. *)
Definition rerooted (src dst : path) (fs : FS) : list (path * Node) :=
  (fun e => (dst ++ drop (length src) e.1, e.2)) <$>
  filter (fun e => bool_decide (src `prefix_of` e.1)) (map_to_list fs).

(** [fs.copy] of fs-extra with its default options (overwrite): the source
    must exist and differ from the destination; a file is copied over a file
    or to a fresh path whose parent directories are created; a directory is
    copied with everything below it, to a destination that is not a file and
    not inside the source. *)
Definition copy_path (src dst : path) (fs : FS) : JsError + FS :=
  match fs !! src with
  | None => inl (FsError "ENOENT" src)
  | Some (File c) =>
      if bool_decide (src = dst) then inl (FsError "EINVAL" dst)
      else if is_dir fs dst then inl (FsError "EISDIR" dst)
      else match mkdirs (parent dst) fs with
           | inl e => inl e
           | inr fs' => inr (<[dst := File c]> fs')
           end
  | Some Dir =>
      if bool_decide (src `prefix_of` dst) then inl (FsError "EINVAL" dst)
      else if is_file fs dst then inl (FsError "ENOTDIR" dst)
      else match mkdirs dst fs with
           | inl e => inl e
           | inr fs' =>
               inr (foldr (fun e acc => <[e.1 := e.2]> acc) fs'
                          (rerooted src dst fs))
           end
  end.

(** ** State *)

(** Process-wide state: the disk and the stage variable of
    [./globalVars]. *)
Module World.
Record t := mk {
  fs : FS;
  currentStage : option Stage.t;
}.
End World.

(** What a call made on behalf of one pipeline run can read and write: the
    hook context, the input bag (both are mutable objects handed around by
    reference) and the world. *)
Module St.
Record t := mk {
  ctx : Ctx.t;
  inputs : Inputs.t;
  world : World.t;
}.
End St.

(** A call into code outside this file (a plugin, the environment manager,
    a question, ...): any function of the state that resolves or rejects. *)
Definition Call (A : Type) := St.t -> Outcome A * St.t.

(** Ghost events: they record that a phase ran and change no behaviour. *)
Inductive Event :=
| Invoked (m : Method.t)
| Persisted (m : Middleware).

(** What a decorated method returns to its caller. *)
Inductive Value :=
| VVoid
| VNull
| VPath (p : path)
| VAny (j : Json).

(** The state of a pipeline run: [St.t], [HookContext.result] (what the
    decorated call will return), the table of advisory locks and the event
    log; the last three are out of reach of the collaborators. *)
Module PS.
Record t := mk {
  st : St.t;
  result : option (Result Value);
  locks : gset path;
  log : list Event;
}.

Definition ctx (s : t) : Ctx.t := St.ctx (st s).
Definition inputs (s : t) : Inputs.t := St.inputs (st s).
Definition world (s : t) : World.t := St.world (st s).
Definition fs (s : t) : FS := World.fs (world s).

Definition set_st (v : St.t) (s : t) : t := mk v (result s) (locks s) (log s).
Definition set_ctx (v : Ctx.t) (s : t) : t :=
  set_st (St.mk v (inputs s) (world s)) s.
Definition set_inputs (v : Inputs.t) (s : t) : t :=
  set_st (St.mk (ctx s) v (world s)) s.
Definition set_world (v : World.t) (s : t) : t :=
  set_st (St.mk (ctx s) (inputs s) v) s.
Definition set_fs (v : FS) (s : t) : t :=
  set_world (World.mk v (World.currentStage (world s))) s.
Definition set_result (v : option (Result Value)) (s : t) : t :=
  mk (st s) v (locks s) (log s).
Definition set_locks (v : gset path) (s : t) : t :=
  mk (st s) (result s) v (log s).
Definition set_log (v : list Event) (s : t) : t :=
  mk (st s) (result s) (locks s) v.
End PS.

(** ** The monad of asynchronous methods *)

Definition M (A : Type) := PS.t -> Outcome A * PS.t.

Definition ret {A} (a : A) : M A := fun s => (Resolved a, s).

Definition bind {A B} (m : M A) (f : A -> M B) : M B :=
  fun s => match m s with
           | (Resolved a, s') => f a s'
           | (Rejected t, s') => (Rejected t, s')
           end.

Declare Scope async_scope.
Delimit Scope async_scope with async.
Bind Scope async_scope with M.
Notation "x <- m ;; k" := (bind m (fun x => k))
  (at level 100, m at next level, right associativity) : async_scope.
Notation "m ;;; k" := (bind m (fun _ => k))
  (at level 100, right associativity) : async_scope.
Open Scope async_scope.

Definition throw {A} (t : Thrown) : M A := fun s => (Rejected t, s).

(** [try { m } catch (e) { h e }]. *)
Definition try_catch {A} (m : M A) (h : Thrown -> M A) : M A :=
  fun s => match m s with
           | (Resolved a, s') => (Resolved a, s')
           | (Rejected t, s') => h t s'
           end.

(** [try { m } finally { f }]: [f] runs however [m] ends; the outcome is
    that of [m] unless [f] itself rejects. *)
Definition try_finally {A} (m : M A) (f : M unit) : M A :=
  fun s => let '(o, s') := m s in
           match f s' with
           | (Resolved _, s'') => (o, s'')
           | (Rejected t, s'') => (Rejected t, s'')
           end.

Definition get : M PS.t := fun s => (Resolved s, s).
Definition modify (f : PS.t -> PS.t) : M unit := fun s => (Resolved tt, f s).
Definition get_ctx : M Ctx.t := fun s => (Resolved (PS.ctx s), s).
Definition get_inputs : M Inputs.t := fun s => (Resolved (PS.inputs s), s).
Definition modify_ctx (f : Ctx.t -> Ctx.t) : M unit :=
  modify (fun s => PS.set_ctx (f (PS.ctx s)) s).
Definition modify_inputs (f : Inputs.t -> Inputs.t) : M unit :=
  modify (fun s => PS.set_inputs (f (PS.inputs s)) s).
Definition emit (e : Event) : M unit :=
  modify (fun s => PS.set_log (PS.log s ++ [e]) s).

(** A collaborator is run on the part of the state it can reach. *)
Definition call {A} (c : Call A) : M A :=
  fun s => let '(o, st') := c (PS.st s) in (o, PS.set_st st' s).

(** A file system operation: it rejects with the error or installs the new
    tree. *)
Definition fs_op (op : FS -> JsError + FS) : M unit :=
  fun s => match op (PS.fs s) with
           | inl e => (Rejected (ThrowJs e), s)
           | inr fs' => (Resolved tt, PS.set_fs fs' s)
           end.

Definition pathExists (p : path) : M bool :=
  fun s => (Resolved (bool_decide (is_Some (PS.fs s !! p))), s).
Definition ensureDir (p : path) : M unit := fs_op (mkdirs p).
Definition writeFile (p : path) (c : Content) : M unit := fs_op (write_file p c).
Definition copy (src dst : path) : M unit := fs_op (copy_path src dst).

(** [setCurrentStage] of [./globalVars]. *)
Definition setCurrentStage (s : Stage.t) : M unit :=
  modify (fun ps => PS.set_world (World.mk (PS.fs ps) (Some s)) ps).

(** [path.join] on normalised operands. *)
Definition path_join (a b : path) : path := a ++ b.

(** [{...inputs, ...}]: [m] is handed a copy [i] of the input bag; the
    caller's bag is untouched by what [m] does to the copy. *)
Definition with_inputs {A} (i : Inputs.t) (m : M A) : M A :=
  fun s => let saved := PS.inputs s in
           let '(o, s') := m (PS.set_inputs i s) in
           (o, PS.set_inputs saved s').

(** [const r = await m; if (r.isErr()) return err(r.error); k r.value]. *)
Definition bind_ok {A B} (m : M (Result A)) (k : A -> M (Result B))
  : M (Result B) :=
  r <- m;; match r with ok a => k a | err e => ret (err e) end.

Notation "x <-? m ;; k" := (bind_ok m (fun x => k))
  (at level 100, m at next level, right associativity) : async_scope.

Definition defined {A} (o : option A) : bool :=
  match o with Some _ => true | None => false end.

(** A string-valued path is truthy unless it is [undefined] or empty. *)
Definition truthy_path (p : option path) : option path :=
  match p with
  | Some (x :: l) => Some (x :: l)
  | _ => None
  end.

(* ===================================================================== *)
(** * Part 3: the collaborators and the method bodies                    *)
(* ===================================================================== *)

(** Everything FxCore.ts imports and this file does not define: constants,
    pure helpers, and calls into other modules, plugins and libraries. *)
Record Collaborators := {
  (* constants of the API package, ./question and ../common *)
  ConfigFolderName : string;
  AppPackageFolderName : string;
  InputConfigsFolderName : string;
  StatesFolderName : string;
  BuildFolderName : string;
  localSettingsFileName : string;
  ProjectNamePattern : string;
  ScratchOptionNo_id : string;
  TabOptionItem_id : string;
  TabSPFxItem_id : string;
  BotOptionItem_id : string;
  MessageExtensionItem_id : string;
  BuiltInFeaturePluginNames_aad : string;
  BuiltInFeaturePluginNames_dotnet : string;
  BuiltInFeaturePluginNames_frontend : string;
  BuiltInFeaturePluginNames_spfx : string;
  BuiltInFeaturePluginNames_bot : string;
  (* the regular expression engine and JSON.stringify on a string *)
  regex_test : string -> string -> bool;
  JSON_stringify : string -> string;
  (* ../common/tools, ../common/projectSettingsHelper, appstudio utils *)
  getRootDirectory : path;
  isConfigUnifyEnabled : bool;
  undefinedName : list bool -> list string -> string;
  getProjectSettingsVersion : string;
  isPureExistingApp : ProjectSettings.t -> bool;
  newProjectSettings : Call ProjectSettings.t;
  getLocalAppName : string -> string;
  uuid_v4 : Call string;
  globalStateUpdate : string -> bool -> Call unit;
  (* ./environment *)
  getDefaultEnvName : string;
  getLocalEnvName : string;
  newEnvConfigData : string -> option ExistingAppConfig.t -> Json;
  writeEnvConfig : option path -> Json -> string -> Call (Result path);
  getEnvConfigPath : string -> option path -> path;
  (* ./middleware/projectSettingsLoader, ./middleware/envInfoLoader *)
  getProjectSettingsPath : path -> path;
  askNewEnvironment : Call (option (option string * option string));
  (* ./downloadSample *)
  downloadSample : Call (Result path);
  (* the App Studio plugin (V3) from the container *)
  appStudio_init : Call (Result unit);
  appStudio_addCapabilities : list ManifestCapability.t -> Call (Result unit);
  (* ./SolutionPluginContainer and the methods of a V2 solution *)
  getSolutionPluginV2ByName : option string -> option SolutionV2.t;
  v2_scaffoldSourceCode : SolutionV2.t -> Call (Result VoidT);
  v2_generateResourceTemplate : SolutionV2.t -> Call (Result Json);
  v2_createEnv : SolutionV2.t -> option (Call (Result VoidT));
  v2_provisionResources : SolutionV2.t -> Call (Result VoidT);
  v2_deploy : SolutionV2.t -> option (Call (Result VoidT));
  v2_publishApplication : SolutionV2.t -> Call (Result VoidT);
  v2_provisionLocalResource : SolutionV2.t -> option (Call (FxResult Json));
  v2_grantPermission : SolutionV2.t -> option (Call (Result Json));
  v2_checkPermission : SolutionV2.t -> option (Call (Result Json));
  v2_listCollaborator : SolutionV2.t -> option (Call (Result Json));
  (* the methods of a V3 solution and ./collaborator *)
  v3_provisionResources : SolutionV3.t -> option (Call (Result VoidT));
  v3_deploy : SolutionV3.t -> option (Call (Result VoidT));
  v3_publishApplication : SolutionV3.t -> option (Call (Result VoidT));
  v3_addFeature : SolutionV3.t -> option (list string -> Call (Result VoidT));
  collaborator_grantPermission : Call (Result Json);
  collaborator_checkPermission : Call (Result Json);
  collaborator_listCollaborator : Call (Result Json);
  (* the decorated method addFeature of this class, run as a pipeline of
     its own on the inputs it is given *)
  addFeature : list string -> Call (Result VoidT);
  (* what the writer middleware persist to, besides the settings path *)
  getEnvStatePath : string -> path -> path;
  getLocalSettingsPath : path -> path;
}.

(** One error of [jsonschema.validate]. *)
Module ValidationError.
Record t := mk { message : string }.
End ValidationError.

Section Bodies.

Variable E : Collaborators.

(** [jsonschema.validate(instance, { pattern })]: the keyword applies to
    strings only; a string that does not match yields one error whose
    message names the pattern. *)
Definition jsonschema_validate (instance : option string) (pattern : string)
  : list ValidationError.t :=
  match instance with
  | Some s =>
      if regex_test E pattern s then []
      else [ValidationError.mk
              ("does not match pattern " +:+ JSON_stringify E pattern)]
  | None => []
  end.

(** [path.join(a, b)] where an operand may be [undefined]: a [TypeError]
    then. *)
Definition path_join_checked (a b : option path) : M path :=
  match a, b with
  | Some a, Some b => ret (path_join a b)
  | _, _ => throw (ThrowJs (TypeError "The path argument must be of type string"))
  end.

(** The object the local [projectSettings] is bound to once it has been
    stored in [ctx.projectSettings]: read from the context, where calls made
    in between may have changed it; [stored] is its value when it was
    stored. *)
Definition the_projectSettings (stored : ProjectSettings.t)
  : M ProjectSettings.t :=
  c <- get_ctx;; ret (default stored (Ctx.projectSettings c)).

Definition gitIgnoreContent (platform : Platform) : list string :=
  ["node_modules";
   "." +:+ ConfigFolderName E +:+ "/" +:+ InputConfigsFolderName E +:+ "/"
     +:+ localSettingsFileName E;
   "." +:+ ConfigFolderName E +:+ "/" +:+ StatesFolderName E +:+ "/*.userdata";
   ".DS_Store";
   ".env.teamsfx.local";
   "subscriptionInfo.json";
   BuildFolderName E]
  ++ (if isConfigUnifyEnabled E then
        ["." +:+ ConfigFolderName E +:+ "/" +:+ InputConfigsFolderName E
           +:+ "/config.local.json";
         "." +:+ ConfigFolderName E +:+ "/" +:+ StatesFolderName E
           +:+ "/state.local.json"]
      else [])
  ++ (if bool_decide (platform = VS) then ["appsettings.Development.json"]
      else []).

(** [ensureBasicFolderStructure(inputs)]. *)
Definition ensureBasicFolderStructure : M (Result unit) :=
  inputs <- get_inputs;;
  match truthy_path (Inputs.projectPath inputs) with
  | None => ret (err (ObjectIsUndefinedError "projectPath"))
  | Some projectPath =>
      try_catch
        (let appName := Inputs.app_name inputs in
         (if bool_decide (Inputs.platform inputs <> VS) then
            let packageJsonFilePath := path_join projectPath ["package.json"] in
            exists_ <- pathExists packageJsonFilePath;;
            if negb exists_
            then writeFile packageJsonFilePath (PackageJson appName)
            else ret tt
          else ret tt);;;
         let gitIgnoreFilePath := path_join projectPath [".gitignore"] in
         exists_ <- pathExists gitIgnoreFilePath;;
         (if negb exists_
          then writeFile gitIgnoreFilePath
                 (Text (gitIgnoreContent (Inputs.platform inputs)))
          else ret tt);;;
         ret (ok tt))
        (fun e => ret (err (WriteFileError e)))
  end.

(** [createEnvWithName(targetEnvName, projectSettings, inputs)]. *)
Definition createEnvWithName (targetEnvName : string)
    (projectSettings : ProjectSettings.t) : M (Result VoidT) :=
  let appName := ProjectSettings.appName projectSettings in
  let appName := if bool_decide (targetEnvName = getLocalEnvName E)
                 then getLocalAppName E appName else appName in
  let newEnvConfig := newEnvConfigData E appName None in
  inputs <- get_inputs;;
  _ <-? call (writeEnvConfig E (Inputs.projectPath inputs) newEnvConfig
                targetEnvName);;
  ret (ok Void).

(** [createEnvCopy(targetEnvName, sourceEnvName, inputs, core)]. *)
Definition createEnvCopy (targetEnvName sourceEnvName : string)
  : M (Result VoidT) :=
  inputs <- get_inputs;;
  let targetEnvConfigFilePath :=
    getEnvConfigPath E targetEnvName (Inputs.projectPath inputs) in
  let sourceEnvConfigFilePath :=
    getEnvConfigPath E sourceEnvName (Inputs.projectPath inputs) in
  try_catch
    (copy sourceEnvConfigFilePath targetEnvConfigFilePath;;; ret (ok Void))
    (fun e => ret (err (CopyFileError e))).

(** [createEnv(inputs, ctx)]. *)
Definition createEnv (has_ctx : bool) : M (Result VoidT) :=
  if negb has_ctx then ret (err (ObjectIsUndefinedError "createEnv input stuff"))
  else
    ctx <- get_ctx;;
    match Ctx.projectSettings ctx with
    | None => ret (ok Void)
    | Some projectSettings =>
        createEnvCopyInput <- call (askNewEnvironment E);;
        match createEnvCopyInput with
        | Some (Some targetEnvName, Some sourceEnvName) =>
            if bool_decide (targetEnvName = "") || bool_decide (sourceEnvName = "")
            then ret (err UserCancelError)
            else
              _ <-? createEnvCopy targetEnvName sourceEnvName;;
              modify_inputs (Inputs.set_sourceEnvName (Some sourceEnvName));;;
              modify_inputs (Inputs.set_targetEnvName (Some targetEnvName));;;
              ctx <- get_ctx;;
              match Ctx.solutionV2 ctx, Ctx.contextV2 ctx with
              | Some solutionV2, Some contextV2 =>
                  match v2_createEnv E solutionV2 with
                  | Some createEnv_ =>
                      modify_inputs (Inputs.set_copy (Some true));;;
                      call createEnv_
                  | None => ret (ok Void)
                  end
              | _, _ =>
                  ret (err (ObjectIsUndefinedError "ctx.solutionV2, ctx.contextV2"))
              end
        | _ => ret (err UserCancelError)
        end
    end.

(** [buildArtifacts(inputs)]: no decorator, and the body throws. *)
Definition buildArtifacts : M (Result VoidT) :=
  throw (ThrowFx (TaskNotSupportError Stage.build)).

(** ** Provision, deploy, publish *)

(** [provisionResourcesV2(inputs, ctx)]. *)
Definition provisionResourcesV2 (has_ctx : bool) : M (Result VoidT) :=
  setCurrentStage Stage.provision;;;
  modify_inputs (Inputs.set_stage (Some Stage.provision));;;
  ctx <- get_ctx;;
  match has_ctx, Ctx.solutionV2 ctx, Ctx.contextV2 ctx, Ctx.envInfoV2 ctx with
  | true, Some solutionV2, Some _, Some _ =>
      call (v2_provisionResources E solutionV2)
  | _, _, _, _ => ret (err (ObjectIsUndefinedError "Provision input stuff"))
  end.

(** [provisionResourcesV3(inputs, ctx)]. *)
Definition provisionResourcesV3 (has_ctx : bool) : M (Result VoidT) :=
  setCurrentStage Stage.provision;;;
  modify_inputs (Inputs.set_stage (Some Stage.provision));;;
  ctx <- get_ctx;;
  match has_ctx, Ctx.solutionV3 ctx, Ctx.contextV2 ctx, Ctx.envInfoV3 ctx with
  | true, Some solutionV3, Some _, Some _ =>
      match v3_provisionResources E solutionV3 with
      | Some provisionResources_ => call provisionResources_
      | None => ret (ok Void)
      end
  | _, _, _, _ => ret (ok Void)
  end.

(** [deployArtifactsV2(inputs, ctx)]. *)
Definition deployArtifactsV2 (has_ctx : bool) : M (Result VoidT) :=
  setCurrentStage Stage.deploy;;;
  modify_inputs (Inputs.set_stage (Some Stage.deploy));;;
  ctx <- get_ctx;;
  match (if has_ctx then Ctx.projectSettings ctx else None) with
  | None => ret (err (ObjectIsUndefinedError "deploy input stuff"))
  | Some projectSettings =>
      if isPureExistingApp E projectSettings
      then ret (err (OperationNotSupportedForExistingAppError "deploy"))
      else
        match Ctx.solutionV2 ctx, Ctx.contextV2 ctx, Ctx.envInfoV2 ctx with
        | Some solutionV2, Some _, Some _ =>
            match v2_deploy E solutionV2 with
            | Some deploy_ => call deploy_
            | None => ret (ok Void)
            end
        | _, _, _ =>
            let name :=
              undefinedName E
                [true; defined (Ctx.solutionV2 ctx);
                 defined (Ctx.contextV2 ctx); defined (Ctx.envInfoV2 ctx)]
                ["ctx"; "ctx.solutionV2"; "ctx.contextV2"; "ctx.envInfoV2"] in
            ret (err (ObjectIsUndefinedError ("Deploy input stuff: " +:+ name)))
        end
  end.

(** [deployArtifactsV3(inputs, ctx)]. *)
Definition deployArtifactsV3 (has_ctx : bool) : M (Result VoidT) :=
  setCurrentStage Stage.deploy;;;
  modify_inputs (Inputs.set_stage (Some Stage.deploy));;;
  ctx <- get_ctx;;
  match has_ctx, Ctx.solutionV3 ctx, Ctx.contextV2 ctx, Ctx.envInfoV3 ctx with
  | true, Some solutionV3, Some _, Some _ =>
      match v3_deploy E solutionV3 with
      | Some deploy_ => call deploy_
      | None => ret (ok Void)
      end
  | _, _, _, _ => ret (ok Void)
  end.

(** [publishApplicationV2(inputs, ctx)]. *)
Definition publishApplicationV2 (has_ctx : bool) : M (Result VoidT) :=
  setCurrentStage Stage.publish;;;
  modify_inputs (Inputs.set_stage (Some Stage.publish));;;
  ctx <- get_ctx;;
  match has_ctx, Ctx.solutionV2 ctx, Ctx.contextV2 ctx, Ctx.envInfoV2 ctx with
  | true, Some solutionV2, Some _, Some _ =>
      call (v2_publishApplication E solutionV2)
  | _, _, _, _ =>
      let name :=
        undefinedName E
          [has_ctx; has_ctx && defined (Ctx.solutionV2 ctx);
           has_ctx && defined (Ctx.contextV2 ctx);
           has_ctx && defined (Ctx.envInfoV2 ctx)]
          ["ctx"; "ctx.solutionV2"; "ctx.contextV2"; "ctx.envInfoV2"] in
      ret (err (ObjectIsUndefinedError ("publish input stuff: " +:+ name)))
  end.

(** [publishApplicationV3(inputs, ctx)]. *)
Definition publishApplicationV3 (has_ctx : bool) : M (Result VoidT) :=
  setCurrentStage Stage.publish;;;
  modify_inputs (Inputs.set_stage (Some Stage.publish));;;
  ctx <- get_ctx;;
  match has_ctx, Ctx.solutionV3 ctx, Ctx.contextV2 ctx, Ctx.envInfoV3 ctx with
  | true, Some solutionV3, Some _, Some _ =>
      match v3_publishApplication E solutionV3 with
      | Some publishApplication_ => call publishApplication_
      | None => ret (ok Void)
      end
  | _, _, _, _ => ret (ok Void)
  end.

(** ** Local debug *)

(** [localDebugV2(inputs, ctx)]. *)
Definition localDebugV2 (has_ctx : bool) : M (Result VoidT) :=
  setCurrentStage Stage.debug;;;
  modify_inputs (Inputs.set_stage (Some Stage.debug));;;
  ctx <- get_ctx;;
  match (if has_ctx then Ctx.projectSettings ctx else None) with
  | None => ret (err (ObjectIsUndefinedError "local debug input stuff"))
  | Some _ =>
      match Ctx.solutionV2 ctx, Ctx.contextV2 ctx with
      | Some solutionV2, Some _ =>
          (if negb (defined (Ctx.localSettings ctx))
           then modify_ctx (Ctx.set_localSettings (Some "{}"))
           else ret tt);;;
          match v2_provisionLocalResource E solutionV2 with
          | Some provisionLocalResource_ =>
              (match isConfigUnifyEnabled E, Ctx.envInfoV2 ctx with
               | true, Some envInfoV2 =>
                   modify_ctx
                     (Ctx.set_envInfoV2
                        (Some (EnvInfoV2.mk (EnvInfoV2.envName envInfoV2)
                                 (EnvConfig.mk (Some true)
                                    (EnvConfig.rest (EnvInfoV2.config envInfoV2)))
                                 (EnvInfoV2.state envInfoV2))))
               | _, _ => ret tt
               end);;;
              res <- call provisionLocalResource_;;
              match res with
              | success output =>
                  modify_ctx (Ctx.set_localSettings (Some output));;;
                  ret (ok Void)
              | partialSuccess output error =>
                  modify_ctx (Ctx.set_localSettings (Some output));;;
                  ret (err error)
              | failure error => ret (err error)
              end
          | None => ret (ok Void)
          end
      | _, _ =>
          let name :=
            undefinedName E
              [true; defined (Ctx.solutionV2 ctx); defined (Ctx.contextV2 ctx)]
              ["ctx"; "ctx.solutionV2"; "ctx.contextV2"] in
          ret (err (ObjectIsUndefinedError
                      ("localDebug input stuff (" +:+ name +:+ ")")))
      end
  end.

(** ** Collaboration: grant, check, list *)

(** The common body of [grantPermissionV2], [checkPermissionV2] and
    [listCollaboratorV2]: [ctx!.solutionV2!.method!(...)] on a copy of the
    inputs; a non-null assertion checks nothing at run time, so an absent
    object is a [TypeError]. *)
Definition permissionV2 (stage : Stage.t)
    (method : SolutionV2.t -> option (Call (Result Json)))
    (has_ctx : bool) : M (Result Json) :=
  setCurrentStage stage;;;
  modify_inputs (Inputs.set_stage (Some stage));;;
  inputs <- get_inputs;;
  match truthy_path (Inputs.projectPath inputs) with
  | None => ret (err (ObjectIsUndefinedError "projectPath"))
  | Some projectPath =>
      ctx <- get_ctx;;
      match (if has_ctx then Ctx.solutionV2 ctx else None) with
      | Some solutionV2 =>
          match method solutionV2 with
          | Some method_ =>
              with_inputs (Inputs.set_projectPath (Some projectPath) inputs)
                (call method_)
          | None => throw (ThrowJs (TypeError "is not a function"))
          end
      | None => throw (ThrowJs (TypeError "Cannot read properties of undefined"))
      end
  end.

Definition grantPermissionV2 := permissionV2 Stage.grantPermission (v2_grantPermission E).
Definition checkPermissionV2 := permissionV2 Stage.checkPermission (v2_checkPermission E).
Definition listCollaboratorV2 := permissionV2 Stage.listCollaborator (v2_listCollaborator E).

(** The common body of [grantPermissionV3], [checkPermissionV3] and
    [listCollaboratorV3]. *)
Definition permissionV3 (stage : Stage.t) (operation : Call (Result Json))
    (has_ctx : bool) : M (Result Json) :=
  setCurrentStage stage;;;
  modify_inputs (Inputs.set_stage (Some stage));;;
  inputs <- get_inputs;;
  match truthy_path (Inputs.projectPath inputs) with
  | None => ret (err (ObjectIsUndefinedError "projectPath"))
  | Some _ =>
      ctx <- get_ctx;;
      match has_ctx, Ctx.contextV2 ctx, Ctx.envInfoV3 ctx with
      | true, Some _, Some _ => call operation
      | _, _, _ => ret (err (ObjectIsUndefinedError "ctx, contextV2, envInfoV3"))
      end
  end.

Definition grantPermissionV3 := permissionV3 Stage.grantPermission (collaborator_grantPermission E).
Definition checkPermissionV3 := permissionV3 Stage.checkPermission (collaborator_checkPermission E).
Definition listCollaboratorV3 := permissionV3 Stage.listCollaborator (collaborator_listCollaborator E).

(** ** Project creation *)

Definition isCreatedFromExistingApp (inputs : Inputs.t) : bool :=
  match Inputs.existingAppConfig inputs with
  | Some c => ExistingAppConfig.isCreatedFromExistingApp c
  | None => false
  end.

(** The capabilities pushed by the [forEach] over
    [inputs.existingAppConfig.newAppTypes]. *)
Definition manifestCaps_of (c : ExistingAppConfig.t)
  : list ManifestCapability.t :=
  (fun t => match t with
            | Bot => ManifestCapability.mk "Bot" true
            | StaticTab => ManifestCapability.mk "staticTab" true
            | ConfigurableTab => ManifestCapability.mk "configurableTab" true
            | MessageExtension => ManifestCapability.mk "MessageExtension" true
            end) <$> ExistingAppConfig.newAppTypes c.

(** The existing-app steps shared by [createProjectV2] and [_init]: write
    the default environment, then have App Studio create the manifest and
    add the capabilities. *)
Definition existingAppSteps (appName : string) (projectPath : option path)
  : M (Result unit) :=
  inputs <- get_inputs;;
  let newEnvConfig := newEnvConfigData E appName (Inputs.existingAppConfig inputs) in
  _ <-? call (writeEnvConfig E projectPath newEnvConfig (getDefaultEnvName E));;
  (* call App Studio V3 API to create manifest with placeholder *)
  _ <-? call (appStudio_init E);;
  inputs <- get_inputs;;
  match Inputs.existingAppConfig inputs with
  | None => throw (ThrowJs (TypeError "Cannot read properties of undefined"))
  | Some c =>
      _ <-? call (appStudio_addCapabilities E (manifestCaps_of c));;
      ret (ok tt)
  end.

(** The validation of the application name at the head of the
    create-from-scratch path of both generations. *)
Definition validateAppName (inputs : Inputs.t) : Result string :=
  match Inputs.app_name inputs with
  | None => err (InvalidInputError "App Name is empty")
  | Some appName =>
      match jsonschema_validate (Some appName) (ProjectNamePattern E) with
      | e :: _ => err (InvalidInputError (ValidationError.message e))
      | [] => ok appName
      end
  end.

(** [folder = getRootDirectory(); try { await fs.ensureDir(folder) }
    catch (e) { throw ProjectFolderInvalidError(folder) }]. *)
Definition useRootDirectory : M (option path) :=
  let folder := getRootDirectory E in
  try_catch (ensureDir folder)
    (fun _ => throw (ThrowFx (ProjectFolderInvalidError folder)));;;
  ret (Some folder).

(** [inputs.projectId ? inputs.projectId : uuid.v4()]. *)
Definition projectId_or_fresh : M string :=
  inputs <- get_inputs;;
  match Inputs.projectId inputs with
  | Some id => if bool_decide (id = "") then call (uuid_v4 E) else ret id
  | None => call (uuid_v4 E)
  end.

(** [if (isConfigUnifyEnabled()) { createEnvWithName(local, projectSettings,
    inputs), returning its error }]. *)
Definition createLocalEnvIfUnified (projectSettings : ProjectSettings.t)
  : M (Result unit) :=
  if isConfigUnifyEnabled E then
    projectSettings <- the_projectSettings projectSettings;;
    _ <-? createEnvWithName (getLocalEnvName E) projectSettings;;
    ret (ok tt)
  else ret (ok tt).

(** [createProjectV2], lines 213-256: the project is created from an
    existing app; "there is no solution settings if created from existing
    app". *)
Definition createFromExistingAppV2 (appName : string) (projectPath : path)
    (projectSettings : ProjectSettings.t) : M (Result path) :=
  modify_ctx (Ctx.set_projectSettings (Some projectSettings));;;
  _ <-? existingAppSteps appName (Some projectPath);;
  _ <-? createLocalEnvIfUnified projectSettings;;
  ret (ok projectPath).

(** [createProjectV2], lines 284-310: the solution is resolved, recorded in
    the settings, and asked to scaffold. *)
Definition scaffoldWithSolutionV2 (projectPath : path)
    (projectSettings : ProjectSettings.t) : M (Result path) :=
  inputs <- get_inputs;;
  match getSolutionPluginV2ByName E (Inputs.solution inputs) with
  | None => ret (err LoadSolutionError)
  | Some solution =>
      modify_ctx (Ctx.set_solutionV2 (Some solution));;;
      projectSettings <- the_projectSettings projectSettings;;
      match ProjectSettings.solutionSettings projectSettings with
      | None => throw (ThrowJs (TypeError "Cannot set properties of undefined"))
      | Some solutionSettings =>
          let projectSettings :=
            ProjectSettings.set_solutionSettings
              (Some (SolutionSettings.mk (SolutionV2.name solution)
                       (SolutionSettings.version solutionSettings)))
              projectSettings in
          modify_ctx (Ctx.set_projectSettings (Some projectSettings));;;
          let contextV2 := Context.mk projectSettings in
          modify_ctx (Ctx.set_contextV2 (Some contextV2));;;
          _ <-? call (v2_scaffoldSourceCode E solution);;
          _ <-? call (v2_generateResourceTemplate E solution);;
          _ <-? (match v2_createEnv E solution with
                 | Some createEnv_ =>
                     modify_inputs (Inputs.set_copy (Some false));;;
                     call createEnv_
                 | None => ret (ok Void)
                 end);;
          ret (ok projectPath)
      end
  end.

(** [createProjectV2], lines 257-311: the project gets solution settings,
    its environments, and a solution. *)
Definition createWithSolutionV2 (projectPath : path)
    (projectSettings : ProjectSettings.t) : M (Result path) :=
  inputs <- get_inputs;;
  let projectSettings :=
    ProjectSettings.set_programmingLanguage (Inputs.programmingLanguage inputs)
      (ProjectSettings.set_solutionSettings
         (Some (SolutionSettings.mk "" "1.0.0")) projectSettings) in
  modify_ctx (Ctx.set_projectSettings (Some projectSettings));;;
  _ <-? createEnvWithName (getDefaultEnvName E) projectSettings;;
  _ <-? createLocalEnvIfUnified projectSettings;;
  scaffoldWithSolutionV2 projectPath projectSettings.

(** [createProjectV2], lines 199-311: the folder is free; create it and
    fill it. *)
Definition scaffoldNewProjectV2 (appName : string) (projectPath : path)
  : M (Result path) :=
  ensureDir projectPath;;;
  ensureDir (path_join projectPath ["." +:+ ConfigFolderName E]);;;
  ensureDir (path_join projectPath ["templates"; AppPackageFolderName E]);;;
  _ <-? ensureBasicFolderStructure;;
  projectId <- projectId_or_fresh;;
  let projectSettings :=
    ProjectSettings.mk appName projectId
      (Some (getProjectSettingsVersion E)) (Some false) None None in
  inputs <- get_inputs;;
  if isCreatedFromExistingApp inputs
  then createFromExistingAppV2 appName projectPath projectSettings
  else createWithSolutionV2 projectPath projectSettings.

(** [createProjectV2], lines 182-312: "create from new". *)
Definition createFromNewV2 (folder : option path) : M (Result path) :=
  inputs <- get_inputs;;
  match validateAppName inputs with
  | err e => ret (err e)
  | ok appName =>
      projectPath <- path_join_checked folder (Some [appName]);;
      modify_inputs (Inputs.set_projectPath (Some projectPath));;;
      folderExist <- pathExists projectPath;;
      if folderExist then ret (err (ProjectFolderExistError projectPath))
      else scaffoldNewProjectV2 appName projectPath
  end.

(** [if (inputs.platform === Platform.VSCode) await
    globalStateUpdate(automaticNpmInstall, true)]. *)
Definition rememberNpmInstall : M unit :=
  inputs <- get_inputs;;
  if bool_decide (Inputs.platform inputs = VSCode)
  then call (globalStateUpdate E "automaticNpmInstall" true) else ret tt.

(** [createProjectV2(inputs, ctx)]. *)
Definition createProjectV2 (has_ctx : bool) : M (Result path) :=
  if negb has_ctx then ret (err (ObjectIsUndefinedError "ctx for createProject"))
  else
    setCurrentStage Stage.create;;;
    modify_inputs (Inputs.set_stage (Some Stage.create));;;
    inputs <- get_inputs;;
    folder <- (if bool_decide (Inputs.platform inputs = VSCode)
               then useRootDirectory else ret (Inputs.folder inputs));;
    projectPath <-?
      (if bool_decide (Inputs.scratch inputs = Some (ScratchOptionNo_id E))
       then (* create from sample *) call (downloadSample E)
       else (* create from new *) createFromNewV2 folder);;
    rememberNpmInstall;;;
    ret (ok projectPath).

(** [_init(inputs, ctx)]. *)
Definition _init (has_ctx : bool) : M (Result (option path)) :=
  if negb has_ctx then ret (err (ObjectIsUndefinedError "ctx for createProject"))
  else
  inputs <- get_inputs;;
  (* validate app name *)
  match jsonschema_validate (Inputs.app_name inputs) (ProjectNamePattern E) with
  | _ :: _ => ret (err (InvalidInputError "invalid app-name"))
  | [] =>
      match Inputs.folder inputs, Inputs.app_name inputs with
      | Some folder, Some appName =>
          let projectPath := path_join folder [appName] in
          modify_inputs (Inputs.set_projectPath (Some projectPath));;;
          (* create ProjectSettings *)
          projectSettings <- call (newProjectSettings E);;
          let projectSettings := ProjectSettings.set_appName appName projectSettings in
          modify_ctx (Ctx.set_projectSettings (Some projectSettings));;;
          (* create folder structure *)
          ensureDir (path_join projectPath ["." +:+ ConfigFolderName E]);;;
          ensureDir (path_join projectPath ["templates"; AppPackageFolderName E]);;;
          _ <-? ensureBasicFolderStructure;;
          (* create contextV2 *)
          projectSettings <- the_projectSettings projectSettings;;
          modify_ctx (Ctx.set_contextV2 (Some (Context.mk projectSettings)));;;
          (* init manifest *)
          _ <-? call (appStudio_init E);;
          inputs <- get_inputs;;
          projectSettings <- the_projectSettings projectSettings;;
          _ <-? (if isCreatedFromExistingApp inputs
                 then existingAppSteps appName (Inputs.projectPath inputs)
                 else _ <-? createEnvWithName (getDefaultEnvName E) projectSettings;;
                      ret (ok tt));;
          projectSettings <- the_projectSettings projectSettings;;
          _ <-? createEnvWithName (getLocalEnvName E) projectSettings;;
          inputs <- get_inputs;;
          ret (ok (Inputs.projectPath inputs))
      | _, _ =>
          throw (ThrowJs (TypeError "The path argument must be of type string"))
      end
  end.

(** The features [createProjectV3] asks [addFeature] for. *)
Definition features_of (platform : Platform) (capabilities : list string)
  : list string :=
  let includes := fun id => bool_decide (id ∈ capabilities) in
  (if negb (includes (TabSPFxItem_id E))
   then [BuiltInFeaturePluginNames_aad E] else [])
  ++ (if bool_decide (platform = VS) then [BuiltInFeaturePluginNames_dotnet E]
      else
        (if includes (TabOptionItem_id E)
         then [BuiltInFeaturePluginNames_frontend E]
         else if includes (TabSPFxItem_id E)
              then [BuiltInFeaturePluginNames_spfx E] else [])
        ++ (if includes (BotOptionItem_id E) || includes (MessageExtensionItem_id E)
            then [BuiltInFeaturePluginNames_bot E] else [])).

(** [createProjectV3], lines 385-415: unless the project comes from an
    existing app, the features are computed and [addFeature] is called on a
    copy of the inputs. *)
Definition addFeaturesV3 (projectPath : path)
    (capabilities : option (list string)) : M (Result VoidT) :=
  inputs <- get_inputs;;
  if negb (isCreatedFromExistingApp inputs) then
    match capabilities with
    | None => throw (ThrowJs (TypeError "Cannot read properties of undefined"))
    | Some capabilities =>
        let features := features_of (Inputs.platform inputs) capabilities in
        with_inputs (Inputs.set_projectPath (Some projectPath) inputs)
          (call (addFeature E features))
    end
  else ret (ok Void).

(** [createProjectV3], lines 380-415: "persist projectSettings.json", then
    add the features. *)
Definition persistSettingsV3 (projectPath : path)
    (capabilities : option (list string)) : M (Result path) :=
  ctx <- get_ctx;;
  inputs <- get_inputs;;
  match Ctx.projectSettings ctx with
  | None => throw (ThrowJs (TypeError "Cannot set properties of undefined"))
  | Some projectSettings =>
      let projectSettings :=
        ProjectSettings.set_isFromSample (Some false)
          (ProjectSettings.set_programmingLanguage
             (Inputs.programmingLanguage inputs) projectSettings) in
      modify_ctx (Ctx.set_projectSettings (Some projectSettings));;;
      let projectSettingsPath := getProjectSettingsPath E projectPath in
      writeFile projectSettingsPath (SettingsJson projectSettings);;;
      _ <-? addFeaturesV3 projectPath capabilities;;
      ret (ok projectPath)
  end.

(** [createProjectV3], lines 366-415: the folder is free; create it,
    initialise the project, persist its settings, add its features. *)
Definition scaffoldNewProjectV3 (projectPath : path) : M (Result path) :=
  ensureDir projectPath;;;
  ensureDir (path_join projectPath ["." +:+ ConfigFolderName E]);;;
  inputs <- get_inputs;;
  let capabilities := Inputs.capabilities inputs in
  (* init *)
  _ <-? with_inputs (Inputs.set_projectPath (Some projectPath) inputs)
          (_init true);;
  persistSettingsV3 projectPath capabilities.

(** [createProjectV3], lines 348-416: "create from new". *)
Definition createFromNewV3 (folder : path) : M (Result path) :=
  inputs <- get_inputs;;
  match validateAppName inputs with
  | err e => ret (err e)
  | ok appName =>
      let projectPath := path_join folder [appName] in
      modify_inputs (Inputs.set_projectPath (Some projectPath));;;
      folderExist <- pathExists projectPath;;
      if folderExist then ret (err (ProjectFolderExistError projectPath))
      else scaffoldNewProjectV3 projectPath
  end.

(** [createProjectV3(inputs, ctx)]. *)
Definition createProjectV3 (has_ctx : bool) : M (Result path) :=
  if negb has_ctx then ret (err (ObjectIsUndefinedError "ctx for createProject"))
  else
    setCurrentStage Stage.create;;;
    modify_inputs (Inputs.set_stage (Some Stage.create));;;
    inputs <- get_inputs;;
    folder <- (if bool_decide (Inputs.platform inputs = VSCode)
                  || bool_decide (Inputs.platform inputs = VS)
               then useRootDirectory else ret (Inputs.folder inputs));;
    match truthy_path folder with
    | None => ret (err (InvalidInputError "folder is undefined"))
    | Some folder =>
        modify_inputs (Inputs.set_folder (Some folder));;;
        inputs <- get_inputs;;
        projectPath <-?
          (if bool_decide (Inputs.scratch inputs = Some (ScratchOptionNo_id E))
           then (* create from sample *) call (downloadSample E)
           else (* create from new *) createFromNewV3 folder);;
        rememberNpmInstall;;;
        ret (ok projectPath)
    end.

End Bodies.

(* ===================================================================== *)
(** * Part 4: decorated methods                                          *)
(* ===================================================================== *)

(** A middleware is [async (ctx, next) => ...]: given the rest of the chain
    as [next], it is a computation on the hook context. *)
Definition MiddlewareFn := M unit -> M unit.

(** The composition [hooks] builds (koa style): the first middleware of the
    list is outermost, the method itself is innermost. *)
Fixpoint compose (chain : list MiddlewareFn) (final : M unit) : M unit :=
  match chain with
  | [] => final
  | mw :: rest => mw (compose rest final)
  end.

(** [ctx.result = r]. *)
Definition set_result (r : Result Value) : M unit :=
  modify (PS.set_result (Some r)).

Definition map_result {A B} (f : A -> B) (r : Result A) : Result B :=
  match r with ok a => ok (f a) | err e => err e end.

(** The final step of a chain: the method is applied to the arguments, to
    which [ContextInjectorMW] may have appended the hook context, and what it
    returns becomes [ctx.result]. *)
Definition invoke {T} (name : Method.t) (inj : T -> Value)
    (method : bool -> M (Result T)) : M unit :=
  ctx <- get_ctx;;
  emit (Invoked name);;;
  r <- method (Ctx.injected ctx);;
  set_result (map_result inj r).

(** A call of another operation while this one is running: it has its own
    input bag and hook context, and shares the world, the lock table and the
    log. *)
Definition as_separate_call {A} (inputs : Inputs.t) (m : M A) : M A :=
  fun s => let '(o, s') := m (PS.set_inputs inputs s) in
           (o, PS.set_result (PS.result s)
                 (PS.set_inputs (PS.inputs s) (PS.set_ctx (PS.ctx s) s'))).

(** What the loading middleware do before they call [next]; their source is
    not part of this file, so each is any call that yields the loaded value
    or fails. *)
Record Behaviours := {
  migrate : Call (Result unit);
  loadProjectSettings : Call (Result ProjectSettings.t);
  loadEnvInfo : bool -> Call (Result EnvInfoV2.t);
  loadEnvInfoV3 : bool -> Call (Result EnvInfoV3.t);
  loadLocalSettings : Call (Result Json);
  loadSolution : Call (Result SolutionV2.t);
  loadSolutionV3 : Call (Result SolutionV3.t);
  askQuestions : Call (Result unit);
}.

Section Pipeline.

Variable E : Collaborators.
Variable B : Behaviours.

(** Modelled from the spec: a loading middleware (ProjectMigrator,
    ProjectSettingsLoader, EnvironmentLoader, SolutionResolver,
    QuestionEngine; their source is not in [src/]).  "Any middleware ... may
    short-circuit the chain by producing a failure result": on success the
    loaded value is stored in the context and [next] runs; on failure the
    failure is the result and [next] does not run. *)
Definition loading {A} (act : Call (Result A)) (store : A -> Ctx.t -> Ctx.t)
  : MiddlewareFn :=
  fun next =>
    r <- call act;;
    match r with
    | ok a => modify_ctx (store a);;; next
    | err e => set_result (err e)
    end.

(** Modelled from the spec: the fault conversion of ErrorHandler
    ([./middleware/errorHandler] is not in [src/]): an [FxError] that was
    thrown is reported as it is, any other fault is wrapped as a system
    error. *)
Definition assembleError (t : Thrown) : FxError :=
  match t with
  | ThrowFx e => e
  | ThrowJs e => SystemError e
  end.

(** Modelled from the spec: ErrorHandler "converts any unexpected fault
    (thrown exception or rejected asynchronous operation) into a structured
    system-error result so no fault ever escapes the pipeline". *)
Definition ErrorHandler_fn : MiddlewareFn :=
  fun next => try_catch next (fun t => set_result (err (assembleError t))).

(** Modelled from the spec: the advisory lock
    ([./middleware/concurrentLocker] is not in [src/]).  "[acquire
    (projectPath)] returns a handle or fails with a locked error if another
    handle for the same path is outstanding"; the handle is the path. *)
Definition acquire (p : path) : M bool :=
  fun s => if bool_decide (p ∈ PS.locks s) then (Resolved false, s)
           else (Resolved true, PS.set_locks ({[p]} ∪ PS.locks s) s).

(** Modelled from the spec: "[release(handle)] is idempotent". *)
Definition release (p : path) : M unit :=
  modify (fun s => PS.set_locks (PS.locks s ∖ {[p]}) s).

(** Modelled from the spec: ConcurrencyLock.  The lock is "acquired before
    any state-mutating pipeline runs and released unconditionally when the
    pipeline exits (success or failure)"; "a second concurrent attempt must
    fail fast rather than block".  A call without a project path has
    nothing to lock. *)
Definition ConcurrentLocker_fn : MiddlewareFn :=
  fun next =>
    inputs <- get_inputs;;
    match Inputs.projectPath inputs with
    | None => next
    | Some p =>
        got <- acquire p;;
        if got then try_finally next (release p)
        else set_result (err (ConcurrentError p))
    end.

(** Modelled from the spec: ContextInjector "builds/attaches the shared
    execution context ... consumed by the invoked solution"
    ([./middleware/contextInjector] is not in [src/]): the hook context
    becomes the last argument of the method, and the shared execution
    context is built from the project settings when there is none yet. *)
Definition ContextInjector_fn : MiddlewareFn :=
  fun next =>
    modify_ctx (fun c =>
      Ctx.set_injected true
        (match Ctx.contextV2 c, Ctx.projectSettings c with
         | None, Some ps => Ctx.set_contextV2 (Some (Context.mk ps)) c
         | _, _ => c
         end));;;
    next.

(** Modelled from the spec: what ProjectSettingsWriter persists (the
    writers are not in [src/]): the settings document of the project at
    [inputs.projectPath] becomes the settings held by the context. *)
Definition persist_projectSettings : M unit :=
  s <- get;;
  (match Ctx.projectSettings (PS.ctx s), Inputs.projectPath (PS.inputs s) with
   | Some ps, Some p =>
       modify (PS.set_fs (<[getProjectSettingsPath E p := File (SettingsJson ps)]>
                            (PS.fs s)))
   | _, _ => ret tt
   end);;;
  emit (Persisted ProjectSettingsWriterMW).

(** Modelled from the spec: what EnvironmentWriter persists for the V2
    context: the state document of the active environment.  The factory
    argument [skip], when [true], is read as suppressing the write. *)
Definition persist_envInfo (skip : option bool) : M unit :=
  s <- get;;
  (match skip, Ctx.envInfoV2 (PS.ctx s), Inputs.projectPath (PS.inputs s) with
   | Some true, _, _ => ret tt
   | _, Some env, Some p =>
       modify (PS.set_fs
                 (<[getEnvStatePath E (EnvInfoV2.envName env) p :=
                      File (EnvStateJson (EnvInfoV2.envName env)
                              (EnvInfoV2.state env))]> (PS.fs s)))
   | _, _, _ => ret tt
   end);;;
  emit (Persisted (EnvInfoWriterMW skip)).

(** Modelled from the spec: the same for the V3 context. *)
Definition persist_envInfoV3 (skip : option bool) : M unit :=
  s <- get;;
  (match skip, Ctx.envInfoV3 (PS.ctx s), Inputs.projectPath (PS.inputs s) with
   | Some true, _, _ => ret tt
   | _, Some env, Some p =>
       modify (PS.set_fs
                 (<[getEnvStatePath E (EnvInfoV3.envName env) p :=
                      File (EnvStateJson (EnvInfoV3.envName env)
                              (EnvInfoV3.state env))]> (PS.fs s)))
   | _, _, _ => ret tt
   end);;;
  emit (Persisted (EnvInfoWriterMW_V3 skip)).

(** Modelled from the spec: the local settings document. *)
Definition persist_localSettings : M unit :=
  s <- get;;
  (match Ctx.localSettings (PS.ctx s), Inputs.projectPath (PS.inputs s) with
   | Some j, Some p =>
       modify (PS.set_fs (<[getLocalSettingsPath E p := File (LocalSettingsJson j)]>
                            (PS.fs s)))
   | _, _ => ret tt
   end);;;
  emit (Persisted LocalSettingsWriterMW).

(** The persisting phase of a writer middleware; nothing for the others. *)
Definition persist (m : Middleware) : M unit :=
  match m with
  | ProjectSettingsWriterMW => persist_projectSettings
  | EnvInfoWriterMW skip => persist_envInfo skip
  | EnvInfoWriterMW_V3 skip => persist_envInfoV3 skip
  | LocalSettingsWriterMW => persist_localSettings
  | _ => ret tt
  end.

Definition is_writer (m : Middleware) : bool :=
  match m with
  | ProjectSettingsWriterMW | EnvInfoWriterMW _ | EnvInfoWriterMW_V3 _
  | LocalSettingsWriterMW => true
  | _ => false
  end.

(** Modelled from the spec: a writer middleware.  "Already-entered after
    phases still execute ... so that ... in-memory mutations that must be
    flushed to disk still get flushed where the writer middleware is
    designed to run unconditionally after ContextInjector": the rest of the
    chain runs first, then the writer persists, however the rest ended. *)
Definition writer_fn (m : Middleware) : MiddlewareFn :=
  fun next => try_finally next (persist m).

(** The middleware as functions. *)
Definition interp (m : Middleware) : MiddlewareFn :=
  match m with
  | ErrorHandlerMW => ErrorHandler_fn
  | ConcurrentLockerMW => ConcurrentLocker_fn
  | ProjectMigratorMW => loading (migrate B) (fun _ c => c)
  | ProjectSettingsLoaderMW =>
      loading (loadProjectSettings B) (fun ps => Ctx.set_projectSettings (Some ps))
  | EnvInfoLoaderMW skip =>
      loading (loadEnvInfo B skip) (fun e => Ctx.set_envInfoV2 (Some e))
  | EnvInfoLoaderMW_V3 skip =>
      loading (loadEnvInfoV3 B skip)
        (fun e c => Ctx.mk (Ctx.projectSettings c) (Ctx.solutionV2 c)
                      (Ctx.solutionV3 c) (Ctx.contextV2 c) (Ctx.envInfoV2 c)
                      (Some e) (Ctx.localSettings c) (Ctx.injected c))
  | LocalSettingsLoaderMW =>
      loading (loadLocalSettings B) (fun j => Ctx.set_localSettings (Some j))
  | SolutionLoaderMW =>
      loading (loadSolution B) (fun sol => Ctx.set_solutionV2 (Some sol))
  | SolutionLoaderMW_V3 =>
      loading (loadSolutionV3 B) (fun sol => Ctx.set_solutionV3 (Some sol))
  | QuestionModelMW => loading (askQuestions B) (fun _ c => c)
  | ContextInjectorMW => ContextInjector_fn
  | ProjectSettingsWriterMW | EnvInfoWriterMW _ | EnvInfoWriterMW_V3 _
  | LocalSettingsWriterMW => writer_fn m
  end.

(** [hooks(chain)(method)]: a call of the decorated method creates a hook
    context, runs the chain around the method and returns [ctx.result]. *)
Definition hooks {T} (chain : list Middleware) (name : Method.t)
    (inj : T -> Value) (method : bool -> M (Result T))
  : M (option (Result Value)) :=
  modify (fun s => PS.set_result None (PS.set_ctx Ctx.empty s));;;
  compose (interp <$> chain) (invoke name inj method);;;
  s <- get;; ret (PS.result s).

(** A method of the class as its callers see it, decorator included. *)
Definition decorated {T} (unify : bool) (name : Method.t) (inj : T -> Value)
    (method : bool -> M (Result T)) : M (option (Result Value)) :=
  hooks (hooks_of unify name) name inj method.

(** The part of a declared chain that follows [ContextInjectorMW]. *)
Fixpoint after_injector (chain : list Middleware) : list Middleware :=
  match chain with
  | [] => []
  | ContextInjectorMW :: rest => rest
  | _ :: rest => after_injector rest
  end.

(** The computation leaves the lock table as it found it. *)
Definition lock_neutral {A} (m : M A) : Prop :=
  forall s, PS.locks (m s).2 = PS.locks s.

End Pipeline.

Definition inj_void (_ : VoidT) : Value := VVoid.

(** ** The public operations *)

Section Operations.

Variable E : Collaborators.
Variable B : Behaviours.
Variable isV3 : bool.

Let unify := isConfigUnifyEnabled E.

(** [provisionResources(inputs)]: "switch to different versions of
    provisionResources". *)
Definition FxCore_provisionResources : M (option (Result Value)) :=
  if isV3
  then decorated E B unify Method.provisionResourcesV3 inj_void (provisionResourcesV3 E)
  else decorated E B unify Method.provisionResourcesV2 inj_void (provisionResourcesV2 E).

(** [deployArtifacts(inputs)]. *)
Definition FxCore_deployArtifacts : M (option (Result Value)) :=
  if isV3
  then decorated E B unify Method.deployArtifactsV3 inj_void (deployArtifactsV3 E)
  else decorated E B unify Method.deployArtifactsV2 inj_void (deployArtifactsV2 E).

(** [publishApplication(inputs)]. *)
Definition FxCore_publishApplication : M (option (Result Value)) :=
  if isV3
  then decorated E B unify Method.publishApplicationV3 inj_void (publishApplicationV3 E)
  else decorated E B unify Method.publishApplicationV2 inj_void (publishApplicationV2 E).

(** [localDebug(inputs)]. *)
Definition FxCore_localDebug : M (option (Result Value)) :=
  modify_inputs (Inputs.set_env (Some (getLocalEnvName E)));;;
  if isV3
  then decorated E B unify Method.provisionResourcesV3 inj_void (provisionResourcesV3 E)
  else decorated E B unify Method.localDebugV2 inj_void (localDebugV2 E).

(** [createProject(inputs)]. *)
Definition FxCore_createProject : M (option (Result Value)) :=
  if isV3
  then decorated E B unify Method.createProjectV3 VPath (createProjectV3 E)
  else decorated E B unify Method.createProjectV2 VPath (createProjectV2 E).

(** [grantPermission(inputs)]. *)
Definition FxCore_grantPermission : M (option (Result Value)) :=
  if isV3
  then decorated E B unify Method.grantPermissionV3 VAny (grantPermissionV3 E)
  else decorated E B unify Method.grantPermissionV2 VAny (grantPermissionV2 E).

(** [buildArtifacts(inputs)]. *)
Definition FxCore_buildArtifacts : M (option (Result Value)) :=
  decorated E B unify Method.buildArtifacts inj_void (fun _ => buildArtifacts).

End Operations.

(* ===================================================================== *)
(** * Sample collaborators, used to run the definitions on concrete input *)
(* ===================================================================== *)

(** A call that resolves to [a] and changes nothing. *)
Definition quiet {A} (a : A) : Call A := fun st => (Resolved a, st).

(** A solution whose methods all succeed without touching the state, and
    an environment manager that writes nothing; application names are
    accepted when they are not empty.  [provisionLocal] is the solution's
    [provisionLocalResource]. *)
Definition sampleCollaborators
    (provisionLocal : option (Call (FxResult Json))) : Collaborators := {|
  ConfigFolderName := "fx";
  AppPackageFolderName := "appPackage";
  InputConfigsFolderName := "configs";
  StatesFolderName := "states";
  BuildFolderName := "build";
  localSettingsFileName := "localSettings.json";
  ProjectNamePattern := "^.+$";
  ScratchOptionNo_id := "no";
  TabOptionItem_id := "Tab";
  TabSPFxItem_id := "TabSPFx";
  BotOptionItem_id := "Bot";
  MessageExtensionItem_id := "MessagingExtension";
  BuiltInFeaturePluginNames_aad := "fx-resource-aad-app-for-teams";
  BuiltInFeaturePluginNames_dotnet := "fx-resource-dotnet";
  BuiltInFeaturePluginNames_frontend := "fx-resource-frontend-hosting";
  BuiltInFeaturePluginNames_spfx := "fx-resource-spfx";
  BuiltInFeaturePluginNames_bot := "fx-resource-bot";
  regex_test := fun _ s => negb (String.eqb s "");
  JSON_stringify := fun s => s;
  getRootDirectory := ["home"; "TeamsApps"];
  isConfigUnifyEnabled := false;
  undefinedName := fun objs names =>
    default "undefined"
      ((fun x => x.2) <$> List.find (fun x => negb x.1) (zip objs names));
  getProjectSettingsVersion := "2.1.0";
  isPureExistingApp := fun ps => negb (defined (ProjectSettings.solutionSettings ps));
  newProjectSettings :=
    quiet (ProjectSettings.mk "" "id" (Some "2.1.0") None
             (Some (SolutionSettings.mk "" "1.0.0")) None);
  getLocalAppName := fun n => n +:+ "-local-debug";
  uuid_v4 := quiet "00000000-0000-4000-8000-000000000000";
  globalStateUpdate := fun _ _ => quiet tt;
  getDefaultEnvName := "dev";
  getLocalEnvName := "local";
  newEnvConfigData := fun n _ => n;
  writeEnvConfig := fun p config env st =>
    let dir := default [] p ++ [".fx"; "configs"] in
    let file := dir ++ ["config." +:+ env +:+ ".json"] in
    match mkdirs dir (World.fs (St.world st)) with
    | inl e => (Resolved (err (WriteFileError (ThrowJs e))), st)
    | inr fs' =>
        (Resolved (ok file),
         St.mk (St.ctx st) (St.inputs st)
           (World.mk (<[file := File (Blob config)]> fs')
              (World.currentStage (St.world st))))
    end;
  getEnvConfigPath := fun env p =>
    default [] p ++ [".fx"; "configs"; "config." +:+ env +:+ ".json"];
  getProjectSettingsPath := fun p => p ++ [".fx"; "configs"; "projectSettings.json"];
  askNewEnvironment := quiet (Some (Some "staging", Some "dev"));
  downloadSample := quiet (ok ["home"; "sample"]);
  appStudio_init := quiet (ok tt);
  appStudio_addCapabilities := fun _ => quiet (ok tt);
  getSolutionPluginV2ByName := fun _ => Some (SolutionV2.mk "fx-solution-azure");
  v2_scaffoldSourceCode := fun _ => quiet (ok Void);
  v2_generateResourceTemplate := fun _ => quiet (ok "{}");
  v2_createEnv := fun _ => None;
  v2_provisionResources := fun _ => quiet (ok Void);
  v2_deploy := fun _ => Some (quiet (ok Void));
  v2_publishApplication := fun _ => quiet (ok Void);
  v2_provisionLocalResource := fun _ => provisionLocal;
  v2_grantPermission := fun _ => Some (quiet (err (DelegatedError "solution" "denied")));
  v2_checkPermission := fun _ => Some (quiet (ok "[]"));
  v2_listCollaborator := fun _ => Some (quiet (ok "[]"));
  v3_provisionResources := fun _ => Some (quiet (ok Void));
  v3_deploy := fun _ => Some (quiet (ok Void));
  v3_publishApplication :=
    fun _ => Some (quiet (err (DelegatedError "solution" "published")));
  v3_addFeature := fun _ => None;
  collaborator_grantPermission := quiet (ok "[]");
  collaborator_checkPermission := quiet (ok "[]");
  collaborator_listCollaborator := quiet (ok "[]");
  addFeature := fun _ => quiet (ok Void);
  getEnvStatePath := fun env p => p ++ [".fx"; "states"; "state." +:+ env +:+ ".json"];
  getLocalSettingsPath := fun p => p ++ [".fx"; "configs"; "localSettings.json"];
|}.

Definition sampleE : Collaborators := sampleCollaborators None.

Definition sampleSettings : ProjectSettings.t :=
  ProjectSettings.mk "app" "id" (Some "2.1.0") (Some false)
    (Some (SolutionSettings.mk "fx-solution-azure" "1.0.0")) None.

(** Loaders that find a project, its [dev] environment and a solution of
    each generation. *)
Definition sampleB : Behaviours := {|
  migrate := quiet (ok tt);
  loadProjectSettings := quiet (ok sampleSettings);
  loadEnvInfo := fun _ => quiet (ok (EnvInfoV2.mk "dev" (EnvConfig.mk None "{}") "{}"));
  loadEnvInfoV3 := fun _ => quiet (ok (EnvInfoV3.mk "dev" "{}" "{}"));
  loadLocalSettings := quiet (ok "{}");
  loadSolution := quiet (ok (SolutionV2.mk "fx-solution-azure"));
  loadSolutionV3 := quiet (ok (SolutionV3.mk "fx-solution-azure-v3"));
  askQuestions := quiet (ok tt);
|}.

Definition sampleInputs : Inputs.t :=
  Inputs.mk CLI None (Some ["home"; "app"]) (Some ["home"]) None (Some "app")
    None None None None (Some []) None None None None.

(** A disk that holds the project [home/app]. *)
Definition sampleFS : FS :=
  <[ ["home"; "app"; ".fx"; "configs"; "config.dev.json"] := File (Blob "dev") ]>
  (<[ ["home"; "app"; ".fx"; "configs"] := Dir ]>
  (<[ ["home"; "app"; ".fx"] := Dir ]>
  (<[ ["home"; "app"] := Dir ]>
  (<[ ["home"] := Dir ]> ∅)))).

Definition sampleState (inputs : Inputs.t) (fs : FS) : PS.t :=
  PS.mk (St.mk Ctx.empty inputs (World.mk fs None)) None ∅ [].

Definition sampleCtx : Ctx.t :=
  Ctx.mk (Some sampleSettings) (Some (SolutionV2.mk "fx-solution-azure")) None
    (Some (Context.mk sampleSettings))
    (Some (EnvInfoV2.mk "dev" (EnvConfig.mk None "{}") "{}")) None None true.

(* ===================================================================== *)
(** * Vocabulary of the statements                                       *)
(* ===================================================================== *)

(** The object checks of the V2 bodies fail: the hook context, the V2
    solution, the shared execution context or the V2 environment info is
    absent. *)
Definition absent_V2 (has_ctx : bool) (c : Ctx.t) : bool :=
  negb (has_ctx && defined (Ctx.solutionV2 c) && defined (Ctx.contextV2 c)
        && defined (Ctx.envInfoV2 c)).

(** The same for the fields the V3 bodies read. *)
Definition absent_V3 (has_ctx : bool) (c : Ctx.t) : bool :=
  negb (has_ctx && defined (Ctx.solutionV3 c) && defined (Ctx.contextV2 c)
        && defined (Ctx.envInfoV3 c)).

(** The state a stage body works in once it has recorded its stage. *)
Definition at_stage (stage : Stage.t) (s : PS.t) : PS.t :=
  PS.set_inputs (Inputs.set_stage (Some stage) (PS.inputs s))
    (PS.set_world (World.mk (PS.fs s) (Some stage)) s).

(** The state in which [localDebugV2] calls the solution: the stage is
    recorded, absent local settings have become [{}], and with unified
    configuration the environment is flagged as local debug. *)
Definition localDebug_entry (E : Collaborators) (s : PS.t) : PS.t :=
  let s1 := at_stage Stage.debug s in
  let c := PS.ctx s1 in
  let c1 := if defined (Ctx.localSettings c) then c
            else Ctx.set_localSettings (Some "{}") c in
  let c2 := match isConfigUnifyEnabled E, Ctx.envInfoV2 c with
            | true, Some env =>
                Ctx.set_envInfoV2
                  (Some (EnvInfoV2.mk (EnvInfoV2.envName env)
                           (EnvConfig.mk (Some true)
                              (EnvConfig.rest (EnvInfoV2.config env)))
                           (EnvInfoV2.state env))) c1
            | _, _ => c1
            end in
  PS.set_ctx c2 s1.

Definition samplePartialError : FxError :=
  DelegatedError "solution" "local provision stopped".

(** What a writer persists, computed from the context and the inputs of
    state [s]: the path and the document. *)
Definition document_of (E : Collaborators) (s : PS.t) (m : Middleware)
  : option (path * Content) :=
  match Inputs.projectPath (PS.inputs s) with
  | None => None
  | Some p =>
      match m with
      | ProjectSettingsWriterMW =>
          (fun ps => (getProjectSettingsPath E p, SettingsJson ps))
            <$> Ctx.projectSettings (PS.ctx s)
      | EnvInfoWriterMW skip =>
          if bool_decide (skip = Some true) then None
          else (fun env => (getEnvStatePath E (EnvInfoV2.envName env) p,
                            EnvStateJson (EnvInfoV2.envName env)
                              (EnvInfoV2.state env)))
                 <$> Ctx.envInfoV2 (PS.ctx s)
      | EnvInfoWriterMW_V3 skip =>
          if bool_decide (skip = Some true) then None
          else (fun env => (getEnvStatePath E (EnvInfoV3.envName env) p,
                            EnvStateJson (EnvInfoV3.envName env)
                              (EnvInfoV3.state env)))
                 <$> Ctx.envInfoV3 (PS.ctx s)
      | LocalSettingsWriterMW =>
          (fun j => (getLocalSettingsPath E p, LocalSettingsJson j))
            <$> Ctx.localSettings (PS.ctx s)
      | _ => None
      end
  end.

(** The disk once writer [m] has persisted the document of state [s]. *)
Definition persisted (E : Collaborators) (s : PS.t) (m : Middleware) (fs : FS)
  : FS :=
  match document_of E s m with
  | Some (p, c) => <[p := File c]> fs
  | None => fs
  end.

(** A computation that, when it resolves, has set [ctx.result]. *)
Definition yields_result (k : M unit) : Prop :=
  forall s u s', k s = (Resolved u, s') -> is_Some (PS.result s').

(** The state in which the rest of the chain runs once ContextInjector has
    done its part. *)
Definition injected_state (s : PS.t) : PS.t :=
  PS.set_ctx
    (Ctx.set_injected true
       (match Ctx.contextV2 (PS.ctx s), Ctx.projectSettings (PS.ctx s) with
        | None, Some ps => Ctx.set_contextV2 (Some (Context.mk ps)) (PS.ctx s)
        | _, _ => PS.ctx s
        end)) s.

(** The state in which a pipeline ends when its method left state [s] and
    the writers [ws] then persisted: the disk holds, on top of the disk of
    [s], the document each writer computes from the context of [s]; the log
    records each writer once, innermost first. *)
Definition flushed (E : Collaborators) (ws : list Middleware) (s : PS.t) : PS.t :=
  PS.set_log (PS.log s ++ (Persisted <$> reverse ws))
    (PS.set_fs (foldr (persisted E s) (PS.fs s) ws) s).

#[global] Instance Event_eq_dec : EqDecision Event.
Proof. solve_decision. Defined.

(** How many times event [e] occurs in a log. *)
Definition occurrences (e : Event) (log : list Event) : nat :=
  length (filter (fun x => x = e) log).

(** A pipeline run has failed when its promise rejected or its result is a
    failure. *)
Definition failed {A} (o : Outcome A) (s : PS.t) : Prop :=
  (exists t, o = Rejected t) \/ (exists e, PS.result s = Some (err e)).

Definition sampleRenamed : ProjectSettings.t :=
  ProjectSettings.set_programmingLanguage (Some "typescript") sampleSettings.

(** A method that changes the project settings held by the context and then
    fails. *)
Definition sampleFailingBody (_ : bool) : M (Result VoidT) :=
  modify_ctx (Ctx.set_projectSettings (Some sampleRenamed));;;
  ret (err UserCancelError).

(** The rest of an operation that reports the failure of the operation it
    started, if that one failed. *)
Definition sampleRelay (_ : unit) (r : option (Result Value)) : M (Result VoidT) :=
  ret (match r with Some (err e) => err e | _ => ok Void end).

(** ** Project creation *)

(** The body of [createProject] in either generation. *)
Definition createProject_body (E : Collaborators) (isV3 : bool)
  : bool -> M (Result path) :=
  if isV3 then createProjectV3 E else createProjectV2 E.

(** The inputs ask for a project created from scratch, not from a
    sample. *)
Definition from_scratch (E : Collaborators) (inputs : Inputs.t) : Prop :=
  Inputs.scratch inputs <> Some (ScratchOptionNo_id E).

(** Whether the body replaces the folder of the inputs by the root
    directory: for VS Code in both generations, for Visual Studio in V3. *)
Definition root_used (isV3 : bool) (platform : Platform) : bool :=
  bool_decide (platform = VSCode) || (isV3 && bool_decide (platform = VS)).

(** The folder the project is created in; V3 wants it non-empty. *)
Definition project_folder (E : Collaborators) (isV3 : bool) (inputs : Inputs.t)
  : option path :=
  let folder := if root_used isV3 (Inputs.platform inputs)
                then Some (getRootDirectory E) else Inputs.folder inputs in
  if isV3 then truthy_path folder else folder.

(** The disk once the body has made sure the root directory exists, where
    it uses it; [None] when that fails. *)
Definition disk_after_folder_step (E : Collaborators) (isV3 : bool)
    (inputs : Inputs.t) (fs : FS) : option FS :=
  if root_used isV3 (Inputs.platform inputs) then
    match mkdirs (getRootDirectory E) fs with
    | inr fs' => Some fs'
    | inl _ => None
    end
  else Some fs.

(** A disk on which every entry lies in directories: each proper ancestor
    of an existing path is a directory. *)
Definition well_formed (fs : FS) : Prop :=
  forall p q, is_Some (fs !! p) -> q ∈ ancestors p -> q <> p -> fs !! q = Some Dir.

(** ** The name of the application *)

(** The error of the validation for a name the pattern refuses. *)
Definition pattern_violation (E : Collaborators) : FxError :=
  InvalidInputError
    ("does not match pattern " +:+ JSON_stringify E (ProjectNamePattern E)).

(** The application name of the settings the hook context holds. *)
Definition settings_name (c : Ctx.t) : option string :=
  ProjectSettings.appName <$> Ctx.projectSettings c.

(** The application name of the settings document at [p] on disk. *)
Definition document_name (fs : FS) (p : path) : option string :=
  match fs !! p with
  | Some (File (SettingsJson ps)) => Some (ProjectSettings.appName ps)
  | _ => None
  end.

Definition named (n : string) (s : PS.t) : Prop :=
  settings_name (PS.ctx s) = Some n.

(** A collaborator that does not rename the application in the settings of
    the context, and one that does not rename it in the document at [p]. *)
Definition keeps_name {A} (c : Call A) : Prop :=
  forall st, settings_name (St.ctx (c st).2) = settings_name (St.ctx st).

Definition keeps_document {A} (p : path) (c : Call A) : Prop :=
  forall st,
    document_name (World.fs (St.world (c st).2)) p
    = document_name (World.fs (St.world st)) p.

(** The collaborators project creation calls do not rename the
    application: the environment manager, App Studio, the solution and the
    feature pipeline leave [projectSettings.appName] as they find it, and
    what runs once the settings document is written leaves its name. *)
Record KeepName (E : Collaborators) : Prop := {
  keep_uuid_v4 : keeps_name (uuid_v4 E);
  keep_newProjectSettings : keeps_name (newProjectSettings E);
  keep_globalStateUpdate : forall k v, keeps_name (globalStateUpdate E k v);
  keep_writeEnvConfig : forall p c env, keeps_name (writeEnvConfig E p c env);
  keep_appStudio_init : keeps_name (appStudio_init E);
  keep_appStudio_addCapabilities :
    forall caps, keeps_name (appStudio_addCapabilities E caps);
  keep_v2_scaffoldSourceCode : forall sol, keeps_name (v2_scaffoldSourceCode E sol);
  keep_v2_generateResourceTemplate :
    forall sol, keeps_name (v2_generateResourceTemplate E sol);
  keep_v2_createEnv :
    forall sol c, v2_createEnv E sol = Some c -> keeps_name c;
  keep_addFeature : forall features, keeps_name (addFeature E features);
  keep_document_addFeature :
    forall p features, keeps_document p (addFeature E features);
  keep_document_globalStateUpdate :
    forall p k v, keeps_document p (globalStateUpdate E k v)
}.

(** A computation that leaves the name in the context as it finds it,
    however it ends. *)
Definition unchanged {A} (m : M A) : Prop :=
  forall s, settings_name (PS.ctx (m s).2) = settings_name (PS.ctx s).

(** From a state in [P], if [m] resolves, then to a value and a state in
    [Q]. *)
Definition triple {A} (P : PS.t -> Prop) (m : M A) (Q : A -> PS.t -> Prop)
  : Prop :=
  forall s, P s ->
    match m s with
    | (Resolved a, s') => Q a s'
    | (Rejected _, _) => True
    end.

Definition on_ok {A} (Q : A -> PS.t -> Prop) (r : Result A) (s : PS.t) : Prop :=
  match r with ok a => Q a s | err _ => True end.

(** A run that creates the project [p] for the application [n]. *)
Definition created (n : string) (p : path) (q : path) (s : PS.t) : Prop :=
  q = p /\ named n s.

(** A disk that holds the folder [home] and no project. *)
Definition sampleFreshFS : FS := <[ ["home"] := Dir ]> ∅.

(** Inputs that name the application with the empty string, which the
    sample pattern refuses. *)
Definition sampleUnnamed : Inputs.t :=
  Inputs.mk CLI None None (Some ["home"]) None (Some EmptyString)
    None None None None (Some []) None None None None.

(* ===================================================================== *)
(** * Further bodies: user tasks, project configuration, features        *)
(* ===================================================================== *)

(** [Func] of the API package: the route of a user task. *)
Module Func.
Record t := mk { namespace : option string; method : string }.
End Func.

(** [s.split(sep)] of JavaScript for a separator of one character. *)
Fixpoint String_split (sep : Ascii.ascii) (s : string) : list string :=
  match s with
  | EmptyString => [EmptyString]
  | String c s' =>
      if Ascii.eqb c sep then EmptyString :: String_split sep s'
      else match String_split sep s' with
           | w :: ws => String c w :: ws
           | [] => [String c EmptyString]
           end
  end.

(** [ProjectConfigV3] of the API package. *)
Module ProjectConfigV3.
Record t := mk {
  projectSettings : ProjectSettings.t;
  envInfos : gmap string EnvInfoV3.t;
}.
End ProjectConfigV3.

(** What the bodies below import besides [Collaborators]. *)
Record TaskCollaborators := {
  (* ./error *)
  FunctionRouterError : Func.t -> FxError;
  (* [executeUserTask] of a V2 and of a V3 solution *)
  v2_executeUserTask : SolutionV2.t -> option (Func.t -> Call (Result Json));
  v3_executeUserTask : SolutionV3.t -> option (Func.t -> Call (Result Json));
  (* ./environment and ./middleware/envInfoLoaderV3 *)
  listAllEnvConfigs : path -> Call (Result (list string));
  envInfoLoaderV3_loadEnvInfoV3 :
    option ProjectSettings.t -> string -> bool -> Call (Result EnvInfoV3.t);
}.

Section TaskBodies.

Variable E : Collaborators.
Variable T : TaskCollaborators.

(** The character [/]. *)
Definition slash : Ascii.ascii :=
  Ascii.Ascii true true true true false true false false.

(** [const array = namespace ? namespace.split("/") : []]. *)
Definition namespace_array (namespace : option string) : list string :=
  match namespace with
  | Some ns => if bool_decide (ns = EmptyString) then [] else String_split slash ns
  | None => []
  end.

(** [("" !== namespace && array.length > 0)]. *)
Definition routed (func : Func.t) : bool :=
  negb (bool_decide (Func.namespace func = Some EmptyString))
  && bool_decide (0 < length (namespace_array (Func.namespace func))).

(** [if (!ctx.contextV2) ctx.contextV2 = createV2Context(newProjectSettings())]. *)
Definition ensureContextV2 : M unit :=
  ctx <- get_ctx;;
  if negb (defined (Ctx.contextV2 ctx)) then
    projectSettings <- call (newProjectSettings E);;
    modify_ctx (Ctx.set_contextV2 (Some (Context.mk projectSettings)))
  else ret tt.

(** [executeUserTaskV2(func, inputs, ctx)]. *)
Definition executeUserTaskV2 (func : Func.t) (has_ctx : bool) : M (Result Json) :=
  setCurrentStage Stage.userTask;;;
  modify_inputs (Inputs.set_stage (Some Stage.userTask));;;
  inputs <- get_inputs;;
  ctx <- get_ctx;;
  (match isConfigUnifyEnabled E
         && bool_decide (Inputs.env inputs = Some (getLocalEnvName E))
         && has_ctx,
         Ctx.envInfoV2 ctx with
   | true, Some envInfoV2 =>
       modify_ctx
         (Ctx.set_envInfoV2
            (Some (EnvInfoV2.mk (EnvInfoV2.envName envInfoV2)
                     (EnvConfig.mk (Some true)
                        (EnvConfig.rest (EnvInfoV2.config envInfoV2)))
                     (EnvInfoV2.state envInfoV2))))
   | _, _ => ret tt
   end);;;
  if routed func then
    ctx <- get_ctx;;
    match has_ctx, Ctx.solutionV2 ctx, Ctx.envInfoV2 ctx with
    | true, Some solutionV2, Some _ =>
        ensureContextV2;;;
        match v2_executeUserTask T solutionV2 with
        | Some executeUserTask_ =>
            ctx <- get_ctx;;
            (if negb (defined (Ctx.localSettings ctx))
             then modify_ctx (Ctx.set_localSettings (Some "{}"))
             else ret tt);;;
            res <- call (executeUserTask_ func);;
            (* for existing app *)
            inputs <- get_inputs;;
            (if isOk res
                && bool_decide (Func.method func = "addCapability")
                && match Inputs.capabilities inputs with
                   | Some capabilities => bool_decide (0 < length capabilities)
                   | None => false
                   end
             then _ <- ensureBasicFolderStructure E;; ret tt
             else ret tt);;;
            ret res
        | None => ret (err (FunctionRouterError T func))
        end
    | _, _, _ =>
        let name :=
          undefinedName E
            [has_ctx; has_ctx && defined (Ctx.solutionV2 ctx);
             has_ctx && defined (Ctx.envInfoV2 ctx)]
            ["ctx"; "ctx.solutionV2"; "ctx.envInfoV2"] in
        ret (err (ObjectIsUndefinedError
                    ("executeUserTask input stuff: " +:+ name)))
    end
  else ret (err (FunctionRouterError T func)).

(** [executeUserTaskV3(func, inputs, ctx)]. *)
Definition executeUserTaskV3 (func : Func.t) (has_ctx : bool) : M (Result Json) :=
  setCurrentStage Stage.userTask;;;
  modify_inputs (Inputs.set_stage (Some Stage.userTask));;;
  if routed func then
    ctx <- get_ctx;;
    match has_ctx, Ctx.solutionV3 ctx, Ctx.envInfoV3 ctx with
    | true, Some solutionV3, Some _ =>
        ensureContextV2;;;
        match v3_executeUserTask T solutionV3 with
        | Some executeUserTask_ => call (executeUserTask_ func)
        | None => ret (err (FunctionRouterError T func))
        end
    | _, _, _ =>
        let name :=
          undefinedName E
            [has_ctx; has_ctx && defined (Ctx.solutionV3 ctx);
             has_ctx && defined (Ctx.envInfoV3 ctx)]
            ["ctx"; "ctx.solutionV3"; "ctx.envInfoV3"] in
        ret (err (ObjectIsUndefinedError
                    ("executeUserTask input stuff: " +:+ name)))
    end
  else ret (err (FunctionRouterError T func)).

(** [executeUserTask(func, inputs)]: the body the dispatcher selects. *)
Definition executeUserTask_body (isV3 : bool) : Func.t -> bool -> M (Result Json) :=
  if isV3 then executeUserTaskV3 else executeUserTaskV2.

(** The loop of [getProjectConfigV3]: [for (const env of envNamesRes.value)
    { result = await loadEnvInfoV3(inputs, ctx.projectSettings, env, false);
    if (result.isErr()) return err(result.error);
    config.envInfos[env] = result.value }]. *)
Fixpoint loadEnvInfos (envs : list string) (envInfos : gmap string EnvInfoV3.t)
  : M (Result (gmap string EnvInfoV3.t)) :=
  match envs with
  | [] => ret (ok envInfos)
  | env :: envs =>
      ctx <- get_ctx;;
      result <- call (envInfoLoaderV3_loadEnvInfoV3 T (Ctx.projectSettings ctx)
                       env false);;
      match result with
      | err e => ret (err e)
      | ok value => loadEnvInfos envs (<[env := value]> envInfos)
      end
  end.

(** [getProjectConfigV3(inputs, ctx)]. *)
Definition getProjectConfigV3 (has_ctx : bool)
  : M (Result (option ProjectConfigV3.t)) :=
  ctx <- get_ctx;;
  match (if has_ctx then Ctx.projectSettings ctx else None) with
  | None => ret (err (ObjectIsUndefinedError "getProjectConfigV3 input stuff"))
  | Some projectSettings =>
      inputs <- get_inputs;;
      match truthy_path (Inputs.projectPath inputs) with
      | None => ret (ok None)
      | Some projectPath =>
          modify_inputs (Inputs.set_stage (Some Stage.getProjectConfig));;;
          setCurrentStage Stage.getProjectConfig;;;
          envNamesRes <- call (listAllEnvConfigs T projectPath);;
          match envNamesRes with
          | err e => ret (err e)
          | ok envNames =>
              envInfos <-? loadEnvInfos envNames ∅;;
              projectSettings <- the_projectSettings projectSettings;;
              ret (ok (Some (ProjectConfigV3.mk projectSettings envInfos)))
          end
      end
  end.

(** [_addFeature(inputs, ctx)]; [features] is [inputs.features], which the
    solution reads from the inputs it is handed. *)
Definition _addFeature (features : list string) (has_ctx : bool)
  : M (Result VoidT) :=
  ctx <- get_ctx;;
  match (if has_ctx then Ctx.solutionV3 ctx else None), Ctx.contextV2 ctx with
  | Some solutionV3, Some _ =>
      match v3_addFeature E solutionV3 with
      | Some addFeature_ =>
          _ <-? ensureBasicFolderStructure E;;
          call (addFeature_ features)
      | None => ret (ok Void)
      end
  | _, _ => ret (ok Void)
  end.

(** [init(inputs, ctx)]: the decorated entry of [_init]. *)
Definition init (has_ctx : bool) : M (Result (option path)) := _init E has_ctx.

End TaskBodies.

(** ** The APIM feature component *)

(** [Component] of the API package: a component of a V3 project. *)
Module Component.
Record t := mk {
  name : string;
  provision : option bool;
  deploy : option bool;
  connections : option (list string);
}.

(** [c.connections?.push(x)]. *)
Definition push_connection (x : string) (c : t) : t :=
  match connections c with
  | Some l => mk (name c) (provision c) (deploy c) (Some (l ++ [x]))
  | None => c
  end.
End Component.

(** [context.projectSetting] of a V3 context. *)
Module ProjectSettingsV3.
Record t := mk { appName : string; components : list Component.t }.
End ProjectSettingsV3.

(** What the plan or the execution of an action reports. *)
Inductive Effect :=
| Remark (text : string)
| FileEffect (operate : string) (filePath : path) (remarks : string).

(** [Action] of the API package, as far as [ApimFeature.add] builds it: a
    call of another action, a function with its [plan] and [execute], a
    group. *)
#[warnings="-register-all"]
Inductive Action :=
| CallAction (name : option string) (required : bool) (targetAction : string)
| FunctionAction (name : string)
    (plan : ProjectSettingsV3.t -> path -> Result (list Effect))
    (execute : ProjectSettingsV3.t -> path ->
               Result (list Effect) * ProjectSettingsV3.t)
| GroupAction (name : string) (mode : string) (actions : list Action).

(** What [ApimFeature] imports: the component names of [../constants],
    [getComponent] of [../workflow], [hasApi] of the settings helper. *)
Record ApimCollaborators := {
  ComponentNames_APIM : string;
  ComponentNames_TeamsTab : string;
  ComponentNames_TeamsBot : string;
  getComponent : ProjectSettingsV3.t -> string -> option Component.t;
  hasApi : ProjectSettingsV3.t -> bool;
}.

Section ApimFeature.

Variable E : Collaborators.
Variable A : ApimCollaborators.

(** [plan] of the action [apim-feature.configApim]. *)
Definition configApim_plan (projectSetting : ProjectSettingsV3.t) (_ : path)
  : Result (list Effect) :=
  match getComponent A projectSetting (ComponentNames_APIM A) with
  | Some _ => ok []
  | None => ok [Remark "add component 'apim' in projectSettings"]
  end.

(** The settings once [apimConfig] has been pushed: the object in the list
    is the object the later [connections?.push] calls change. *)
Definition with_component (projectSetting : ProjectSettingsV3.t)
    (apimConfig : Component.t) : ProjectSettingsV3.t :=
  ProjectSettingsV3.mk (ProjectSettingsV3.appName projectSetting)
    (ProjectSettingsV3.components projectSetting ++ [apimConfig]).

(** [execute] of the action [apim-feature.configApim]. *)
Definition configApim_execute (projectSetting : ProjectSettingsV3.t)
    (projectPath : path) : Result (list Effect) * ProjectSettingsV3.t :=
  match getComponent A projectSetting (ComponentNames_APIM A) with
  | Some _ => (ok [], projectSetting)
  | None =>
      let remarks := ["add component 'apim' in projectSettings"] in
      let apimConfig :=
        Component.mk (ComponentNames_APIM A) (Some true) (Some true) (Some []) in
      let apimConfig :=
        if defined (getComponent A (with_component projectSetting apimConfig)
                      (ComponentNames_TeamsTab A))
        then Component.push_connection "teams-tab" apimConfig else apimConfig in
      let apimConfig :=
        if defined (getComponent A (with_component projectSetting apimConfig)
                      (ComponentNames_TeamsBot A))
        then Component.push_connection "teams-bot" apimConfig else apimConfig in
      (ok [FileEffect "replace" (getProjectSettingsPath E projectPath)
             (String.concat ";" remarks)],
       with_component projectSetting apimConfig)
  end.

(** [ApimFeature.add(context, inputs)]. *)
Definition ApimFeature_add (projectSetting : ProjectSettingsV3.t)
  : Result (option Action) :=
  match getComponent A projectSetting (ComponentNames_APIM A) with
  | Some _ => ok None
  | None =>
      let hasFunc := hasApi A projectSetting in
      let dependentActions :=
        if negb hasFunc
        then [CallAction (Some "call:teams-api.add") true "teams-api.add"]
        else [] in
      let actions :=
        dependentActions ++
        [FunctionAction "apim-feature.configApim" configApim_plan configApim_execute;
         CallAction None true "bicep.init";
         CallAction (Some "call:apim-feature.generateCode") true
           "apim-feature.generateCode";
         CallAction (Some "call:apim.generateBicep") true "apim.generateBicep";
         CallAction (Some "call:apim-config.generateBicep") true
           "apim-config.generateBicep"] in
      ok (Some (GroupAction "apim-feature.add" "sequential" actions))
  end.

End ApimFeature.

(** The targets of the call actions of a group, in order. *)
Definition call_targets (a : Action) : list string :=
  match a with
  | GroupAction _ _ actions =>
      omap (fun a => match a with
                     | CallAction _ _ target => Some target
                     | _ => None
                     end) actions
  | _ => []
  end.

(** The function actions of a group. *)
Definition function_actions (a : Action) : list Action :=
  match a with
  | GroupAction _ _ actions =>
      List.filter (fun a => match a with FunctionAction _ _ _ => true | _ => false end)
        actions
  | _ => []
  end.

(** A computation that leaves the caller's input bag as it finds it,
    however it ends. *)
Definition inputs_kept {A} (m : M A) : Prop :=
  forall s, PS.inputs (m s).2 = PS.inputs s.

(** ** Samples for the further bodies *)

(** Solutions that answer a user task with the name of its method, and an
    environment manager that lists two environments and loads each. *)
Definition sampleT : TaskCollaborators := {|
  FunctionRouterError := fun func =>
    DelegatedError "FunctionRouterError" (Func.method func);
  v2_executeUserTask := fun _ => Some (fun func => quiet (ok (Func.method func)));
  v3_executeUserTask := fun _ => Some (fun func => quiet (ok (Func.method func)));
  listAllEnvConfigs := fun _ => quiet (ok ["dev"; "staging"]);
  envInfoLoaderV3_loadEnvInfoV3 := fun _ env _ =>
    quiet (ok (EnvInfoV3.mk env "{}" "{}"));
|}.

Definition sampleFunc : Func.t :=
  Func.mk (Some "fx-solution-azure") "addCapability".

(** An environment manager that lists three environments, the second of
    which cannot be loaded. *)
Definition sampleBrokenT : TaskCollaborators := {|
  FunctionRouterError := FunctionRouterError sampleT;
  v2_executeUserTask := v2_executeUserTask sampleT;
  v3_executeUserTask := v3_executeUserTask sampleT;
  listAllEnvConfigs := fun _ => quiet (ok ["dev"; "staging"; "prod"]);
  envInfoLoaderV3_loadEnvInfoV3 := fun _ env _ =>
    if String.eqb env "staging"
    then quiet (err (DelegatedError "core" "cannot load staging"))
    else quiet (ok (EnvInfoV3.mk env "{}" "{}"));
|}.

(** [getComponent] as a search by name, [hasApi] as the presence of the
    component [teams-api]. *)
Definition sampleA : ApimCollaborators := {|
  ComponentNames_APIM := "apim";
  ComponentNames_TeamsTab := "teams-tab";
  ComponentNames_TeamsBot := "teams-bot";
  getComponent := fun projectSetting name =>
    List.find (fun c => String.eqb (Component.name c) name)
      (ProjectSettingsV3.components projectSetting);
  hasApi := fun projectSetting =>
    existsb (fun c => String.eqb (Component.name c) "teams-api")
      (ProjectSettingsV3.components projectSetting);
|}.

(** A V3 project with a tab. *)
Definition sampleTabProject : ProjectSettingsV3.t :=
  ProjectSettingsV3.mk "app"
    [Component.mk "teams-tab" (Some true) (Some true) None].

(* ===================================================================== *)
(** * Part 5: theorems                                                   *)
(* ===================================================================== *)

(** Unfolding the monad and the state accessors, to run a body on a
    symbolic state. *)
Create HintDb async discriminated.
#[global] Hint Unfold bind ret throw try_catch try_finally get modify get_ctx
  get_inputs modify_ctx modify_inputs emit call fs_op pathExists ensureDir
  writeFile copy setCurrentStage with_inputs bind_ok set_result
  PS.ctx PS.inputs PS.world PS.fs PS.set_st PS.set_ctx PS.set_inputs
  PS.set_world PS.set_fs PS.set_result PS.set_locks PS.set_log : async.

Ltac run := repeat (progress (autounfold with async in *; cbn in * )).

(** ** Dispatch and declared chains *)

(** Every dispatcher delegates to one method, and that method reads the
    solution of the selected generation or none at all. *)
Lemma dispatch_reads_selected_generation isV3 op :
  solution_read_by (dispatch isV3 op) = None \/
  solution_read_by (dispatch isV3 op) = Some (generation_selected isV3).
Proof. destruct isV3, op; simpl; auto. Qed.

(** Under V2 every dispatched chain is pure; under V3 every dispatched chain
    but those of publish and execute-user-task is. *)
Lemma dispatched_chain_pure unify isV3 op :
  isV3 = false \/ (op <> publishApplication /\ op <> executeUserTask) ->
  pure_for (generation_selected isV3) (hooks_of unify (dispatch isV3 op)) = true.
Proof.
  intros [-> | [Hp He]]; [by destruct op, unify |].
  destruct isV3, op, unify; try reflexivity; congruence.
Qed.

(** C1 (the code departs from the claim): under V3 the dispatcher of publish
    delegates to [publishApplicationV3], whose body reads [ctx.solutionV3]
    and [ctx.envInfoV3], but whose declared chain holds the V2 environment
    loader, the V2 solution loader and the V2 environment writer: the chain
    is not pure for the selected generation. *)
Theorem publishApplicationV3_declares_V2_middleware unify :
  dispatch true publishApplication = Method.publishApplicationV3 /\
  solution_read_by Method.publishApplicationV3 = Some V3 /\
  generations_declared (hooks_of unify (dispatch true publishApplication))
    = [V2; V2; V2] /\
  pure_for (generation_selected true)
    (hooks_of unify (dispatch true publishApplication)) = false /\
  hooks_of unify Method.publishApplicationV3
    = hooks_of unify Method.publishApplicationV2.
Proof. by destruct unify. Qed.

(** What the mixed chain does on a project whose loaders all succeed: the V2
    loader fills [ctx.solutionV2], the body finds no [ctx.solutionV3] and
    returns [ok(Void)] without calling the solution (the sample solution's
    [publishApplication] would have returned an error). *)
Example publishApplicationV3_publishes_nothing :
  let r := FxCore_publishApplication sampleE sampleB true
             (sampleState sampleInputs sampleFS) in
  r.1 = Resolved (Some (ok VVoid)) /\
  Ctx.solutionV3 (PS.ctx r.2) = None /\
  Ctx.solutionV2 (PS.ctx r.2) = Some (SolutionV2.mk "fx-solution-azure").
Proof. vm_compute. auto. Qed.

(** The sibling chain, under V3, does call the V3 solution. *)
Example provisionResourcesV3_calls_solution :
  (FxCore_provisionResources sampleE sampleB true
     (sampleState sampleInputs sampleFS)).1 = Resolved (Some (ok VVoid)) /\
  Ctx.solutionV3
    (PS.ctx (FxCore_provisionResources sampleE sampleB true
               (sampleState sampleInputs sampleFS)).2)
  = Some (SolutionV3.mk "fx-solution-azure-v3").
Proof. vm_compute. auto. Qed.

(** C4: for provision, deploy and publish, in either generation, the
    declared chain is, in this order: ErrorHandler, ConcurrencyLock,
    ProjectMigrator, ProjectSettingsLoader, EnvironmentLoader,
    SolutionResolver, QuestionEngine, ContextInjector, ProjectSettingsWriter,
    EnvironmentWriter; [hooks] puts the method itself innermost, inside the
    two writers. *)
Theorem mutating_chain_order unify isV3 op :
  mutating op = true ->
  role_of <$> hooks_of unify (dispatch isV3 op) = standard_order /\
  forall (f : Middleware -> MiddlewareFn) (target : M unit),
    exists before pw ew,
      hooks_of unify (dispatch isV3 op) = before ++ [pw; ew] /\
      role_of pw = ProjectSettingsWriter /\ role_of ew = EnvironmentWriter /\
      compose (f <$> hooks_of unify (dispatch isV3 op)) target
      = compose (f <$> before) (f pw (f ew target)).
Proof.
  intros Hm. split; [by destruct op, isV3, unify |].
  intros f target.
  exists (take 8 (hooks_of unify (dispatch isV3 op))),
         (default ErrorHandlerMW (hooks_of unify (dispatch isV3 op) !! 8)),
         (default ErrorHandlerMW (hooks_of unify (dispatch isV3 op) !! 9)).
  destruct op; try discriminate; destruct isV3; repeat split; reflexivity.
Qed.

Lemma mutating_chain_order_witness :
  role_of <$> hooks_of false (dispatch true deployArtifacts) = standard_order.
Proof. apply (mutating_chain_order false true deployArtifacts). reflexivity. Defined.

(** ** Absent context fields *)

Section AbsentFields.

Variable E : Collaborators.

Lemma provisionResourcesV2_absent has_ctx s :
  absent_V2 has_ctx (PS.ctx s) = true ->
  provisionResourcesV2 E has_ctx s
  = (Resolved (err (ObjectIsUndefinedError "Provision input stuff")),
     at_stage Stage.provision s).
Proof.
  unfold absent_V2, provisionResourcesV2, at_stage. intros H.
  destruct s as [[c i w] r l g]. cbn in *.
  destruct has_ctx, (Ctx.solutionV2 c), (Ctx.contextV2 c), (Ctx.envInfoV2 c);
    cbn in *; try discriminate; reflexivity.
Qed.

Lemma publishApplicationV2_absent has_ctx s :
  absent_V2 has_ctx (PS.ctx s) = true ->
  publishApplicationV2 E has_ctx s
  = (Resolved (err (ObjectIsUndefinedError
       ("publish input stuff: " +:+
        undefinedName E
          [has_ctx; has_ctx && defined (Ctx.solutionV2 (PS.ctx s));
           has_ctx && defined (Ctx.contextV2 (PS.ctx s));
           has_ctx && defined (Ctx.envInfoV2 (PS.ctx s))]
          ["ctx"; "ctx.solutionV2"; "ctx.contextV2"; "ctx.envInfoV2"]))),
     at_stage Stage.publish s).
Proof.
  unfold absent_V2, publishApplicationV2, at_stage. intros H.
  destruct s as [[c i w] r l g]. cbn in *.
  destruct has_ctx, (Ctx.solutionV2 c), (Ctx.contextV2 c), (Ctx.envInfoV2 c);
    cbn in *; try discriminate; reflexivity.
Qed.

Lemma deployArtifactsV2_absent has_ctx s :
  absent_V2 has_ctx (PS.ctx s) = true ->
  exists e,
    deployArtifactsV2 E has_ctx s = (Resolved (err e), at_stage Stage.deploy s) /\
    (e = ObjectIsUndefinedError "deploy input stuff" \/
     e = OperationNotSupportedForExistingAppError "deploy" \/
     e = ObjectIsUndefinedError
           ("Deploy input stuff: " +:+
            undefinedName E
              [true; defined (Ctx.solutionV2 (PS.ctx s));
               defined (Ctx.contextV2 (PS.ctx s));
               defined (Ctx.envInfoV2 (PS.ctx s))]
              ["ctx"; "ctx.solutionV2"; "ctx.contextV2"; "ctx.envInfoV2"])).
Proof.
  unfold absent_V2, deployArtifactsV2, at_stage. intros H.
  destruct s as [[c i w] r l g]. cbn in *.
  destruct has_ctx; cbn in *; [| eauto].
  destruct (Ctx.projectSettings c) as [ps|]; cbn; [| eauto].
  destruct (isPureExistingApp E ps); cbn; [eauto |].
  destruct (Ctx.solutionV2 c), (Ctx.contextV2 c), (Ctx.envInfoV2 c);
    cbn in *; try discriminate; eauto 6.
Qed.

Lemma localDebugV2_absent has_ctx s :
  negb (has_ctx && defined (Ctx.projectSettings (PS.ctx s))
        && defined (Ctx.solutionV2 (PS.ctx s))
        && defined (Ctx.contextV2 (PS.ctx s))) = true ->
  exists msg,
    localDebugV2 E has_ctx s
    = (Resolved (err (ObjectIsUndefinedError msg)), at_stage Stage.debug s).
Proof.
  unfold localDebugV2, at_stage. intros H.
  destruct s as [[c i w] r l g]. cbn in *.
  destruct has_ctx; cbn in *; [| eauto].
  destruct (Ctx.projectSettings c) as [ps|]; cbn in *; [| eauto].
  destruct (Ctx.solutionV2 c), (Ctx.contextV2 c);
    cbn in *; try discriminate; eauto.
Qed.

Lemma stageV3_absent has_ctx s :
  absent_V3 has_ctx (PS.ctx s) = true ->
  provisionResourcesV3 E has_ctx s = (Resolved (ok Void), at_stage Stage.provision s) /\
  deployArtifactsV3 E has_ctx s = (Resolved (ok Void), at_stage Stage.deploy s) /\
  publishApplicationV3 E has_ctx s = (Resolved (ok Void), at_stage Stage.publish s).
Proof.
  unfold absent_V3, provisionResourcesV3, deployArtifactsV3,
    publishApplicationV3, at_stage.
  intros H. destruct s as [[c i w] r l g]. cbn in *.
  destruct has_ctx, (Ctx.solutionV3 c), (Ctx.contextV2 c), (Ctx.envInfoV3 c);
    cbn in *; try discriminate; auto.
Qed.

Lemma permissionV3_absent stage operation has_ctx s p :
  truthy_path (Inputs.projectPath (PS.inputs s)) = Some p ->
  negb (has_ctx && defined (Ctx.contextV2 (PS.ctx s))
        && defined (Ctx.envInfoV3 (PS.ctx s))) = true ->
  permissionV3 stage operation has_ctx s
  = (Resolved (err (ObjectIsUndefinedError "ctx, contextV2, envInfoV3")),
     at_stage stage s).
Proof.
  unfold permissionV3, at_stage. intros Hp H.
  destruct s as [[c i w] r l g]. cbn in *.
  replace (Inputs.projectPath (Inputs.set_stage (Some stage) i))
    with (Inputs.projectPath i) by (by destruct i).
  rewrite Hp. cbn.
  destruct has_ctx, (Ctx.contextV2 c), (Ctx.envInfoV3 c);
    cbn in *; try discriminate; reflexivity.
Qed.

End AbsentFields.

(** C9 (as stated, refuted): with the hook context injected and the V2
    fields loaded but no V3 solution and no V3 environment info in the
    context, [provisionResourcesV3] returns success. *)
Lemma provisionResourcesV3_absent_solution_returns_ok :
  let s := PS.set_ctx sampleCtx (sampleState sampleInputs sampleFS) in
  Ctx.solutionV3 (PS.ctx s) = None /\
  Ctx.envInfoV3 (PS.ctx s) = None /\
  (provisionResourcesV3 sampleE true s).1 = Resolved (ok Void).
Proof. vm_compute. auto. Qed.

(** C9 (amended): when the hook context or a field a body checks is absent,
    - the V2 bodies of provision, publish, deploy and local debug return an
      error: [ObjectIsUndefinedError] (with a fixed text for provision, with
      [undefinedName] of the checked fields for publish), or, for deploy on
      a pure existing app, [OperationNotSupportedForExistingAppError];
    - the V3 bodies of grant, check and list return
      [ObjectIsUndefinedError("ctx, contextV2, envInfoV3")];
    - the V3 bodies of provision, deploy and publish return [ok(Void)] and
      call nothing. *)
Theorem absent_context_field_outcome (E : Collaborators) has_ctx s :
  (absent_V2 has_ctx (PS.ctx s) = true ->
   (provisionResourcesV2 E has_ctx s).1
     = Resolved (err (ObjectIsUndefinedError "Provision input stuff")) /\
   (publishApplicationV2 E has_ctx s).1
     = Resolved (err (ObjectIsUndefinedError
         ("publish input stuff: " +:+
          undefinedName E
            [has_ctx; has_ctx && defined (Ctx.solutionV2 (PS.ctx s));
             has_ctx && defined (Ctx.contextV2 (PS.ctx s));
             has_ctx && defined (Ctx.envInfoV2 (PS.ctx s))]
            ["ctx"; "ctx.solutionV2"; "ctx.contextV2"; "ctx.envInfoV2"]))) /\
   exists e, (deployArtifactsV2 E has_ctx s).1 = Resolved (err e) /\
     ((exists msg, e = ObjectIsUndefinedError msg) \/
      e = OperationNotSupportedForExistingAppError "deploy")) /\
  (negb (has_ctx && defined (Ctx.projectSettings (PS.ctx s))
         && defined (Ctx.solutionV2 (PS.ctx s))
         && defined (Ctx.contextV2 (PS.ctx s))) = true ->
   exists msg, (localDebugV2 E has_ctx s).1
               = Resolved (err (ObjectIsUndefinedError msg))) /\
  (negb (has_ctx && defined (Ctx.contextV2 (PS.ctx s))
         && defined (Ctx.envInfoV3 (PS.ctx s))) = true ->
   defined (truthy_path (Inputs.projectPath (PS.inputs s))) = true ->
   forall op, In op [grantPermissionV3 E; checkPermissionV3 E; listCollaboratorV3 E] ->
     (op has_ctx s).1
     = Resolved (err (ObjectIsUndefinedError "ctx, contextV2, envInfoV3"))) /\
  (absent_V3 has_ctx (PS.ctx s) = true ->
   provisionResourcesV3 E has_ctx s = (Resolved (ok Void), at_stage Stage.provision s) /\
   deployArtifactsV3 E has_ctx s = (Resolved (ok Void), at_stage Stage.deploy s) /\
   publishApplicationV3 E has_ctx s = (Resolved (ok Void), at_stage Stage.publish s)).
Proof.
  repeat apply conj.
  - intros H. rewrite provisionResourcesV2_absent, publishApplicationV2_absent by done.
    repeat split.
    destruct (deployArtifactsV2_absent E has_ctx s H) as (e & -> & He).
    exists e. split; [done |].
    destruct He as [-> | [-> | ->]]; eauto.
  - intros H. destruct (localDebugV2_absent E has_ctx s H) as [msg ->]. eauto.
  - intros H Hp op Hop.
    destruct (truthy_path (Inputs.projectPath (PS.inputs s))) as [p|] eqn:Ep;
      [| discriminate].
    simpl in Hop. destruct Hop as [<- | [<- | [<- | []]]];
      unfold grantPermissionV3, checkPermissionV3, listCollaboratorV3;
      by erewrite permissionV3_absent.
  - apply stageV3_absent.
Qed.

(** ** Local debug: the three outcomes of [provisionLocalResource] *)




(** ** Chains: induction over the declared list *)

Section Chains.

Variable E : Collaborators.
Variable B : Behaviours.

Lemma compose_app (f : Middleware -> MiddlewareFn) l1 l2 final :
  compose (f <$> (l1 ++ l2)) final = compose (f <$> l1) (compose (f <$> l2) final).
Proof. induction l1 as [|m l1 IH]; cbn; [done | by rewrite IH]. Qed.

(** A property of computations that every middleware carries from [next]
    to itself holds of the whole chain when it holds of the method. *)
Lemma compose_ind (P : M unit -> Prop) :
  (forall m next, P next -> P (interp E B m next)) ->
  forall chain final, P final -> P (compose (interp E B <$> chain) final).
Proof.
  intros Hstep chain final Hfinal.
  induction chain as [|m chain IH]; cbn; [done | by apply Hstep].
Qed.

(** The same for a relation between two runs of one chain. *)
Lemma compose_rel (R : M unit -> M unit -> Prop) :
  (forall m n n', R n n' -> R (interp E B m n) (interp E B m n')) ->
  forall chain f f', R f f' ->
    R (compose (interp E B <$> chain) f) (compose (interp E B <$> chain) f').
Proof.
  intros Hstep chain f f' Hf.
  induction chain as [|m chain IH]; cbn; [done | by apply Hstep].
Qed.

(** The persisting phase of any middleware resolves, and changes only the
    disk and the log, as [persisted] says. *)
Lemma persist_spec m s :
  persist E m s
  = (Resolved tt,
     PS.set_log (PS.log s ++ (if is_writer m then [Persisted m] else []))
       (PS.set_fs (persisted E s m (PS.fs s)) s)).
Proof.
  destruct s as [[c i [fs stg]] r l g].
  unfold persisted, document_of, persist, persist_projectSettings,
    persist_envInfo, persist_envInfoV3, persist_localSettings.
  destruct m as [| | | | sk | sk | | | | | | | sk | sk |]; run;
    rewrite ?app_nil_r; repeat case_match; simplify_eq/=; reflexivity.
Qed.

End Chains.

(** ** Faults and the outermost ErrorHandler *)

Section Faults.

Variable E : Collaborators.
Variable B : Behaviours.

Lemma invoke_yields {T} name (inj : T -> Value) method :
  yields_result (invoke name inj method).
Proof.
  intros s u s' H. unfold invoke in H. run.
  destruct (method _ _) as [[r|t] s1]; simplify_eq/=. eauto.
Qed.

Lemma interp_yields m next :
  yields_result next -> yields_result (interp E B m next).
Proof.
  intros Hn s u s' H.
  destruct m; cbn in H;
    unfold ErrorHandler_fn, ConcurrentLocker_fn, loading, ContextInjector_fn,
      writer_fn, acquire, release in H; run.
  all: try rewrite persist_spec in H.
  all: repeat case_match; simplify_eq/=; eauto.
Qed.

(** Every decorated method of the class has [ErrorHandlerMW] first. *)
Lemma hooks_of_head unify m :
  hooks_of unify m = [] \/
  exists rest, hooks_of unify m = ErrorHandlerMW :: rest.
Proof. destruct m; cbn; eauto. Qed.

(** A chain headed by ErrorHandler resolves, whatever the rest of the chain
    and the method do, and the call returns a result. *)
Lemma hooks_resolves {T} rest name (inj : T -> Value) method s :
  exists r s',
    hooks E B (ErrorHandlerMW :: rest) name inj method s = (Resolved (Some r), s').
Proof.
  unfold hooks. cbn [fmap list_fmap compose interp].
  pose proof (compose_ind E B yields_result interp_yields rest _
                (invoke_yields name inj method)) as Hy.
  unfold ErrorHandler_fn. run.
  destruct (compose _ _ _) as [[[]|t] s1] eqn:Hk; cbn.
  - destruct (Hy _ _ _ Hk) as [r Hr]. rewrite Hr. eauto.
  - eauto.
Qed.

End Faults.




(** ** Writers *)

Section Writers.

Variable E : Collaborators.
Variable B : Behaviours.

(** In every declared chain, what follows [ContextInjectorMW] is a list of
    writers without repetition. *)
Lemma after_injector_writers unify m :
  forallb is_writer (after_injector (hooks_of unify m)) = true /\
  NoDup (after_injector (hooks_of unify m)).
Proof.
  split; [by destruct m, unify |].
  destruct m, unify; cbn;
    match goal with |- NoDup ?l => apply (bool_decide_unpack (NoDup l)) end;
    vm_compute; exact I.
Qed.

Lemma document_of_flushed ws s m :
  document_of E (flushed E ws s) m = document_of E s m.
Proof. by destruct s as [[c i [fs stg]] r l g]. Qed.

(** A chain of writers around a method: the method runs, then every writer
    persists, whether the method resolved or rejected. *)
Lemma writers_flush ws (final : M unit) s :
  forallb is_writer ws = true ->
  compose (interp E B <$> ws) final s
  = let '(o, s1) := final s in (o, flushed E ws s1).
Proof.
  revert s. induction ws as [|w ws IH]; intros s Hw.
  - cbn. destruct (final s) as [o [[c i [fs stg]] r l g]].
    unfold flushed. cbn. by rewrite app_nil_r.
  - cbn in Hw. apply andb_prop in Hw as [Hw Hws].
    cbn [fmap list_fmap compose].
    replace (interp E B w) with (writer_fn E w) by (by destruct w).
    unfold writer_fn, try_finally.
    rewrite IH by done. destruct (final s) as [o s1].
    rewrite persist_spec, Hw. f_equal.
    unfold flushed. rewrite reverse_cons, fmap_app, app_assoc.
    destruct s1 as [[c i [fs stg]] r l g]. reflexivity.
Qed.

End Writers.

Lemma occurrences_absent (l : list Event) (e : Event) :
  e ∉ l -> occurrences e l = 0.
Proof.
  unfold occurrences. induction l as [|x l IH]; intros He; [done |].
  apply not_elem_of_cons in He as [Hne He].
  rewrite filter_cons_False by congruence. auto.
Qed.

Lemma occurs_once (l : list Event) (e : Event) :
  NoDup l -> e ∈ l -> occurrences e l = 1.
Proof.
  induction 1 as [|x l Hx Hl IH]; intros He.
  - by apply elem_of_nil in He.
  - unfold occurrences in *. apply elem_of_cons in He as [-> | He].
    + rewrite filter_cons_True by done. cbn. f_equal.
      by apply occurrences_absent.
    + rewrite filter_cons_False; [auto |]. intros ->. contradiction.
Qed.

(** Membership in a list that is written out. *)
Ltac in_list :=
  apply list_elem_of_In; cbn; repeat (first [left; reflexivity | right]).

Section WritersOnFailure.

Variable E : Collaborators.
Variable B : Behaviours.

(** Every declared chain that contains [ContextInjectorMW] is: what
    precedes it, the injector, the writers. *)
Lemma chain_split unify m :
  ContextInjectorMW ∈ hooks_of unify m ->
  exists before,
    hooks_of unify m
    = before ++ ContextInjectorMW :: after_injector (hooks_of unify m).
Proof.
  intros Hin.
  destruct m; cbn in *;
    try (by apply elem_of_nil in Hin);
    match goal with
    | |- context [ContextInjectorMW :: ?ws] =>
        match goal with
        | |- exists b, ?l = _ =>
            exists (take (length l - S (length ws)) l); reflexivity
        end
    end.
Qed.

Lemma ContextInjector_run next s :
  ContextInjector_fn next s = next (injected_state s).
Proof. by destruct s as [[c i [fs stg]] r l g]. Qed.

(** C3 (amended): in a pipeline run of a method whose chain declares
    ProjectSettingsWriter and an EnvironmentWriter after ContextInjector,
    once ContextInjector has run and the method has failed (its promise
    rejected, or it returned a failure), each of the two writers persists
    exactly once, after the method; the context is the one the method left;
    and the disk is the disk the method left with, on top of it, the
    document each declared writer computes from that context: the settings
    document holds the project settings as of the failure point. *)
Theorem writers_run_once_after_failure unify m {T} (inj : T -> Value)
    (body : bool -> M (Result T)) ew s o s_f :
  let ws := after_injector (hooks_of unify m) in
  ProjectSettingsWriterMW ∈ ws ->
  ew ∈ ws -> role_of ew = EnvironmentWriter ->
  invoke m inj body (injected_state s) = (o, s_f) ->
  failed o s_f ->
  let run := interp E B ContextInjectorMW
               (compose (interp E B <$> ws) (invoke m inj body)) s in
  run = (o, flushed E ws s_f) /\
  (exists before, forall final,
      compose (interp E B <$> hooks_of unify m) final
      = compose (interp E B <$> before)
          (interp E B ContextInjectorMW (compose (interp E B <$> ws) final))) /\
  (exists events,
      PS.log run.2 = PS.log s_f ++ events /\
      occurrences (Persisted ProjectSettingsWriterMW) events = 1 /\
      occurrences (Persisted ew) events = 1) /\
  PS.ctx run.2 = PS.ctx s_f /\
  PS.inputs run.2 = PS.inputs s_f /\
  failed run.1 run.2 /\
  PS.fs run.2 = foldr (persisted E s_f) (PS.fs s_f) ws /\
  (forall ps p,
      Ctx.projectSettings (PS.ctx s_f) = Some ps ->
      Inputs.projectPath (PS.inputs s_f) = Some p ->
      PS.fs run.2 !! getProjectSettingsPath E p = Some (File (SettingsJson ps))).
Proof.
  intros ws Hpw Hew Hrole Hinv Hfail run.
  destruct (after_injector_writers unify m) as [Hws Hnd]. fold ws in Hws, Hnd.
  assert (Hrun : run = (o, flushed E ws s_f)).
  { subst run. cbn [interp].
    rewrite ContextInjector_run, writers_flush by done. by rewrite Hinv. }
  rewrite Hrun. cbn [fst snd].
  split; [done |]. split.
  { destruct (chain_split unify m) as [before Hb].
    - revert Hpw. subst ws.
      destruct m; cbn; intros Hpw;
        first [by apply elem_of_nil in Hpw | in_list].
    - exists before. intros final. rewrite Hb at 1.
      rewrite compose_app. reflexivity. }
  split.
  { exists (Persisted <$> reverse ws). split; [by destruct s_f as [[? ? []] ? ? ?] |].
    assert (NoDup (Persisted <$> reverse ws)) as Hnd'.
    { apply NoDup_fmap_2; [intros ? ? ?; congruence |].
      by rewrite reverse_Permutation. }
    split; apply occurs_once; try done;
      apply list_elem_of_fmap_2, elem_of_reverse; done. }
  destruct s_f as [[c i [fs stg]] r l g].
  split; [done |]. split; [done |]. split.
  { destruct Hfail as [Hf | Hf]; [by left | by right]. }
  split; [done |].
  intros ps p Hps Hp. cbn in *.
  assert (exists rest, ws = ProjectSettingsWriterMW :: rest) as [rest ->].
  { revert Hpw. subst ws. destruct m, unify; cbn; intros Hpw;
      first [ by apply elem_of_nil in Hpw
            | by eauto
            | apply list_elem_of_In in Hpw; cbn in Hpw; intuition discriminate ]. }
  cbn. unfold persisted at 1, document_of. cbn. rewrite Hp, Hps. cbn.
  apply lookup_insert_eq.
Qed.

End WritersOnFailure.

Lemma writers_run_once_after_failure_witness :
  let s := PS.set_ctx sampleCtx (sampleState sampleInputs sampleFS) in
  let run := interp sampleE sampleB ContextInjectorMW
               (compose (interp sampleE sampleB <$>
                           after_injector (hooks_of false Method.provisionResourcesV2))
                  (invoke Method.provisionResourcesV2 inj_void sampleFailingBody)) s in
  PS.fs run.2 !! getProjectSettingsPath sampleE ["home"; "app"]
  = Some (File (SettingsJson sampleRenamed)).
Proof.
  intros s run.
  pose proof (writers_run_once_after_failure sampleE sampleB false
                Method.provisionResourcesV2 inj_void sampleFailingBody
                (EnvInfoWriterMW None) s (Resolved tt)
                (invoke Method.provisionResourcesV2 inj_void sampleFailingBody
                   (injected_state s)).2) as H.
  cbv zeta in H.
  destruct H as (_ & _ & _ & _ & _ & _ & _ & Hfile).
  - in_list.
  - in_list.
  - reflexivity.
  - apply injective_projections; [vm_compute; reflexivity | reflexivity].
  - right. eexists. vm_compute. reflexivity.
  - apply Hfile; reflexivity.
Defined.

(** C3 (as stated, refuted): the chain of [grantPermissionV2] declares no
    writer.  In this run ContextInjector has run and the method has failed,
    and neither ProjectSettingsWriter nor EnvironmentWriter executes: the
    log holds the invocation only and no settings document is written. *)
Lemma grantPermission_failure_runs_no_writer :
  let s := sampleState sampleInputs sampleFS in
  let run := FxCore_grantPermission sampleE sampleB false s in
  run.1 = Resolved (Some (err (DelegatedError "solution" "denied"))) /\
  Ctx.injected (PS.ctx run.2) = true /\
  PS.log run.2 = [Invoked Method.grantPermissionV2] /\
  occurrences (Persisted ProjectSettingsWriterMW) (PS.log run.2) = 0 /\
  occurrences (Persisted (EnvInfoWriterMW None)) (PS.log run.2) = 0 /\
  PS.fs run.2 !! getProjectSettingsPath sampleE ["home"; "app"] = None.
Proof. cbv zeta. repeat apply conj; vm_compute; reflexivity. Qed.

(** ** The advisory lock *)

Section Lock.

Variable E : Collaborators.
Variable B : Behaviours.

(** With the lock of the project path held, ConcurrencyLock fails at once:
    the rest of the chain does not run and nothing but the result changes. *)
Lemma locker_busy next s p :
  Inputs.projectPath (PS.inputs s) = Some p ->
  p ∈ PS.locks s ->
  ConcurrentLocker_fn next s
  = (Resolved tt, PS.set_result (Some (err (ConcurrentError p))) s).
Proof.
  intros Hp Hin. unfold ConcurrentLocker_fn, acquire. run.
  rewrite Hp. cbn. by rewrite bool_decide_eq_true_2.
Qed.

(** With the lock free, the rest of the chain runs with the lock held, and
    the lock is released however the rest ends. *)
Lemma locker_free next s p :
  Inputs.projectPath (PS.inputs s) = Some p ->
  p ∉ PS.locks s ->
  ConcurrentLocker_fn next s
  = let '(o, s1) := next (PS.set_locks ({[p]} ∪ PS.locks s) s) in
    (o, PS.set_locks (PS.locks s1 ∖ {[p]}) s1).
Proof.
  intros Hp Hin. unfold ConcurrentLocker_fn, acquire, release. run.
  rewrite Hp. cbn. rewrite bool_decide_eq_false_2 by done. cbn.
  by destruct (next _) as [o s1].
Qed.

Lemma interp_neutral m k :
  lock_neutral k -> lock_neutral (interp E B m k).
Proof.
  intros Hn s.
  destruct m; cbn;
    unfold ErrorHandler_fn, ConcurrentLocker_fn, loading, ContextInjector_fn,
      writer_fn, acquire, release; run;
    try rewrite persist_spec;
    repeat case_match; simplify_eq/=; try done;
    try (rewrite Hn; reflexivity);
    repeat match goal with
      | H : k ?s0 = (_, _) |- _ =>
          let Hl := fresh in
          pose proof (Hn s0) as Hl; rewrite H in Hl; cbn in Hl; clear H
      end;
    try congruence.
  apply bool_decide_eq_false_1 in H1. rewrite H0.
  apply set_eq. intros x.
  rewrite elem_of_difference, elem_of_union, elem_of_singleton.
  split; [by intros [[-> | ?] ?] |].
  intros Hx. split; [by right | by intros ->].
Qed.

Lemma invoke_neutral {T} name (inj : T -> Value) method :
  (forall b, lock_neutral (method b)) -> lock_neutral (invoke name inj method).
Proof.
  intros Hm s. unfold invoke. run.
  destruct (method _ _) as [[r|t] s1] eqn:Hr; cbn;
    match type of Hr with
    | method ?b ?s0 = _ => pose proof (Hm b s0) as Hl; by rewrite Hr in Hl
    end.
Qed.

(** A decorated call leaves the lock table as it found it, whether it
    resolves or rejects, when its method does. *)
Lemma hooks_neutral {T} chain name (inj : T -> Value) method :
  (forall b, lock_neutral (method b)) ->
  lock_neutral (hooks E B chain name inj method).
Proof.
  intros Hm s. unfold hooks. run.
  pose proof (compose_ind E B lock_neutral interp_neutral chain _
                (invoke_neutral name inj method Hm)) as Hc.
  destruct (compose _ _ _) as [[[]|t] s1] eqn:Hk; cbn;
    match type of Hk with
    | _ ?s0 = _ => pose proof (Hc s0) as Hl; by rewrite Hk in Hl
    end.
Qed.

Lemma as_separate_call_neutral {A} inputs (m : M A) :
  lock_neutral m -> lock_neutral (as_separate_call inputs m).
Proof.
  intros Hm s. unfold as_separate_call.
  destruct (m _) as [o s1] eqn:Hr. cbn.
  pose proof (Hm (PS.set_inputs inputs s)) as Hl. by rewrite Hr in Hl.
Qed.

(** An operation started on a project path whose lock is held fails at
    once with the lock error; its method does not run, and the state it
    shares with the holder is untouched. *)
Lemma second_fails_fast {T} rest name (inj : T -> Value) method inputs p s :
  Inputs.projectPath inputs = Some p ->
  p ∈ PS.locks s ->
  as_separate_call inputs
    (hooks E B (ErrorHandlerMW :: ConcurrentLockerMW :: rest) name inj method) s
  = (Resolved (Some (err (ConcurrentError p))), s).
Proof.
  intros Hp Hin. unfold as_separate_call, hooks.
  cbn [fmap list_fmap compose interp]. unfold ErrorHandler_fn.
  unfold bind at 1 2. unfold modify at 1. unfold try_catch.
  rewrite (locker_busy _ _ p) by (by destruct s as [[c i w] r l g]).
  destruct s as [[c i w] r l g]. reflexivity.
Qed.

(** Two runs of one chain agree when the methods agree on every state in
    which the lock of [p] is held: the chain reaches the method with the
    locks it was entered with, or more. *)
Lemma compose_agree_locked p chain (f f' : M unit) :
  (forall s, p ∈ PS.locks s -> f s = f' s) ->
  forall s, p ∈ PS.locks s ->
    compose (interp E B <$> chain) f s = compose (interp E B <$> chain) f' s.
Proof.
  apply (compose_rel E B (fun n n' => forall s, p ∈ PS.locks s -> n s = n' s)).
  intros m n n' Hn s Hin.
  destruct m; cbn;
    unfold ErrorHandler_fn, ConcurrentLocker_fn, loading, ContextInjector_fn,
      writer_fn, acquire, release; run;
    rewrite ?Hn by done; try reflexivity;
    repeat case_match; simplify_eq/=; try done;
    rewrite ?Hn in * by (cbn; first [done | by apply elem_of_union_r]);
    congruence.
Qed.

#[local] Arguments ConcurrentLocker_fn : simpl never.
#[local] Arguments compose : simpl never.

(** Two decorated calls whose methods agree whenever the lock of [p] is
    held agree on a state in which [p] is the project path and its lock is
    free: the chain takes the lock before it reaches the method. *)
Lemma hooks_agree_locked {T} rest name (inj : T -> Value) body body' p s :
  Inputs.projectPath (PS.inputs s) = Some p ->
  p ∉ PS.locks s ->
  (forall b s0, p ∈ PS.locks s0 -> body b s0 = body' b s0) ->
  hooks E B (ErrorHandlerMW :: ConcurrentLockerMW :: rest) name inj body s
  = hooks E B (ErrorHandlerMW :: ConcurrentLockerMW :: rest) name inj body' s.
Proof.
  intros Hp Hfree Hb.
  assert (Hk : forall s0,
    Inputs.projectPath (PS.inputs s0) = Some p -> p ∉ PS.locks s0 ->
    ConcurrentLocker_fn (compose (interp E B <$> rest) (invoke name inj body)) s0
    = ConcurrentLocker_fn (compose (interp E B <$> rest) (invoke name inj body')) s0).
  { intros s0 Hp0 Hfree0. rewrite !(locker_free _ _ p) by done.
    erewrite compose_agree_locked; [reflexivity | | cbn; by apply elem_of_union_l, elem_of_singleton].
    intros s1 Hin. unfold invoke. run. by rewrite Hb. }
  unfold hooks. cbn [fmap list_fmap interp].
  change (compose (?f :: ?g :: ?l) ?k) with (f (g (compose l k))).
  unfold ErrorHandler_fn. run.
  rewrite Hk by (by destruct s as [[c i w] r l g]). reflexivity.
Qed.

(** The mutating operations take the lock right after ErrorHandler. *)
Lemma mutating_chain_locks unify isV3 op :
  mutating op = true ->
  exists rest,
    hooks_of unify (dispatch isV3 op)
    = ErrorHandlerMW :: ConcurrentLockerMW :: rest.
Proof. intros Hm. destruct op; try discriminate; destruct isV3; cbn; eauto. Qed.


End Lock.


(** The same run, evaluated: the operation started while provision holds
    the lock of [home/app] gets the lock error and its method is never
    invoked; once provision has completed, deploy on the same path runs. *)
Example second_operation_is_refused :
  let s := sampleState sampleInputs sampleFS in
  let second :=
    as_separate_call sampleInputs
      (decorated sampleE sampleB false (dispatch false deployArtifacts) inj_void
         (deployArtifactsV2 sampleE)) in
  let first :=
    decorated sampleE sampleB false (dispatch false provisionResources) inj_void
      (fun _ => x <- ret tt;; r <- second;; sampleRelay x r) in
  (first s).1 = Resolved (Some (err (ConcurrentError ["home"; "app"]))) /\
  PS.log (first s).2
  = [Invoked Method.provisionResourcesV2; Persisted (EnvInfoWriterMW None);
     Persisted ProjectSettingsWriterMW] /\
  (decorated sampleE sampleB false (dispatch false deployArtifacts) inj_void
     (deployArtifactsV2 sampleE) (first s).2).1
  = Resolved (Some (ok VVoid)).
Proof. cbv zeta. repeat apply conj; vm_compute; reflexivity. Qed.

(** ** The file system *)

Section FileSystem.

Implicit Types (fs : FS) (p q : path).

Lemma foldr_mkdir_lookup fs (l : list path) q :
  foldr (fun a acc => <[a := Dir]> acc) fs l !! q
  = if decide (q ∈ l) then Some Dir else fs !! q.
Proof.
  induction l as [|a l IH]; cbn.
  - rewrite decide_False; [done | apply not_elem_of_nil].
  - destruct (decide (a = q)) as [-> | Hne].
    + rewrite lookup_insert_eq, decide_True; [done | apply list_elem_of_here].
    + rewrite lookup_insert_ne, IH by done.
      destruct (decide (q ∈ l)) as [Hin | Hout].
      * rewrite decide_True; [done | by apply list_elem_of_further].
      * rewrite decide_False; [done |].
        rewrite elem_of_cons. intros [-> | ?]; done.
Qed.

(** [mkdirs] creates directories only: no file appears, disappears or
    changes. *)
Lemma mkdirs_files p fs fs' q c :
  mkdirs p fs = inr fs' ->
  fs' !! q = Some (File c) <-> fs !! q = Some (File c).
Proof.
  unfold mkdirs. destruct (List.find _ _) as [a|] eqn:Hfind; [done |].
  intros [= <-]. rewrite foldr_mkdir_lookup.
  destruct (decide (q ∈ ancestors p)) as [Hin | Hout]; [| done].
  pose proof (List.find_none _ _ Hfind q) as Hq.
  rewrite <- list_elem_of_In in Hq. specialize (Hq Hin).
  unfold is_file in Hq. split; [done |].
  intros Hf. by rewrite Hf in Hq.
Qed.

(** Where every directory on the way is there already, [mkdirs] changes
    nothing. *)
Lemma mkdirs_existing p fs :
  (forall q, q ∈ ancestors p -> fs !! q = Some Dir) ->
  mkdirs p fs = inr fs.
Proof.
  intros Hall. unfold mkdirs.
  destruct (List.find _ _) as [a|] eqn:Hfind.
  - apply List.find_some in Hfind as [Hin Hfile].
    rewrite <- list_elem_of_In in Hin. unfold is_file in Hfile.
    by rewrite (Hall a Hin) in Hfile.
  - f_equal. apply map_eq. intros q. rewrite foldr_mkdir_lookup.
    destruct (decide (q ∈ ancestors p)) as [Hin | Hout]; [| done].
    by rewrite Hall.
Qed.

Lemma foldr_insert_lookup_outside dst (l : list (path * Node)) fs q :
  (forall e, e ∈ l -> dst `prefix_of` e.1) ->
  ~ dst `prefix_of` q ->
  foldr (fun e acc => <[e.1 := e.2]> acc) fs l !! q = fs !! q.
Proof.
  intros Hl Hq. induction l as [|e l IH]; cbn; [done |].
  rewrite lookup_insert_ne.
  - apply IH. intros e' He'. apply Hl. by apply list_elem_of_further.
  - intros Heq. apply Hq. rewrite <- Heq. apply Hl. apply list_elem_of_here.
Qed.

Lemma rerooted_under src dst fs e :
  e ∈ rerooted src dst fs -> dst `prefix_of` e.1.
Proof.
  unfold rerooted. intros He.
  apply list_elem_of_fmap in He as (e0 & -> & _). cbn.
  by apply prefix_app_r.
Qed.

(** What [fs.copy] does to the disk: it fails and changes nothing, or it
    succeeds, and then no file outside the destination is created, removed
    or changed, and a source that is a file is at the destination with the
    content it had. *)
Lemma copy_path_spec src dst fs :
  match copy_path src dst fs with
  | inl _ => True
  | inr fs' =>
      (forall q c, ~ dst `prefix_of` q ->
         fs' !! q = Some (File c) <-> fs !! q = Some (File c)) /\
      (forall c, fs !! src = Some (File c) -> fs' !! dst = Some (File c)) /\
      src <> dst
  end.
Proof.
  unfold copy_path.
  destruct (fs !! src) as [[|c]|] eqn:Hsrc; [| | done].
  - case_bool_decide as Hpre; [done |].
    destruct (is_file fs dst); [done |].
    destruct (mkdirs dst fs) as [e|fs1] eqn:Hmk; [done |].
    split; [| split; [done |]].
    + intros q c Hq.
      rewrite (foldr_insert_lookup_outside dst) by
        (done || intros e He; by eapply rerooted_under).
      by eapply mkdirs_files.
    + intros ->. by apply Hpre.
  - case_bool_decide as Hne; [done |].
    destruct (is_dir fs dst); [done |].
    destruct (mkdirs (parent dst) fs) as [e|fs1] eqn:Hmk; [done |].
    split; [| split; [| done]].
    + intros q c' Hq. rewrite lookup_insert_ne.
      * by eapply mkdirs_files.
      * intros <-. by apply Hq.
    + intros c' [= <-]. apply lookup_insert_eq.
Qed.

End FileSystem.

(** ** Copying an environment *)
Lemma createEnvCopy_spec (E : Collaborators) targetEnvName sourceEnvName s :
  (forall target source run,
    target = getEnvConfigPath E targetEnvName (Inputs.projectPath (PS.inputs s)) ->
    source = getEnvConfigPath E sourceEnvName (Inputs.projectPath (PS.inputs s)) ->
    run = createEnvCopy E targetEnvName sourceEnvName s ->
    (run.1 = Resolved (ok Void) \/
     exists e, run.1 = Resolved (err (CopyFileError e)) /\ run.2 = s) /\
    (run.1 = Resolved (ok Void) ->
     forall c, PS.fs s !! source = Some (File c) ->
               PS.fs run.2 !! target = Some (File c)) /\
    (forall q c, ~ target `prefix_of` q ->
       PS.fs run.2 !! q = Some (File c) <-> PS.fs s !! q = Some (File c)) /\
    PS.ctx run.2 = PS.ctx s /\ PS.inputs run.2 = PS.inputs s /\
    PS.locks run.2 = PS.locks s /\ PS.log run.2 = PS.log s /\
    PS.result run.2 = PS.result s).
Proof.
  intros target source run -> -> ->. unfold createEnvCopy.
  destruct s as [[c i [fs stg]] r l g]. run.
  pose proof (copy_path_spec (getEnvConfigPath E sourceEnvName (Inputs.projectPath i))
                (getEnvConfigPath E targetEnvName (Inputs.projectPath i)) fs) as Hc.
  destruct (copy_path _ _ fs) as [e|fs']; cbn.
  - split; [right; eauto |]. split; [done |]. split; [done |]. done.
  - destruct Hc as (Hframe & Hcopy & _).
    split; [by left |]. split; [by intros _ |]. split; [done |]. done.
Qed.


(** On the sample project, copying [dev] to [staging] writes
    [config.staging.json] with the content of [config.dev.json]. *)
Example createEnvCopy_sample :
  let run := createEnvCopy sampleE "staging" "dev" (sampleState sampleInputs sampleFS) in
  run.1 = Resolved (ok Void) /\
  PS.fs run.2 !! ["home"; "app"; ".fx"; "configs"; "config.staging.json"]
  = Some (File (Blob "dev")) /\
  PS.fs run.2 !! ["home"; "app"; ".fx"; "states"; "state.staging.json"] = None.
Proof. cbv zeta. repeat apply conj; vm_compute; reflexivity. Qed.

(** ** Creating a project *)
Lemma ancestors_snoc (folder : path) (a : string) (q : path) :
  q ∈ ancestors folder ->
  q ∈ ancestors (folder ++ [a]) /\ q <> folder ++ [a].
Proof.
  unfold ancestors. intros Hq.
  apply list_elem_of_fmap in Hq as (n & -> & Hn).
  apply elem_of_seq in Hn as [Hn1 Hn2].
  split.
  - apply list_elem_of_fmap. exists n. split.
    + rewrite take_app_le by lia. done.
    + apply elem_of_seq. rewrite length_app. cbn. lia.
  - intros Heq. apply (f_equal length) in Heq.
    rewrite length_take, length_app in Heq. cbn in Heq. lia.
Qed.

(** On a well-formed disk that holds [folder/name], making sure [folder]
    exists changes nothing. *)
Lemma mkdirs_parent_of_existing (fs : FS) (folder : path) (a : string) :
  well_formed fs ->
  is_Some (fs !! (folder ++ [a])) ->
  mkdirs folder fs = inr fs.
Proof.
  intros Hwf Hex. apply mkdirs_existing. intros q Hq.
  apply (ancestors_snoc folder a) in Hq as [Hin Hne].
  by apply (Hwf (folder ++ [a]) q).
Qed.

Section CreateProject.

Variable E : Collaborators.

Lemma validateAppName_at_stage stage s :
  validateAppName E (PS.inputs (at_stage stage s)) = validateAppName E (PS.inputs s).
Proof. by destruct s as [[c [] w] r l g]. Qed.

(** The folder step where the root directory can be made: the disk gains
    the directories on the way. *)
Lemma useRootDirectory_run s fs1 :
  mkdirs (getRootDirectory E) (PS.fs s) = inr fs1 ->
  useRootDirectory E s = (Resolved (Some (getRootDirectory E)), PS.set_fs fs1 s).
Proof. intros H. unfold useRootDirectory. run. by rewrite H. Qed.

(** "Create from new" with a name the validation rejects: the error of the
    validation, and nothing done. *)
Lemma createFromNew_invalid s e :
  validateAppName E (PS.inputs s) = err e ->
  (forall folder, createFromNewV2 E folder s = (Resolved (err e), s)) /\
  (forall folder, createFromNewV3 E folder s = (Resolved (err e), s)).
Proof.
  intros H. split; intros folder; unfold createFromNewV2, createFromNewV3; run;
    unfold PS.inputs in H; cbn in H; by rewrite H.
Qed.

(** "Create from new" where the target exists: the folder-exists error;
    only [inputs.projectPath] has been set. *)
Lemma createFromNew_exists s appName folder :
  validateAppName E (PS.inputs s) = ok appName ->
  is_Some (PS.fs s !! (folder ++ [appName])) ->
  let s' := PS.set_inputs
              (Inputs.set_projectPath (Some (folder ++ [appName])) (PS.inputs s)) s in
  createFromNewV2 E (Some folder) s
  = (Resolved (err (ProjectFolderExistError (folder ++ [appName]))), s') /\
  createFromNewV3 E folder s
  = (Resolved (err (ProjectFolderExistError (folder ++ [appName]))), s').
Proof.
  intros H Hex s'. subst s'.
  split; unfold createFromNewV2, createFromNewV3, path_join_checked, path_join;
    run; unfold PS.inputs in H; cbn in H; rewrite H; cbn;
    unfold PS.fs, PS.world in Hex; cbn in Hex;
    by rewrite bool_decide_eq_true_2.
Qed.

#[local] Arguments createFromNewV2 : simpl never.
#[local] Arguments createFromNewV3 : simpl never.
#[local] Arguments useRootDirectory : simpl never.
#[local] Arguments validateAppName : simpl never.
#[local] Arguments mkdirs : simpl never.


End CreateProject.

(** The sample disk is well formed. *)
Lemma sampleFS_well_formed : well_formed sampleFS.
Proof.
  intros p q Hp Hq Hne. unfold sampleFS in Hp.
  repeat (apply lookup_insert_is_Some in Hp as [<- | [_ Hp]]);
    [| | | | | by apply is_Some_None in Hp].
  all: cbn in Hq;
    repeat (apply elem_of_cons in Hq as [-> | Hq]);
    try done; try (by apply elem_of_nil in Hq); vm_compute; reflexivity.
Qed.


(** ** The application name through project creation *)

Section Unchanged.

Lemma unchanged_ret {A} (a : A) : unchanged (ret a).
Proof. done. Qed.

Lemma unchanged_throw {A} t : unchanged (@throw A t).
Proof. done. Qed.

Lemma unchanged_bind {A B} (m : M A) (k : A -> M B) :
  unchanged m -> (forall a, unchanged (k a)) -> unchanged (bind m k).
Proof.
  intros Hm Hk s. unfold bind. specialize (Hm s).
  destruct (m s) as [[a|t] s']; cbn in *; [| done].
  by rewrite Hk.
Qed.

Lemma unchanged_bind_ok {A B} (m : M (Result A)) (k : A -> M (Result B)) :
  unchanged m -> (forall a, unchanged (k a)) -> unchanged (bind_ok m k).
Proof.
  intros Hm Hk. apply unchanged_bind; [done |].
  intros [a|e]; [apply Hk | apply unchanged_ret].
Qed.

Lemma unchanged_try_catch {A} (m : M A) h :
  unchanged m -> (forall t, unchanged (h t)) -> unchanged (try_catch m h).
Proof.
  intros Hm Hh s. unfold try_catch. specialize (Hm s).
  destruct (m s) as [[a|t] s']; cbn in *; [done |].
  by rewrite Hh.
Qed.

Lemma unchanged_call {A} (c : Call A) : keeps_name c -> unchanged (call c).
Proof.
  intros Hc s. unfold call. specialize (Hc (PS.st s)).
  by destruct (c (PS.st s)) as [o st'], s.
Qed.

Lemma unchanged_fs_op op : unchanged (fs_op op).
Proof. intros s. unfold fs_op. by destruct (op (PS.fs s)), s as [[]]. Qed.

Lemma unchanged_pathExists p : unchanged (pathExists p).
Proof. done. Qed.

Lemma unchanged_get_inputs : unchanged get_inputs.
Proof. done. Qed.

Lemma unchanged_get_ctx : unchanged get_ctx.
Proof. done. Qed.

Lemma unchanged_modify_inputs f : unchanged (modify_inputs f).
Proof. by intros [[]]. Qed.

Lemma unchanged_with_inputs {A} i (m : M A) :
  unchanged m -> unchanged (with_inputs i m).
Proof.
  intros Hm s. unfold with_inputs. cbv zeta.
  specialize (Hm (PS.set_inputs i s)).
  destruct (m (PS.set_inputs i s)) as [o [[] ? ? ?]], s as [[]]. done.
Qed.

Lemma triple_unchanged {A} (m : M A) n :
  unchanged m -> triple (named n) m (fun _ => named n).
Proof.
  intros Hm s Hs. specialize (Hm s). unfold named in *.
  destruct (m s) as [[a|t] s']; cbn in *; [congruence | done].
Qed.

Lemma triple_bind {A B} P (m : M A) R (k : A -> M B) Q :
  triple P m R -> (forall a, triple (R a) (k a) Q) -> triple P (bind m k) Q.
Proof.
  intros Hm Hk s Hs. unfold bind. specialize (Hm s Hs).
  destruct (m s) as [[a|t] s']; [by apply Hk | done].
Qed.

Lemma triple_bind_ok {A B} P (m : M (Result A)) R (k : A -> M (Result B)) Q :
  triple P m (on_ok R) -> (forall a, triple (R a) (k a) (on_ok Q)) ->
  triple P (bind_ok m k) (on_ok Q).
Proof.
  intros Hm Hk. eapply triple_bind; [exact Hm |].
  intros [a|e]; [apply Hk | done].
Qed.

Lemma triple_weaken {A} (P P' : PS.t -> Prop) (m : M A) (Q Q' : A -> PS.t -> Prop) :
  triple P' m Q' -> (forall s, P s -> P' s) -> (forall a s, Q' a s -> Q a s) ->
  triple P m Q.
Proof.
  intros Hm HP HQ s Hs. specialize (Hm s (HP s Hs)).
  destruct (m s) as [[a|t] s']; [by apply HQ | done].
Qed.

(** A step that keeps the name, then a continuation that needs it. *)
Lemma triple_then {A B} n (m : M A) (k : A -> M B) Q :
  unchanged m -> (forall a, triple (named n) (k a) Q) ->
  triple (named n) (bind m k) Q.
Proof.
  intros Hm Hk. eapply triple_bind; [by apply triple_unchanged |]. exact Hk.
Qed.

Lemma triple_then_ok {A B} n (m : M (Result A)) (k : A -> M (Result B)) Q :
  unchanged m -> (forall a, triple (named n) (k a) (on_ok Q)) ->
  triple (named n) (bind_ok m k) (on_ok Q).
Proof.
  intros Hm Hk. eapply triple_bind_ok; [| exact Hk].
  eapply triple_weaken; [by apply (triple_unchanged _ n) | done |].
  by intros [a|e] s.
Qed.


Lemma unchanged_modify_ctx f :
  (forall c, settings_name (f c) = settings_name c) -> unchanged (modify_ctx f).
Proof. intros Hf [[]]. apply Hf. Qed.

Lemma triple_ret {A} (P : PS.t -> Prop) (a : A) (Q : A -> PS.t -> Prop) :
  (forall s, P s -> Q a s) -> triple P (ret a) Q.
Proof. intros H s Hs. by apply H. Qed.

Lemma triple_throw {A} P t (Q : A -> PS.t -> Prop) : triple P (throw t) Q.
Proof. by intros s Hs. Qed.

Lemma triple_pure {A} (P : PS.t -> Prop) (phi : Prop) (m : M A) Q :
  (phi -> triple P m Q) -> triple (fun s => P s /\ phi) m Q.
Proof. intros H s [Hs Hphi]. by apply H. Qed.

Lemma triple_bind_ret {A B} P (a : A) (k : A -> M B) Q :
  triple P (k a) Q -> triple P (bind (ret a) k) Q.
Proof. done. Qed.

(** Whatever the state, whatever the step. *)
Lemma triple_after {A B} (m : M A) (k : A -> M B) Q :
  (forall a, triple (fun _ => True) (k a) Q) ->
  triple (fun _ => True) (bind m k) Q.
Proof. intros Hk. eapply triple_bind; [| exact Hk]. intros s _. by destruct (m s) as [[]]. Qed.

Lemma triple_after_ok {A B} (m : M (Result A)) (k : A -> M (Result B)) Q :
  (forall a, triple (fun _ => True) (k a) (on_ok Q)) ->
  triple (fun _ => True) (bind_ok m k) (on_ok Q).
Proof.
  intros Hk. apply triple_after. intros [a|e]; [apply Hk | by apply triple_ret].
Qed.

(** Reasoning from the state a computation starts in. *)
Lemma triple_intro {A} (P : PS.t -> Prop) (m : M A) Q :
  (forall s, P s -> triple (eq s) m Q) -> triple P m Q.
Proof. intros H s Hs. by apply (H s Hs s). Qed.

Lemma triple_get_inputs {B} s (k : Inputs.t -> M B) Q :
  triple (eq s) (k (PS.inputs s)) Q -> triple (eq s) (bind get_inputs k) Q.
Proof. intros H s' <-. by apply (H s). Qed.

Lemma triple_get_ctx {B} s (k : Ctx.t -> M B) Q :
  triple (eq s) (k (PS.ctx s)) Q -> triple (eq s) (bind get_ctx k) Q.
Proof. intros H s' <-. by apply (H s). Qed.

Lemma triple_from {A} (P : PS.t -> Prop) s (m : M A) Q :
  P s -> triple P m Q -> triple (eq s) m Q.
Proof. intros Hs H s' <-. by apply H. Qed.

(** Storing settings named [n] in the context. *)
Lemma triple_set_projectSettings P ps :
  triple P (modify_ctx (Ctx.set_projectSettings (Some ps)))
    (fun _ => named (ProjectSettings.appName ps)).
Proof. by intros [[[]]] _. Qed.

(** The settings read back from a context that holds settings named [n]. *)
Lemma triple_the_projectSettings n stored :
  triple (named n) (the_projectSettings stored)
    (fun ps s => named n s /\ ProjectSettings.appName ps = n).
Proof.
  intros [[[ps ? ? ? ? ? ? ?]]] Hs. unfold named, settings_name in *. cbn in *.
  split; [done |]. destruct ps; cbn in *; congruence.
Qed.


Lemma triple_pathExists P p : triple P (pathExists p) (fun _ => P).
Proof. by intros s Hs. Qed.

Lemma triple_fs_op_inputs (phi : Inputs.t -> Prop) op :
  triple (fun s => phi (PS.inputs s)) (fs_op op) (fun _ s => phi (PS.inputs s)).
Proof. intros s Hs. unfold fs_op. by destruct (op (PS.fs s)), s as [[]]. Qed.

Lemma triple_set_projectPath n x :
  triple (fun s => Inputs.app_name (PS.inputs s) = Some n)
    (modify_inputs (Inputs.set_projectPath x))
    (fun _ s => Inputs.app_name (PS.inputs s) = Some n).
Proof. by intros [[c [] w]] Hs. Qed.

End Unchanged.

Create HintDb frame.
#[global] Hint Resolve unchanged_ret unchanged_throw unchanged_fs_op
  unchanged_pathExists unchanged_get_inputs unchanged_get_ctx
  unchanged_modify_inputs unchanged_call
  keep_uuid_v4 keep_newProjectSettings keep_globalStateUpdate
  keep_writeEnvConfig keep_appStudio_init keep_appStudio_addCapabilities
  keep_v2_scaffoldSourceCode keep_v2_generateResourceTemplate keep_v2_createEnv
  keep_addFeature : frame.

(** The sequencing rules, applied as far as they go. *)
Ltac frame :=
  repeat match goal with
    | |- unchanged (bind_ok _ _) => apply unchanged_bind_ok
    | |- unchanged (bind _ _) => apply unchanged_bind
    | |- unchanged (try_catch _ _) => apply unchanged_try_catch
    | |- unchanged (with_inputs _ _) => apply unchanged_with_inputs
    | |- unchanged (modify_ctx _) => apply unchanged_modify_ctx; by intros []
    | |- forall _, _ => intro
    | |- unchanged _ => case_match
    end;
  eauto with frame.

(** Sequencing under an invariant: the steps that keep the name, up to the
    first that does not. *)
Ltac tframe :=
  repeat match goal with
    | |- triple _ (bind (the_projectSettings _) _) _ => fail 1
    | |- triple _ (bind (ret _) _) _ => apply triple_bind_ret
    | |- triple (named _) (bind_ok _ _) (on_ok _) =>
        apply triple_then_ok; [solve [frame] | intros ?]
    | |- triple (named _) (bind _ _) _ =>
        apply triple_then; [solve [frame] | intros ?]
    | |- triple (fun _ => True) (bind_ok _ _) (on_ok _) =>
        apply triple_after_ok; intros ?
    | |- triple (fun _ => True) (bind (modify_ctx _) _) _ => fail 1
    | |- triple (fun _ => True) (bind _ _) _ => apply triple_after; intros ?
    | |- triple _ (throw _) _ => apply triple_throw
    | |- triple _ (ret (err _)) (on_ok _) => by apply triple_ret
    | |- triple _ (ret _) _ => apply triple_ret; intros ? ?; first [done | by split]
    end.

Section NameKept.

Variable E : Collaborators.
Hypothesis K : KeepName E.

Lemma unchanged_ensureBasicFolderStructure : unchanged (ensureBasicFolderStructure E).
Proof. unfold ensureBasicFolderStructure, ensureDir, writeFile. frame. Qed.

Lemma unchanged_createEnvWithName env ps : unchanged (createEnvWithName E env ps).
Proof. unfold createEnvWithName. frame. Qed.

Lemma unchanged_the_projectSettings ps : unchanged (the_projectSettings ps).
Proof. unfold the_projectSettings. frame. Qed.

Lemma unchanged_createLocalEnvIfUnified ps : unchanged (createLocalEnvIfUnified E ps).
Proof.
  unfold createLocalEnvIfUnified.
  pose proof unchanged_createEnvWithName. pose proof unchanged_the_projectSettings.
  frame.
Qed.

Lemma unchanged_existingAppSteps n p : unchanged (existingAppSteps E n p).
Proof. unfold existingAppSteps. frame. Qed.

Lemma unchanged_projectId_or_fresh : unchanged (projectId_or_fresh E).
Proof. unfold projectId_or_fresh. frame. Qed.

Lemma unchanged_rememberNpmInstall : unchanged (rememberNpmInstall E).
Proof. unfold rememberNpmInstall. frame. Qed.

Lemma unchanged_addFeaturesV3 p caps : unchanged (addFeaturesV3 E p caps).
Proof. unfold addFeaturesV3. frame. Qed.

#[local] Hint Resolve unchanged_ensureBasicFolderStructure
  unchanged_createEnvWithName unchanged_the_projectSettings
  unchanged_createLocalEnvIfUnified unchanged_existingAppSteps
  unchanged_projectId_or_fresh unchanged_rememberNpmInstall
  unchanged_addFeaturesV3 : frame.

Lemma scaffoldWithSolutionV2_named n p ps :
  triple (named n) (scaffoldWithSolutionV2 E p ps) (on_ok (created n p)).
Proof.
  unfold scaffoldWithSolutionV2. tframe. case_match; tframe.
  eapply triple_bind; [apply triple_the_projectSettings |].
  intros ps'. apply triple_pure. intros Hn.
  case_match; tframe.
  eapply triple_bind; [apply triple_set_projectSettings |]. intros [].
  destruct ps'; cbn in *; subst.
  tframe.
Qed.

Lemma createWithSolutionV2_named p ps :
  triple (fun _ => True) (createWithSolutionV2 E p ps)
    (on_ok (created (ProjectSettings.appName ps) p)).
Proof.
  unfold createWithSolutionV2. tframe.
  eapply triple_bind; [apply triple_set_projectSettings |]. intros [].
  destruct ps; cbn. tframe. apply scaffoldWithSolutionV2_named.
Qed.

Lemma createFromExistingAppV2_named n p ps :
  triple (fun _ => True) (createFromExistingAppV2 E n p ps)
    (on_ok (created (ProjectSettings.appName ps) p)).
Proof.
  unfold createFromExistingAppV2.
  eapply triple_bind; [apply triple_set_projectSettings |]. intros [].
  tframe.
Qed.

Lemma scaffoldNewProjectV2_named n p :
  triple (fun _ => True) (scaffoldNewProjectV2 E n p) (on_ok (created n p)).
Proof.
  unfold scaffoldNewProjectV2. tframe. case_match.
  - apply (createFromExistingAppV2_named n p).
  - apply (createWithSolutionV2_named p).
Qed.

Lemma _init_named n :
  triple (fun s => Inputs.app_name (PS.inputs s) = Some n) (_init E true)
    (on_ok (fun _ => named n)).
Proof.
  apply triple_intro. intros s Hs. unfold _init. cbn [negb].
  apply triple_get_inputs. rewrite Hs.
  case_match; [| by apply triple_ret].
  case_match; [| apply triple_throw].
  apply (triple_from (fun _ => True)); [done |].
  tframe.
  eapply triple_bind; [apply triple_set_projectSettings |]. intros [].
  match goal with ps : ProjectSettings.t |- _ => destruct ps; cbn end.
  eapply triple_weaken; [apply (triple_unchanged _ n); frame | done |].
  by intros [].
Qed.

(** The settings document on disk, through the steps that follow its
    writing. *)
Lemma triple_writeFile_settings n path ps :
  triple (named n) (writeFile path (SettingsJson ps))
    (fun _ s => named n s /\
                document_name (PS.fs s) path = Some (ProjectSettings.appName ps)).
Proof.
  intros [[c i [fs stg]] r l g] Hs. unfold writeFile, fs_op, write_file. cbn.
  repeat case_match; simplify_eq/=; try done.
  split; [done |]. unfold document_name, PS.fs, PS.set_fs. cbn. by rewrite lookup_insert_eq.
Qed.

Lemma document_addFeaturesV3 path p caps s :
  document_name (PS.fs (addFeaturesV3 E p caps s).2) path
  = document_name (PS.fs s) path.
Proof.
  destruct s as [[c i [fs stg]] r l g].
  unfold addFeaturesV3, with_inputs, call, bind, get_inputs, ret, throw. cbn.
  repeat case_match; simplify_eq/=; try done.
  match goal with
  | H : addFeature E ?f ?st = _ |- _ =>
      pose proof (keep_document_addFeature E K path f st) as Hk;
        rewrite H in Hk; exact Hk
  end.
Qed.

Lemma document_rememberNpmInstall path s :
  document_name (PS.fs (rememberNpmInstall E s).2) path
  = document_name (PS.fs s) path.
Proof.
  destruct s as [[c i [fs stg]] r l g].
  unfold rememberNpmInstall, call, bind, get_inputs, ret. cbn.
  repeat case_match; simplify_eq/=; try done.
  match goal with
  | H : globalStateUpdate E ?k ?v ?st = _ |- _ =>
      pose proof (keep_document_globalStateUpdate E K path k v st) as Hk;
        rewrite H in Hk; exact Hk
  end.
Qed.

Lemma persistSettingsV3_named n p caps :
  triple (named n) (persistSettingsV3 E p caps)
    (on_ok (fun q s =>
       created n p q s /\
       document_name (PS.fs s) (getProjectSettingsPath E p) = Some n)).
Proof.
  apply triple_intro. intros s Hs. unfold persistSettingsV3.
  apply triple_get_ctx, triple_get_inputs.
  unfold named, settings_name in Hs.
  destruct (Ctx.projectSettings (PS.ctx s)) as [ps|]; [| done].
  injection Hs as Hn.
  remember (ProjectSettings.set_isFromSample _ _) as ps' eqn:Hps'.
  assert (ProjectSettings.appName ps' = n) as Hn'
    by (subst ps'; destruct ps; exact Hn).
  clear Hps' Hn. subst n.
  apply (triple_from (fun _ => True)); [done |].
  eapply triple_bind; [apply triple_set_projectSettings |]. intros [].
  eapply triple_bind; [apply triple_writeFile_settings |]. intros []. cbn.
  eapply (triple_bind_ok _ _
    (fun _ s2 =>
       named (ProjectSettings.appName ps') s2 /\
       document_name (PS.fs s2) (getProjectSettingsPath E p)
       = Some (ProjectSettings.appName ps'))).
  - intros s1 [Hs1 Hd1].
    pose proof (unchanged_addFeaturesV3 p caps s1) as Hu.
    pose proof (document_addFeaturesV3 (getProjectSettingsPath E p) p caps s1) as Hd.
    destruct (addFeaturesV3 E p caps s1) as [[[v|e]|t] s2]; cbn in *; [| done | done].
    unfold named in *. split; congruence.
  - intros v. apply triple_ret. intros s2 [Hs2 Hd2]. by repeat split.
Qed.

Lemma with_inputs_init_named n i :
  Inputs.app_name i = Some n ->
  triple (fun _ => True) (with_inputs i (_init E true)) (on_ok (fun _ => named n)).
Proof.
  intros Hi s _. unfold with_inputs. cbv zeta.
  assert (Inputs.app_name (PS.inputs (PS.set_inputs i s)) = Some n) as Hs
    by (by destruct s as [[]]).
  pose proof (_init_named n _ Hs) as H.
  destruct (_init E true (PS.set_inputs i s)) as [[[v|e]|t] [[] ? ? ?]]; done.
Qed.

Lemma scaffoldNewProjectV3_named n p :
  triple (fun s => Inputs.app_name (PS.inputs s) = Some n)
    (scaffoldNewProjectV3 E p)
    (on_ok (fun q s =>
       created n p q s /\
       document_name (PS.fs s) (getProjectSettingsPath E p) = Some n)).
Proof.
  unfold scaffoldNewProjectV3, ensureDir.
  eapply triple_bind;
    [apply (triple_fs_op_inputs (fun i => Inputs.app_name i = Some n)) |].
  intros []. cbv beta.
  eapply triple_bind;
    [apply (triple_fs_op_inputs (fun i => Inputs.app_name i = Some n)) |].
  intros []. cbv beta.
  apply triple_intro. intros s Hs. apply triple_get_inputs.
  apply (triple_from (fun _ => True)); [done |].
  eapply triple_bind_ok.
  - apply (with_inputs_init_named n). by destruct (PS.inputs s).
  - intros ?. apply persistSettingsV3_named.
Qed.

Lemma validateAppName_ok inputs n :
  validateAppName E inputs = ok n ->
  Inputs.app_name inputs = Some n /\ regex_test E (ProjectNamePattern E) n = true.
Proof.
  unfold validateAppName, jsonschema_validate. intros H.
  repeat case_match; simplify_eq/=. done.
Qed.

Lemma createFromNewV2_named n folder :
  triple (fun s => validateAppName E (PS.inputs s) = ok n)
    (createFromNewV2 E (Some folder)) (on_ok (created n (folder ++ [n]))).
Proof.
  apply triple_intro. intros s Hs. unfold createFromNewV2, path_join_checked.
  apply triple_get_inputs. rewrite Hs. cbv beta iota.
  apply (triple_from (fun _ => True)); [done |]. tframe.
  case_match; tframe. apply scaffoldNewProjectV2_named.
Qed.

Lemma createFromNewV3_named n folder :
  triple (fun s => validateAppName E (PS.inputs s) = ok n)
    (createFromNewV3 E folder)
    (on_ok (fun q s =>
       created n (folder ++ [n]) q s /\
       document_name (PS.fs s) (getProjectSettingsPath E (folder ++ [n])) = Some n)).
Proof.
  apply triple_intro. intros s Hs. unfold createFromNewV3.
  apply triple_get_inputs. rewrite Hs.
  apply validateAppName_ok in Hs as [Hs _].
  apply (triple_from (fun s => Inputs.app_name (PS.inputs s) = Some n)); [done |].
  eapply triple_bind; [apply triple_set_projectPath |]. intros []. cbv beta.
  eapply triple_bind; [apply triple_pathExists |]. intros ex.
  destruct ex; [by apply triple_ret |]. apply scaffoldNewProjectV3_named.
Qed.

#[local] Arguments createFromNewV2 : simpl never.
#[local] Arguments createFromNewV3 : simpl never.
#[local] Arguments rememberNpmInstall : simpl never.
#[local] Arguments validateAppName : simpl never.
#[local] Arguments mkdirs : simpl never.

(** What is created is still there once the editor has been told to
    install the packages. *)
Lemma then_rememberNpmInstall n p (doc : bool) (m : M (Result path)) s :
  match m s with
  | (Resolved (ok q), s') =>
      created n p q s' /\
      (doc = true ->
       document_name (PS.fs s') (getProjectSettingsPath E p) = Some n)
  | _ => True
  end ->
  match (projectPath <-? m;; rememberNpmInstall E;;; ret (ok projectPath)) s with
  | (Resolved (ok q), s') =>
      q = p /\ named n s' /\
      (doc = true ->
       document_name (PS.fs s') (getProjectSettingsPath E q) = Some n)
  | _ => True
  end.
Proof.
  unfold bind_ok, bind, ret.
  destruct (m s) as [[[q|e]|t] s1]; [| done | done].
  intros [[-> Hn] Hd].
  pose proof (unchanged_rememberNpmInstall s1) as Hu.
  pose proof (document_rememberNpmInstall (getProjectSettingsPath E p) s1) as Hk.
  destruct (rememberNpmInstall E s1) as [[[]|t] s2]; [| done].
  cbn in *. unfold named in *. repeat split; [congruence |].
  intros Hdoc. rewrite Hk. by apply Hd.
Qed.

Lemma createProject_named isV3 s n folder :
  from_scratch E (PS.inputs s) ->
  validateAppName E (PS.inputs s) = ok n ->
  project_folder E isV3 (PS.inputs s) = Some folder ->
  match createProject_body E isV3 true s with
  | (Resolved (ok p), s') =>
      p = folder ++ [n] /\ named n s' /\
      (isV3 = true ->
       document_name (PS.fs s') (getProjectSettingsPath E p) = Some n)
  | _ => True
  end.
Proof.
  unfold from_scratch, project_folder, root_used.
  destruct s as [[c i [fs stg]] r l g]. destruct i. cbn.
  intros Hscratch Hname Hfolder.
  unfold validateAppName in Hname. cbn in Hname.
  destruct isV3; cbn in *.
  - unfold createProjectV3, useRootDirectory. run.
    destruct (bool_decide (platform = VSCode) || bool_decide (platform = VS)).
    + destruct (getRootDirectory E) as [|d root]; cbn in Hfolder; [done |].
      simplify_eq/=.
      destruct (mkdirs (d :: root) fs) as [e|fs1]; [done |]. run.
      rewrite bool_decide_eq_false_2 by done.
      match goal with
      | |- context [createFromNewV3 E ?f ?st] =>
          apply (then_rememberNpmInstall n (f ++ [n]) true (createFromNewV3 E f) st);
            pose proof (createFromNewV3_named n f st Hname) as H;
            destruct (createFromNewV3 E f st) as [[[q|e]|t] s1]; [| done | done];
            destruct H as [H1 H2]; by split
      end.
    + destruct folder0 as [[|d0 folder0]|]; simplify_eq/=.
      rewrite bool_decide_eq_false_2 by done.
      match goal with
      | |- context [createFromNewV3 E ?f ?st] =>
          apply (then_rememberNpmInstall n (f ++ [n]) true (createFromNewV3 E f) st);
            pose proof (createFromNewV3_named n f st Hname) as H;
            destruct (createFromNewV3 E f st) as [[[q|e]|t] s1]; [| done | done];
            destruct H as [H1 H2]; by split
      end.
  - unfold createProjectV2, useRootDirectory. run.
    rewrite orb_false_r in Hfolder.
    destruct (bool_decide (platform = VSCode)); simplify_eq/=.
    + destruct (mkdirs (getRootDirectory E) fs) as [e|fs1]; [done |]. run.
      rewrite bool_decide_eq_false_2 by done.
      match goal with
      | |- context [createFromNewV2 E (Some ?f) ?st] =>
          apply (then_rememberNpmInstall n (f ++ [n]) false
                   (createFromNewV2 E (Some f)) st);
            pose proof (createFromNewV2_named n f st Hname) as H;
            destruct (createFromNewV2 E (Some f) st) as [[[q|e]|t] s1];
            [| done | done]; by split
      end.
    + rewrite bool_decide_eq_false_2 by done.
      match goal with
      | |- context [createFromNewV2 E (Some ?f) ?st] =>
          apply (then_rememberNpmInstall n (f ++ [n]) false
                   (createFromNewV2 E (Some f)) st);
            pose proof (createFromNewV2_named n f st Hname) as H;
            destruct (createFromNewV2 E (Some f) st) as [[[q|e]|t] s1];
            [| done | done]; by split
      end.
Qed.

End NameKept.

(** The sample collaborators rename nothing. *)
Lemma sampleE_keeps : KeepName sampleE.
Proof.
  split; try done.
  intros p c env [ctx i [fs stg]]. unfold keeps_name. cbn.
  by destruct (mkdirs _ fs).
Qed.

Section NamePattern.

Variable E : Collaborators.

#[local] Arguments createFromNewV2 : simpl never.
#[local] Arguments createFromNewV3 : simpl never.
#[local] Arguments validateAppName : simpl never.
#[local] Arguments mkdirs : simpl never.

(** The validation of a name the pattern refuses. *)
Lemma validateAppName_refused inputs a :
  Inputs.app_name inputs = Some a ->
  regex_test E (ProjectNamePattern E) a = false ->
  validateAppName E inputs = err (pattern_violation E).
Proof.
  intros Ha Hr. unfold validateAppName, jsonschema_validate. by rewrite Ha, Hr.
Qed.

Lemma validateAppName_accepted inputs a :
  Inputs.app_name inputs = Some a ->
  regex_test E (ProjectNamePattern E) a = true ->
  validateAppName E inputs = ok a.
Proof.
  intros Ha Hr. unfold validateAppName, jsonschema_validate. by rewrite Ha, Hr.
Qed.

(** Creation with a name the validation refuses: the error of the
    validation; the disk is the one the folder step left. *)
Lemma createProject_refused isV3 s e fs1 :
  from_scratch E (PS.inputs s) ->
  validateAppName E (PS.inputs s) = err e ->
  disk_after_folder_step E isV3 (PS.inputs s) (PS.fs s) = Some fs1 ->
  (isV3 = true -> is_Some (project_folder E isV3 (PS.inputs s))) ->
  let run := createProject_body E isV3 true s in
  run.1 = Resolved (err e) /\ PS.ctx run.2 = PS.ctx s /\ PS.fs run.2 = fs1.
Proof.
  unfold from_scratch, project_folder, disk_after_folder_step, root_used.
  destruct s as [[c i [fs stg]] r l g]. destruct i. cbn.
  intros Hscratch Hname Hdisk Hfolder.
  unfold validateAppName in Hname. cbn in Hname.
  destruct isV3; cbn in *.
  - specialize (Hfolder eq_refl).
    unfold createProjectV3, useRootDirectory. run.
    destruct (bool_decide (platform = VSCode) || bool_decide (platform = VS)).
    + destruct (getRootDirectory E) as [|d root];
        [by destruct Hfolder |].
      cbv [World.fs St.world PS.st].
      destruct (mkdirs (d :: root) fs) as [e'|fs1']; [done |]. run.
      simplify_eq/=.
      rewrite bool_decide_eq_false_2 by done.
      match goal with
      | |- context [createFromNewV3 E ?f ?st] =>
          destruct (createFromNew_invalid E st e Hname) as [_ ->]
      end.
      done.
    + destruct folder as [[|d0 folder]|]; try (by destruct Hfolder).
      simplify_eq/=.
      rewrite bool_decide_eq_false_2 by done.
      match goal with
      | |- context [createFromNewV3 E ?f ?st] =>
          destruct (createFromNew_invalid E st e Hname) as [_ ->]
      end.
      done.
  - unfold createProjectV2, useRootDirectory. run.
    rewrite orb_false_r in Hdisk.
    destruct (bool_decide (platform = VSCode)).
    + cbv [World.fs St.world PS.st].
      destruct (mkdirs (getRootDirectory E) fs) as [e'|fs1']; [done |]. run.
      simplify_eq/=.
      rewrite bool_decide_eq_false_2 by done.
      match goal with
      | |- context [createFromNewV2 E ?f ?st] =>
          destruct (createFromNew_invalid E st e Hname) as [-> _]
      end.
      done.
    + simplify_eq/=.
      rewrite bool_decide_eq_false_2 by done.
      match goal with
      | |- context [createFromNewV2 E ?f ?st] =>
          destruct (createFromNew_invalid E st e Hname) as [-> _]
      end.
      done.
Qed.

(** The folder step creates directories only. *)
Lemma disk_after_folder_step_files isV3 inputs fs fs1 q c :
  disk_after_folder_step E isV3 inputs fs = Some fs1 ->
  fs1 !! q = Some (File c) <-> fs !! q = Some (File c).
Proof.
  unfold disk_after_folder_step. case_match; [| by intros [= ->]].
  destruct (mkdirs (getRootDirectory E) fs) as [e|fs'] eqn:Hmk; [done |].
  intros [= ->]. by eapply mkdirs_files.
Qed.


End NamePattern.



(** ** The basic folder structure *)

Section FolderStructure.

Variable E : Collaborators.

#[local] Arguments gitIgnoreContent : simpl never.

(** [fs.writeFile] changes the path it writes and nothing else. *)
Lemma write_file_inr p c fs fs' :
  write_file p c fs = inr fs' -> fs' = <[p := File c]> fs.
Proof. unfold write_file. repeat case_match; congruence. Qed.

(** The call resolves, and it reaches the disk only. *)
Lemma ensureBasicFolderStructure_state s :
  exists r s',
    ensureBasicFolderStructure E s = (Resolved r, s') /\
    PS.ctx s' = PS.ctx s /\ PS.inputs s' = PS.inputs s /\
    PS.locks s' = PS.locks s /\ PS.log s' = PS.log s /\
    PS.result s' = PS.result s.
Proof.
  destruct s as [[c i [fs stg]] r l g].
  unfold ensureBasicFolderStructure, write_file. run.
  repeat case_match; simplify_eq/=; eexists _, _; done.
Qed.

(** What is on the disk stays there. *)
Lemma ensureBasicFolderStructure_keeps s q :
  is_Some (PS.fs s !! q) ->
  PS.fs (ensureBasicFolderStructure E s).2 !! q = PS.fs s !! q.
Proof.
  destruct s as [[c i [fs stg]] r l g].
  unfold ensureBasicFolderStructure, path_join. run. intros Hq.
  repeat case_match; simplify_eq/=; try done;
    repeat match goal with
    | H : write_file _ _ _ = inr _ |- _ => apply write_file_inr in H; subst
    | H : bool_decide _ = false |- _ => apply bool_decide_eq_false in H
    | H : negb _ = true |- _ => apply negb_true_iff in H
    end.
  all: repeat match goal with
    | |- <[?k := _]> _ !! ?q = _ =>
        rewrite (lookup_insert_ne _ k q);
          [| intros <-;
             repeat match goal with
             | H : ¬ is_Some (<[_ := _]> _ !! _) |- _ =>
                 rewrite lookup_insert_ne in H by (intros ?; simplify_list_eq)
             end; done]
    end.
  all: done.
Qed.

(** X1: [ensureBasicFolderStructure] never rejects: it returns a result,
    and the error of that result is [ObjectIsUndefinedError("projectPath")]
    (the inputs name no project path; nothing is changed then) or a
    [WriteFileError] that wraps what the file system threw.  It never
    touches the hook context, the inputs, the locks or the log. *)
Theorem ensureBasicFolderStructure_never_rejects s :
  exists r s',
    ensureBasicFolderStructure E s = (Resolved r, s') /\
    (truthy_path (Inputs.projectPath (PS.inputs s)) = None <->
     r = err (ObjectIsUndefinedError "projectPath")) /\
    (r = err (ObjectIsUndefinedError "projectPath") -> s' = s) /\
    (forall e, r = err e ->
       e = ObjectIsUndefinedError "projectPath" \/
       exists t, e = WriteFileError (ThrowJs t)) /\
    PS.ctx s' = PS.ctx s /\ PS.inputs s' = PS.inputs s /\
    PS.locks s' = PS.locks s /\ PS.log s' = PS.log s /\
    PS.result s' = PS.result s.
Proof.
  destruct s as [[c i [fs stg]] r l g].
  unfold ensureBasicFolderStructure, write_file. run.
  repeat case_match; simplify_eq/=; eexists _, _; (split; [reflexivity |]);
    repeat split; try done; try (intros; simplify_eq; eauto).
Qed.

(** X2: [ensureBasicFolderStructure] creates, never overwrites.  Every
    path holds after the call what it held before, except that
    [projectPath/package.json] (not for Visual Studio) and
    [projectPath/.gitignore] are created where nothing was there, with the
    application name of the inputs and with the ignore list of the
    platform. *)
Theorem ensureBasicFolderStructure_creates_only s q :
  let s' := (ensureBasicFolderStructure E s).2 in
  let inputs := PS.inputs s in
  PS.fs s' !! q = PS.fs s !! q \/
  exists p,
    truthy_path (Inputs.projectPath inputs) = Some p /\
    PS.fs s !! q = None /\
    ((q = p ++ ["package.json"] /\ Inputs.platform inputs <> VS /\
      PS.fs s' !! q = Some (File (PackageJson (Inputs.app_name inputs)))) \/
     (q = p ++ [".gitignore"] /\
      PS.fs s' !! q
      = Some (File (Text (gitIgnoreContent E (Inputs.platform inputs)))))).
Proof.
  destruct s as [[c i [fs stg]] r l g].
  unfold ensureBasicFolderStructure. run.
  destruct (truthy_path (Inputs.projectPath i)) as [p|] eqn:Hp; [| by left].
  unfold path_join.
  assert (p ++ ["package.json"] <> p ++ [".gitignore"]) as Hne
    by (intros H; by apply app_inv_head in H).
  repeat case_match; simplify_eq/=;
    repeat match goal with
    | H : write_file _ _ _ = inr _ |- _ => apply write_file_inr in H; subst
    | H : bool_decide _ = true |- _ => apply bool_decide_eq_true in H
    | H : bool_decide _ = false |- _ => apply bool_decide_eq_false in H
    | H : negb _ = true |- _ => apply negb_true_iff in H
    | H : negb _ = false |- _ => apply negb_false_iff in H
    end;
    try (by left).
  all: try (destruct (decide (q = p ++ [".gitignore"])) as [-> | Hq1]).
  all: try (destruct (decide (q = p ++ ["package.json"])) as [-> | Hq2]).
  all: rewrite ?lookup_insert_eq, ?lookup_insert_ne by done.
  all: try (by left).
  all: right; exists p; split; [done |].
  all: repeat match goal with
       | H : ¬ is_Some _ |- _ => apply eq_None_not_Some in H
       end.
  all: rewrite ?lookup_insert_ne in * by done.
  all: split; [done |].
  all: first
    [ by (left; split; [done |]; split; [done |];
          rewrite ?lookup_insert_ne by done; rewrite ?lookup_insert_eq)
    | by (right; split; [done |];
          rewrite ?lookup_insert_ne by done; rewrite ?lookup_insert_eq) ].
Qed.

(** Where both files are there, the call does nothing. *)
Lemma ensureBasicFolderStructure_present s p :
  truthy_path (Inputs.projectPath (PS.inputs s)) = Some p ->
  is_Some (PS.fs s !! (p ++ [".gitignore"])) ->
  (Inputs.platform (PS.inputs s) <> VS ->
   is_Some (PS.fs s !! (p ++ ["package.json"]))) ->
  ensureBasicFolderStructure E s = (Resolved (ok tt), s).
Proof.
  destruct s as [[c i [fs stg]] r l g].
  unfold ensureBasicFolderStructure, path_join. run.
  intros -> Hg Hp. run.
  destruct (bool_decide (Inputs.platform i <> VS)) eqn:Hvs.
  - apply bool_decide_eq_true in Hvs.
    rewrite (bool_decide_eq_true_2 _ (Hp Hvs)). cbn.
    by rewrite (bool_decide_eq_true_2 _ Hg).
  - cbn. by rewrite (bool_decide_eq_true_2 _ Hg).
Qed.

(** A successful call leaves both files behind. *)
Lemma ensureBasicFolderStructure_files s :
  (ensureBasicFolderStructure E s).1 = Resolved (ok tt) ->
  exists p,
    truthy_path (Inputs.projectPath (PS.inputs s)) = Some p /\
    is_Some (PS.fs (ensureBasicFolderStructure E s).2 !! (p ++ [".gitignore"])) /\
    (Inputs.platform (PS.inputs s) <> VS ->
     is_Some (PS.fs (ensureBasicFolderStructure E s).2
              !! (p ++ ["package.json"]))).
Proof.
  destruct s as [[c i [fs stg]] r l g].
  unfold ensureBasicFolderStructure, path_join. run.
  destruct (truthy_path (Inputs.projectPath i)) as [p|] eqn:Hp; [| done].
  intros Hok. exists p. split; [done |].
  assert (p ++ ["package.json"] <> p ++ [".gitignore"]) as Hne
    by (intros H; by apply app_inv_head in H).
  revert Hok.
  repeat case_match; simplify_eq/=; intros Hok; try done;
    repeat match goal with
    | H : write_file _ _ _ = inr _ |- _ => apply write_file_inr in H; subst
    | H : bool_decide _ = true |- _ => apply bool_decide_eq_true in H
    | H : bool_decide _ = false |- _ => apply bool_decide_eq_false in H
    | H : negb _ = true |- _ => apply negb_true_iff in H
    | H : negb _ = false |- _ => apply negb_false_iff in H
    end;
    (split; [| intros Hvs]);
    rewrite ?lookup_insert_eq; try done;
    rewrite ?lookup_insert_ne by done; rewrite ?lookup_insert_eq; try done;
    try (by destruct Hvs).
Qed.

(** X3: a successful [ensureBasicFolderStructure] leaves the project with
    its [.gitignore] and (but for Visual Studio) its [package.json], and is
    idempotent: a second call succeeds and changes nothing. *)
Theorem ensureBasicFolderStructure_idempotent s :
  let first := ensureBasicFolderStructure E s in
  first.1 = Resolved (ok tt) ->
  ensureBasicFolderStructure E first.2 = (Resolved (ok tt), first.2) /\
  exists p,
    truthy_path (Inputs.projectPath (PS.inputs s)) = Some p /\
    is_Some (PS.fs first.2 !! (p ++ [".gitignore"])) /\
    (Inputs.platform (PS.inputs s) <> VS ->
     is_Some (PS.fs first.2 !! (p ++ ["package.json"]))).
Proof.
  intros first Hok.
  destruct (ensureBasicFolderStructure_files s Hok) as (p & Hp & Hg & Hj).
  split; [| by exists p].
  pose proof (ensureBasicFolderStructure_state s) as (r0 & s0 & Hrun & _ & Hi & _).
  subst first. rewrite Hrun in *. cbn in *.
  apply (ensureBasicFolderStructure_present _ p); by rewrite ?Hi.
Qed.

End FolderStructure.

Lemma ensureBasicFolderStructure_idempotent_witness :
  let first := ensureBasicFolderStructure sampleE (sampleState sampleInputs sampleFS) in
  ensureBasicFolderStructure sampleE first.2 = (Resolved (ok tt), first.2) /\
  is_Some (PS.fs first.2 !! ["home"; "app"; ".gitignore"]) /\
  is_Some (PS.fs first.2 !! ["home"; "app"; "package.json"]).
Proof.
  destruct (ensureBasicFolderStructure_idempotent sampleE
              (sampleState sampleInputs sampleFS)) as (H & p & Hp & Hg & Hj).
  - vm_compute. reflexivity.
  - injection Hp as <-. split; [exact H |]. split; [exact Hg |].
    apply Hj. discriminate.
Defined.

(** ** Creating an environment *)

Section CreateEnv.

Variable E : Collaborators.

#[local] Arguments createEnvCopy : simpl never.

(** X4: [createEnv] copies nothing unless it is given both names.  Without
    project settings in the context it returns [ok(Void)] and does nothing,
    not even ask; where the answer to [askNewEnvironment] is [undefined] or
    lacks a name (or holds an empty one), it returns [UserCancelError] and
    the state is the one the question left. *)
Theorem createEnv_without_names s :
  (Ctx.projectSettings (PS.ctx s) = None ->
   createEnv E true s = (Resolved (ok Void), s)) /\
  (forall ps a st',
     Ctx.projectSettings (PS.ctx s) = Some ps ->
     askNewEnvironment E (PS.st s) = (Resolved a, st') ->
     (forall t src, a = Some (Some t, Some src) -> t = "" \/ src = "") ->
     createEnv E true s = (Resolved (err UserCancelError), PS.set_st st' s)).
Proof.
  destruct s as [[c i [fs stg]] r l g]. split.
  - intros Hps. unfold createEnv. run. by rewrite Hps.
  - intros ps a st' Hps Hask Ha. unfold createEnv. run.
    rewrite Hps. run. rewrite Hask. run.
    destruct a as [[[t|] [src|]]|]; try done.
    destruct (Ha t src eq_refl) as [-> | ->]; cbn; [done |].
    by rewrite orb_true_r.
Qed.

(** X5: [createEnv] copies first and checks the solution afterwards.  Given
    both names, once the configuration file of the source environment has
    been copied, the inputs carry the two names; then, where the context
    lacks the solution or its V2 context, [createEnv] returns
    [ObjectIsUndefinedError] although the copy has been made; where the
    solution has no [createEnv] it returns [ok(Void)]; otherwise it runs
    [createEnv] of the solution on inputs with [copy = true]. *)
Theorem createEnv_after_copy s ps t src st1 s2 c :
  Ctx.projectSettings (PS.ctx s) = Some ps ->
  askNewEnvironment E (PS.st s) = (Resolved (Some (Some t, Some src)), st1) ->
  t <> "" -> src <> "" ->
  let s1 := PS.set_st st1 s in
  let target := getEnvConfigPath E t (Inputs.projectPath (PS.inputs s1)) in
  let source := getEnvConfigPath E src (Inputs.projectPath (PS.inputs s1)) in
  PS.fs s1 !! source = Some (File c) ->
  createEnvCopy E t src s1 = (Resolved (ok Void), s2) ->
  let s3 :=
    PS.set_inputs
      (Inputs.set_targetEnvName (Some t)
         (Inputs.set_sourceEnvName (Some src) (PS.inputs s2))) s2 in
  PS.fs s3 !! target = Some (File c) /\
  PS.ctx s3 = PS.ctx s1 /\
  createEnv E true s
  = match Ctx.solutionV2 (PS.ctx s3), Ctx.contextV2 (PS.ctx s3) with
    | Some solutionV2, Some _ =>
        match v2_createEnv E solutionV2 with
        | Some createEnv_ =>
            call createEnv_
              (PS.set_inputs (Inputs.set_copy (Some true) (PS.inputs s3)) s3)
        | None => (Resolved (ok Void), s3)
        end
    | _, _ =>
        (Resolved (err (ObjectIsUndefinedError "ctx.solutionV2, ctx.contextV2")),
         s3)
    end.
Proof.
  intros Hps Hask Ht Hsrc s1 target source Hfile Hcopy s3.
  destruct (createEnvCopy_spec E t src s1 target source _ eq_refl eq_refl eq_refl)
    as (_ & Hc & _ & Hctx & _).
  rewrite Hcopy in Hc, Hctx. cbn in Hc, Hctx.
  specialize (Hc eq_refl c Hfile).
  split; [| split].
  - subst s3. by destruct s2 as [[? ? []]].
  - subst s3. by destruct s2 as [[]].
  - subst s3 s1. clear Hc Hctx Hfile. revert Hps Hask Hcopy.
    destruct s as [[ctx i [fs stg]] r l g]. unfold createEnv. run.
    intros Hps Hask Hcopy. rewrite Hps. run. rewrite Hask. run.
    rewrite !bool_decide_eq_false_2 by done. cbn.
    unfold PS.set_st in Hcopy. cbn in Hcopy. rewrite Hcopy.
    destruct s2 as [[ctx2 i2 [fs2 stg2]] r2 l2 g2]. run.
    repeat case_match; simplify_eq/=; try done. congruence.
Qed.

End CreateEnv.

Lemma createEnv_after_copy_witness :
  let s := PS.set_ctx sampleCtx (sampleState sampleInputs sampleFS) in
  let run := createEnv sampleE true s in
  run.1 = Resolved (ok Void) /\
  PS.fs run.2 !! ["home"; "app"; ".fx"; "configs"; "config.staging.json"]
  = Some (File (Blob "dev")) /\
  Inputs.targetEnvName (PS.inputs run.2) = Some "staging".
Proof.
  intros s run.
  assert (createEnvCopy sampleE "staging" "dev" s
          = (Resolved (ok Void), (createEnvCopy sampleE "staging" "dev" s).2))
    as Hcopy
    by (apply injective_projections; [vm_compute; reflexivity | reflexivity]).
  pose proof (createEnv_after_copy sampleE s sampleSettings "staging" "dev"
                (PS.st s) _ (Blob "dev") eq_refl eq_refl
                ltac:(discriminate) ltac:(discriminate)
                ltac:(vm_compute; reflexivity) Hcopy) as (Hfile & _ & Hrun).
  subst run. rewrite Hrun. cbn. split; [done |]. split; [exact Hfile | done].
Defined.

(** ** The features of a new V3 project *)

Section Features.

Variable E : Collaborators.

(** X6: the features [createProjectV3] asks [addFeature] for, the plugin
    names being distinct.  No feature is asked for twice.  The AAD plugin is
    asked for unless the SPFx tab is among the capabilities.  For Visual
    Studio the only host feature is the .NET plugin; for the other platforms
    it is never asked for, the tab is hosted by the frontend plugin or, if
    there is no tab but an SPFx tab, by the SPFx plugin (never by both), and
    the bot plugin is asked for exactly when a bot or a message extension is
    among the capabilities. *)
Theorem features_of_capabilities platform capabilities :
  NoDup [BuiltInFeaturePluginNames_aad E; BuiltInFeaturePluginNames_dotnet E;
         BuiltInFeaturePluginNames_frontend E; BuiltInFeaturePluginNames_spfx E;
         BuiltInFeaturePluginNames_bot E] ->
  let features := features_of E platform capabilities in
  NoDup features /\
  (BuiltInFeaturePluginNames_aad E ∈ features <->
   TabSPFxItem_id E ∉ capabilities) /\
  ((BuiltInFeaturePluginNames_dotnet E ∈ features) <-> (platform = VS)) /\
  (BuiltInFeaturePluginNames_frontend E ∈ features <->
   platform <> VS /\ TabOptionItem_id E ∈ capabilities) /\
  (BuiltInFeaturePluginNames_spfx E ∈ features <->
   platform <> VS /\ (TabOptionItem_id E ∉ capabilities) /\
   TabSPFxItem_id E ∈ capabilities) /\
  (BuiltInFeaturePluginNames_bot E ∈ features <->
   platform <> VS /\
   (BotOptionItem_id E ∈ capabilities \/
    MessageExtensionItem_id E ∈ capabilities)).
Proof.
  intros Hnd features. subst features. unfold features_of.
  repeat match goal with
  | H : NoDup (_ :: _) |- _ => apply NoDup_cons in H as [? H]
  end.
  repeat match goal with
  | H : _ ∉ _ :: _ |- _ => apply not_elem_of_cons in H as [? H]
  end.
  repeat case_bool_decide; cbn;
    repeat split; intros;
    repeat match goal with
    | |- NoDup [] => apply NoDup_nil_2
    | |- NoDup (_ :: _) => apply NoDup_cons_2
    | |- _ ∉ _ => intros ?
    | H : _ ∈ [] |- _ => by apply elem_of_nil in H
    | H : _ ∈ _ :: _ |- _ => apply elem_of_cons in H as [? | H]
    | H : _ /\ _ |- _ => destruct H
    | H : _ \/ _ |- _ => destruct H
    end;
    try done; try congruence;
    try (by repeat first [apply list_elem_of_here | apply list_elem_of_further]);
    eauto.
Qed.

End Features.

Lemma features_of_capabilities_witness :
  features_of sampleE CLI ["Tab"; "Bot"]
  = ["fx-resource-aad-app-for-teams"; "fx-resource-frontend-hosting";
     "fx-resource-bot"] /\
  NoDup (features_of sampleE CLI ["Tab"; "Bot"]).
Proof.
  split; [reflexivity |].
  apply (features_of_capabilities sampleE CLI ["Tab"; "Bot"]).
  match goal with |- NoDup ?l => apply (bool_decide_unpack (NoDup l)) end.
  vm_compute. exact I.
Defined.

(** ** The shape of the declared chains *)



(** ** The inputs the collaborators are handed *)

Section InputsCopies.

Variable E : Collaborators.

Lemma permissionV2_inputs stage method has_ctx s :
  PS.inputs (permissionV2 stage method has_ctx s).2
  = Inputs.set_stage (Some stage) (PS.inputs s).
Proof.
  destruct s as [[c i [fs stg]] r l g].
  unfold permissionV2. run.
  repeat case_match; simplify_eq/=; done.
Qed.

Lemma permissionV3_hands_over stage operation s p :
  truthy_path (Inputs.projectPath (PS.inputs s)) = Some p ->
  defined (Ctx.contextV2 (PS.ctx s)) && defined (Ctx.envInfoV3 (PS.ctx s))
    = true ->
  permissionV3 stage operation true s = call operation (at_stage stage s).
Proof.
  destruct s as [[c i [fs stg]] r l g].
  unfold permissionV3, at_stage. run. destruct i. cbn.
  intros -> Hd. run. by destruct (Ctx.contextV2 c), (Ctx.envInfoV3 c).
Qed.


(** X9: project creation without a folder, on a platform that does not
    supply the root directory.  [createProjectV3] answers
    [InvalidInputError("folder is undefined")] before it looks at the name
    and changes nothing but the stage; [createProjectV2] does not check: with
    an accepted name it reaches [path.join(undefined, appName)], which
    throws, so that its promise rejects with a [TypeError]; the disk and the
    context are untouched. *)
Theorem createProject_without_folder s :
  Inputs.platform (PS.inputs s) = CLI ->
  truthy_path (Inputs.folder (PS.inputs s)) = None ->
  createProjectV3 E true s
  = (Resolved (err (InvalidInputError "folder is undefined")),
     at_stage Stage.create s) /\
  (forall a,
     from_scratch E (PS.inputs s) ->
     Inputs.folder (PS.inputs s) = None ->
     validateAppName E (PS.inputs s) = ok a ->
     (exists msg, (createProjectV2 E true s).1 = Rejected (ThrowJs (TypeError msg))) /\
     PS.fs (createProjectV2 E true s).2 = PS.fs s /\
     PS.ctx (createProjectV2 E true s).2 = PS.ctx s).
Proof.
  destruct s as [[c i [fs stg]] r l g]. destruct i. cbn.
  intros -> Hf. split.
  - unfold createProjectV3, at_stage. run.
    rewrite !(bool_decide_eq_false_2 (CLI = _)) by done. run. by rewrite Hf.
  - intros a Hscratch -> Ha. unfold from_scratch in Hscratch. cbn in Hscratch.
    unfold createProjectV2, createFromNewV2, path_join_checked. run.
    rewrite !(bool_decide_eq_false_2 (CLI = _)) by done. run.
    rewrite bool_decide_eq_false_2 by done.
    unfold validateAppName in *. cbn in *. rewrite Ha. cbn. eauto.
Qed.

End InputsCopies.

Lemma createProject_without_folder_witness :
  let s := sampleState (Inputs.set_folder None sampleInputs) sampleFreshFS in
  (createProjectV3 sampleE true s).1
  = Resolved (err (InvalidInputError "folder is undefined")) /\
  exists msg, (createProjectV2 sampleE true s).1 = Rejected (ThrowJs (TypeError msg)).
Proof.
  intros s.
  destruct (createProject_without_folder sampleE s eq_refl eq_refl) as [H3 H2].
  split; [by rewrite H3 |].
  destruct (H2 "app") as [Hm _]; [cbv; discriminate | reflexivity | reflexivity |].
  exact Hm.
Defined.

(** ** User tasks *)

(** [split] returns at least one piece. *)
Lemma String_split_cons sep s : exists w ws, String_split sep s = w :: ws.
Proof.
  induction s as [|c s (w & ws & IH)]; cbn; [by eauto |].
  destruct (Ascii.eqb c sep); [by eauto |]. rewrite IH. by eauto.
Qed.

Section UserTasks.

Variable E : Collaborators.
Variable T : TaskCollaborators.

(** A task is routed exactly when its namespace is a non-empty string. *)
Lemma routed_spec func :
  routed func = true <->
  exists ns, Func.namespace func = Some ns /\ ns <> EmptyString.
Proof.
  unfold routed, namespace_array. destruct (Func.namespace func) as [ns|].
  - destruct (decide (ns = EmptyString)) as [-> | Hne].
    + cbn. split; [done | by intros (? & [= <-] & ?)].
    + rewrite (bool_decide_eq_false_2 (Some ns = _)) by congruence.
      rewrite (bool_decide_eq_false_2 (ns = _)) by done.
      destruct (String_split_cons slash ns) as (w & ws & ->). cbn.
      rewrite bool_decide_eq_true_2 by lia. split; [by eauto | done].
  - cbn. split; [done | by intros (? & [=] & ?)].
Qed.

(** X10: a user task whose route names no namespace ([undefined] or the
    empty string) is answered with [FunctionRouterError] in both
    generations, whatever the context holds, and no solution is asked: the
    locks, the log, the disk and the inputs are those of the caller with the
    stage set to [userTask]; the V3 body changes nothing else, the V2 body
    nothing else but the environment info of the context (where it marks a
    local debug). *)
Theorem executeUserTask_unrouted isV3 func has_ctx s :
  Func.namespace func = None \/ Func.namespace func = Some EmptyString ->
  let run := executeUserTask_body E T isV3 func has_ctx s in
  run.1 = Resolved (err (FunctionRouterError T func)) /\
  PS.set_ctx (PS.ctx s) run.2 = at_stage Stage.userTask s /\
  Ctx.set_envInfoV2 (Ctx.envInfoV2 (PS.ctx s)) (PS.ctx run.2) = PS.ctx s /\
  (isV3 = true -> run.2 = at_stage Stage.userTask s).
Proof.
  intros Hns run.
  assert (routed func = false) as Hr.
  { destruct (routed func) eqn:Hr; [| done].
    apply routed_spec in Hr as (ns & Hn & Hne).
    destruct Hns as [Hns | Hns]; congruence. }
  subst run. destruct s as [[c i [fs stg]] r l g]. destruct i, c.
  destruct isV3; cbn; unfold executeUserTaskV3, executeUserTaskV2, at_stage; run;
    rewrite Hr.
  - done.
  - repeat case_match; simplify_eq/=; done.
Qed.

#[local] Arguments ensureBasicFolderStructure : simpl never.

(** A call, then possibly the basic folder structure: the outcome is the
    outcome of the call. *)
Lemma then_folder_structure {A} (c : Call A) (cond : A -> Inputs.t -> bool) s :
  let m := (res <- call c;;
            inputs <- get_inputs;;
            (if cond res inputs
             then _ <- ensureBasicFolderStructure E;; ret tt
             else ret tt);;;
            ret res) in
  let called := c (PS.st s) in
  (m s).1 = called.1 /\
  PS.ctx (m s).2 = St.ctx called.2 /\
  PS.inputs (m s).2 = St.inputs called.2 /\
  forall q, is_Some (World.fs (St.world called.2) !! q) ->
            PS.fs (m s).2 !! q = World.fs (St.world called.2) !! q.
Proof.
  cbv zeta. unfold bind, call, get_inputs, ret at 2 3.
  destruct (c (PS.st s)) as [[res|t] st'] eqn:Hcall; [| by destruct s].
  cbn. destruct (cond res _); [| by destruct s].
  pose proof (ensureBasicFolderStructure_state E (PS.set_st st' s))
    as (r0 & s0 & Hrun & Hctx & Hin & _).
  pose proof (ensureBasicFolderStructure_keeps E (PS.set_st st' s)) as Hk.
  unfold ret. rewrite Hrun in *. cbn in *.
  destruct s. cbn in *. repeat split; try done.
Qed.

(** X11: a routed V2 user task returns what the solution returns.  With the
    solution, its context and the environment info in the hook context,
    [executeUserTaskV2] runs [executeUserTask] of the solution on the
    caller's inputs (stage set) with local settings in the context, and its
    outcome is the outcome of that call: the basic folder structure it then
    ensures for [addCapability] can neither fail the task nor replace what
    the solution put on the disk, and leaves context and inputs as the
    solution left them. *)
Theorem executeUserTaskV2_returns_solution_result func s solutionV2 envInfoV2
    contextV2 executeUserTask_ :
  routed func = true ->
  Ctx.solutionV2 (PS.ctx s) = Some solutionV2 ->
  Ctx.envInfoV2 (PS.ctx s) = Some envInfoV2 ->
  Ctx.contextV2 (PS.ctx s) = Some contextV2 ->
  v2_executeUserTask T solutionV2 = Some executeUserTask_ ->
  exists s_pre,
    PS.fs s_pre = PS.fs s /\
    PS.inputs s_pre = Inputs.set_stage (Some Stage.userTask) (PS.inputs s) /\
    defined (Ctx.localSettings (PS.ctx s_pre)) = true /\
    let run := executeUserTaskV2 E T func true s in
    let called := executeUserTask_ func (PS.st s_pre) in
    run.1 = called.1 /\
    PS.ctx run.2 = St.ctx called.2 /\
    PS.inputs run.2 = St.inputs called.2 /\
    forall q, is_Some (World.fs (St.world called.2) !! q) ->
              PS.fs run.2 !! q = World.fs (St.world called.2) !! q.
Proof.
  intros Hr Hsol Henv Hc2 Hexec.
  destruct s as [[c i [fs stg]] r l g]. destruct c.
  cbn in Hsol, Henv, Hc2. subst.
  set (b := isConfigUnifyEnabled E
            && bool_decide (Inputs.env i = Some (getLocalEnvName E)) && true).
  set (s_pre :=
    PS.mk
      (St.mk
         (Ctx.mk projectSettings (Some solutionV2) solutionV3
            (Some contextV2)
            (Some (if b
                   then EnvInfoV2.mk (EnvInfoV2.envName envInfoV2)
                          (EnvConfig.mk (Some true)
                             (EnvConfig.rest (EnvInfoV2.config envInfoV2)))
                          (EnvInfoV2.state envInfoV2)
                   else envInfoV2))
            envInfoV3 (Some (default "{}" localSettings)) injected)
         (Inputs.set_stage (Some Stage.userTask) i)
         (World.mk fs (Some Stage.userTask)))
      r l g).
  exists s_pre.
  split; [done |]. split; [done |]. split; [done |].
  set (cond := fun (res : Result Json) (inputs : Inputs.t) =>
    isOk res
    && bool_decide (Func.method func = "addCapability")
    && match Inputs.capabilities inputs with
       | Some capabilities => bool_decide (0 < length capabilities)
       | None => false
       end).
  match goal with
  | |- context [executeUserTaskV2 E T func true ?s0] =>
      assert (executeUserTaskV2 E T func true s0
              = (res <- call (executeUserTask_ func);;
                 inputs <- get_inputs;;
                 (if cond res inputs
                  then _ <- ensureBasicFolderStructure E;; ret tt
                  else ret tt);;;
                 ret res) s_pre) as Heq
  end.
  { subst s_pre cond. unfold executeUserTaskV2, ensureContextV2. run.
    rewrite Hr. fold b. destruct b, localSettings; run; by rewrite Hexec. }
  cbv zeta. rewrite Heq.
  apply (then_folder_structure (executeUserTask_ func) cond s_pre).
Qed.

End UserTasks.

Lemma executeUserTaskV2_returns_solution_result_witness :
  let s := PS.set_ctx sampleCtx (sampleState sampleInputs sampleFS) in
  (executeUserTaskV2 sampleE sampleT sampleFunc true s).1
  = Resolved (ok "addCapability").
Proof.
  intros s.
  pose proof (executeUserTaskV2_returns_solution_result sampleE sampleT
                sampleFunc s
                (SolutionV2.mk "fx-solution-azure")
                (EnvInfoV2.mk "dev" (EnvConfig.mk None "{}") "{}")
                (Context.mk sampleSettings)
                (fun func => quiet (ok (Func.method func)))
                eq_refl eq_refl eq_refl eq_refl eq_refl)
    as (s_pre & _ & _ & _ & Hrun & _).
  rewrite Hrun. reflexivity.
Defined.

Lemma executeUserTask_unrouted_witness :
  let func := Func.mk None "addCapability" in
  let s := PS.set_ctx sampleCtx (sampleState sampleInputs sampleFS) in
  (executeUserTask_body sampleE sampleT false func true s).1
  = Resolved (err (FunctionRouterError sampleT func)) /\
  (executeUserTask_body sampleE sampleT true func true s).2
  = at_stage Stage.userTask s.
Proof.
  intros func s. split.
  - apply (executeUserTask_unrouted sampleE sampleT false func true s).
    by left.
  - apply (executeUserTask_unrouted sampleE sampleT true func true s);
      [by left | reflexivity].
Defined.

(** ** The configuration of a V3 project *)

Section ProjectConfig.

Variable E : Collaborators.
Variable T : TaskCollaborators.

(** The loop over a list of names in two parts: the second part starts
    where the first ended, unless the first failed. *)
Lemma loadEnvInfos_app envs1 envs2 envInfos s :
  loadEnvInfos T (envs1 ++ envs2) envInfos s
  = match loadEnvInfos T envs1 envInfos s with
    | (Resolved (ok envInfos'), s') => loadEnvInfos T envs2 envInfos' s'
    | other => other
    end.
Proof.
  revert envInfos s. induction envs1 as [|env envs1 IH]; intros envInfos s.
  - done.
  - cbn [app loadEnvInfos]. unfold bind, get_ctx, call, ret. cbn.
    destruct (envInfoLoaderV3_loadEnvInfoV3 T _ env false (PS.st s))
      as [[[v|e]|t] st']; cbn; [apply IH | done | done].
Qed.

(** The environments the loop has loaded when it succeeds. *)
Lemma loadEnvInfos_dom envs envInfos s envInfos' s' :
  loadEnvInfos T envs envInfos s = (Resolved (ok envInfos'), s') ->
  dom envInfos' =@{gset string} dom envInfos ∪ list_to_set envs.
Proof.
  revert envInfos s. induction envs as [|env envs IH]; intros envInfos s.
  - intros [= <- <-]. cbn. by rewrite (right_id_L ∅ (∪)).
  - cbn [loadEnvInfos]. unfold bind, get_ctx, call, ret. cbn.
    destruct (envInfoLoaderV3_loadEnvInfoV3 T _ env false (PS.st s))
      as [[[v|e]|t] st']; cbn; [| done | done].
    intros H. apply IH in H. rewrite H, dom_insert_L. cbn.
    by rewrite (comm_L (∪) {[env]}), (assoc_L (∪)).
Qed.

(** X12: the environments of [getProjectConfigV3].  Without a context or
    project settings it returns [ObjectIsUndefinedError]; without a project
    path it returns [ok(undefined)] and changes nothing, not even the
    stage.  Otherwise a configuration it returns holds an entry for each
    environment name [listAllEnvConfigs] listed, and for no other name. *)
Theorem getProjectConfigV3_envInfos has_ctx s :
  let run := getProjectConfigV3 T has_ctx s in
  ((has_ctx = false \/ Ctx.projectSettings (PS.ctx s) = None) ->
   run = (Resolved (err (ObjectIsUndefinedError "getProjectConfigV3 input stuff")),
          s)) /\
  (has_ctx = true -> is_Some (Ctx.projectSettings (PS.ctx s)) ->
   truthy_path (Inputs.projectPath (PS.inputs s)) = None ->
   run = (Resolved (ok None), s)) /\
  (forall projectPath envNames st1 config,
     truthy_path (Inputs.projectPath (PS.inputs s)) = Some projectPath ->
     listAllEnvConfigs T projectPath (PS.st (at_stage Stage.getProjectConfig s))
     = (Resolved (ok envNames), st1) ->
     run.1 = Resolved (ok (Some config)) ->
     dom (ProjectConfigV3.envInfos config) =@{gset string} list_to_set envNames).
Proof.
  intros run. subst run. destruct s as [[c i [fs stg]] r l g].
  split; [| split].
  - intros [-> | Hps]; unfold getProjectConfigV3; run; [done |].
    rewrite Hps. by destruct has_ctx.
  - intros -> [ps Hps] Hp. unfold getProjectConfigV3. run.
    rewrite Hps. run. by rewrite Hp.
  - intros projectPath envNames st1 config Hp Hlist.
    unfold getProjectConfigV3, at_stage, the_projectSettings in *. run.
    destruct has_ctx, (Ctx.projectSettings c) as [ps|]; try done.
    run. rewrite Hp. destruct i. run. rewrite Hlist. run.
    match goal with
    | |- context [loadEnvInfos T envNames ∅ ?s1] =>
        pose proof (loadEnvInfos_dom envNames ∅ s1) as Hdom;
          destruct (loadEnvInfos T envNames ∅ s1) as [[[m|e]|t] s2]
    end; try done.
    cbn. intros [= <-]. cbn. rewrite (Hdom _ _ eq_refl).
    by rewrite dom_empty_L, (left_id_L ∅ (∪)).
Qed.

(** X13: [getProjectConfigV3] fails fast.  Where the environments before
    [env] load and [env] does not, the error of [env] is returned and the
    state is the one that load left: the environments listed after [env]
    are never loaded, and no configuration is returned. *)
Theorem getProjectConfigV3_fails_fast s ps projectPath envs1 env envs2 st0
    envInfos1 s1 e st2 :
  Ctx.projectSettings (PS.ctx s) = Some ps ->
  truthy_path (Inputs.projectPath (PS.inputs s)) = Some projectPath ->
  let s0 := at_stage Stage.getProjectConfig s in
  listAllEnvConfigs T projectPath (PS.st s0)
  = (Resolved (ok (envs1 ++ env :: envs2)), st0) ->
  loadEnvInfos T envs1 ∅ (PS.set_st st0 s0) = (Resolved (ok envInfos1), s1) ->
  envInfoLoaderV3_loadEnvInfoV3 T (Ctx.projectSettings (PS.ctx s1)) env false
    (PS.st s1)
  = (Resolved (err e), st2) ->
  getProjectConfigV3 T true s = (Resolved (err e), PS.set_st st2 s1).
Proof.
  intros Hps Hp s0 Hlist Hloop Hload.
  assert (loadEnvInfos T (envs1 ++ env :: envs2) ∅ (PS.set_st st0 s0)
          = (Resolved (err e), PS.set_st st2 s1)) as Hall.
  { rewrite loadEnvInfos_app, Hloop. cbn [loadEnvInfos].
    unfold bind, get_ctx, call. cbn. by rewrite Hload. }
  subst s0. revert Hps Hp Hlist Hall. clear Hloop Hload.
  destruct s as [[c i [fs stg]] r l g]. destruct i.
  unfold getProjectConfigV3, at_stage. run.
  intros Hps Hp Hlist Hall. rewrite Hps. run. rewrite Hp. run.
  rewrite Hlist. run.
  unfold PS.set_st in Hall. cbn in Hall. by rewrite Hall.
Qed.

End ProjectConfig.

Lemma getProjectConfigV3_envInfos_witness :
  let s := PS.set_ctx sampleCtx (sampleState sampleInputs sampleFS) in
  exists config,
    (getProjectConfigV3 sampleT true s).1 = Resolved (ok (Some config)) /\
    dom (ProjectConfigV3.envInfos config) =@{gset string} {["dev"; "staging"]}.
Proof.
  intros s.
  destruct (getProjectConfigV3_envInfos sampleT true s) as (_ & _ & H).
  exists (ProjectConfigV3.mk sampleSettings
            (<["staging" := EnvInfoV3.mk "staging" "{}" "{}"]>
               (<["dev" := EnvInfoV3.mk "dev" "{}" "{}"]> ∅))).
  assert ((getProjectConfigV3 sampleT true s).1
          = Resolved (ok (Some (ProjectConfigV3.mk sampleSettings
              (<["staging" := EnvInfoV3.mk "staging" "{}" "{}"]>
                 (<["dev" := EnvInfoV3.mk "dev" "{}" "{}"]> ∅))))))
    as Hrun by (vm_compute; reflexivity).
  split; [exact Hrun |].
  rewrite (H ["home"; "app"] ["dev"; "staging"] _ _ eq_refl eq_refl Hrun).
  cbn. by rewrite (right_id_L ∅ (∪)).
Defined.

Lemma getProjectConfigV3_fails_fast_witness :
  let s := PS.set_ctx sampleCtx (sampleState sampleInputs sampleFS) in
  (getProjectConfigV3 sampleBrokenT true s).1
  = Resolved (err (DelegatedError "core" "cannot load staging")).
Proof.
  intros s.
  rewrite (getProjectConfigV3_fails_fast sampleBrokenT s sampleSettings
             ["home"; "app"] ["dev"] "staging" ["prod"]
             (PS.st (at_stage Stage.getProjectConfig s))
             (<["dev" := EnvInfoV3.mk "dev" "{}" "{}"]> ∅)
             (at_stage Stage.getProjectConfig s)
             (DelegatedError "core" "cannot load staging")
             (PS.st (at_stage Stage.getProjectConfig s))
             eq_refl eq_refl eq_refl eq_refl eq_refl).
  reflexivity.
Defined.

(** ** Adding features *)

Section AddFeature.

Variable E : Collaborators.

#[local] Arguments ensureBasicFolderStructure : simpl never.

(** X14: [_addFeature] asks the solution only once the basic folder
    structure is there.  Where the context, the V3 solution, its V2 context
    or the [addFeature] method of the solution is missing, it returns
    [ok(Void)] and does nothing: no feature is added and no error tells so.
    Otherwise an error of [ensureBasicFolderStructure] (such as a missing
    project path) is returned without the solution being asked, and after
    its success the solution is asked with [.gitignore] in place. *)
Theorem _addFeature_outcomes features has_ctx s :
  let run := _addFeature E features has_ctx s in
  ((has_ctx = false \/ Ctx.solutionV3 (PS.ctx s) = None \/
    Ctx.contextV2 (PS.ctx s) = None \/
    exists solutionV3, Ctx.solutionV3 (PS.ctx s) = Some solutionV3 /\
                       v3_addFeature E solutionV3 = None) ->
   run = (Resolved (ok Void), s)) /\
  (forall solutionV3 contextV2 addFeature_,
     has_ctx = true ->
     Ctx.solutionV3 (PS.ctx s) = Some solutionV3 ->
     Ctx.contextV2 (PS.ctx s) = Some contextV2 ->
     v3_addFeature E solutionV3 = Some addFeature_ ->
     (truthy_path (Inputs.projectPath (PS.inputs s)) = None ->
      run = (Resolved (err (ObjectIsUndefinedError "projectPath")), s)) /\
     (forall e s1,
        ensureBasicFolderStructure E s = (Resolved (err e), s1) ->
        run = (Resolved (err e), s1)) /\
     (forall s1,
        ensureBasicFolderStructure E s = (Resolved (ok tt), s1) ->
        run = call (addFeature_ features) s1 /\
        exists p,
          truthy_path (Inputs.projectPath (PS.inputs s)) = Some p /\
          is_Some (PS.fs s1 !! (p ++ [".gitignore"])))).
Proof.
  intros run. subst run. split.
  - intros H. unfold _addFeature, bind, get_ctx. cbn.
    destruct has_ctx; [| by destruct (Ctx.contextV2 _)].
    destruct H as [H | [H | [H | (sol & H1 & H2)]]]; try done.
    + by rewrite H.
    + rewrite H. by destruct (Ctx.solutionV3 _).
    + rewrite H1, H2. by destruct (Ctx.contextV2 _).
  - intros sol c2 addFeature_ -> Hsol Hc2 Hadd.
    assert (_addFeature E features true s
            = (_ <-? ensureBasicFolderStructure E;; call (addFeature_ features)) s)
      as ->.
    { unfold _addFeature, bind, get_ctx. cbn. by rewrite Hsol, Hc2, Hadd. }
    unfold bind_ok, bind.
    split; [| split].
    + intros Hp.
      assert (ensureBasicFolderStructure E s
              = (Resolved (err (ObjectIsUndefinedError "projectPath")), s)) as ->.
      { destruct s as [[c i [fs stg]] r l g].
        unfold ensureBasicFolderStructure. run. by rewrite Hp. }
      done.
    + by intros e s1 ->.
    + intros s1 Hrun. rewrite Hrun. split; [done |].
      destruct (ensureBasicFolderStructure_files E s) as (p & Hp & Hg & _);
        [by rewrite Hrun |].
      exists p. split; [done |]. by rewrite Hrun in Hg.
Qed.

(** X15: the application name in [init].  A name the pattern refuses gives
    [InvalidInputError("invalid app-name")] and nothing is changed.  No name
    at all passes the validation (the pattern constrains strings only), and
    [path.join(folder, undefined)] throws: the promise rejects with a
    [TypeError], nothing being changed.  With a name, a successful [init]
    leaves project settings of that name in the hook context, if the
    collaborators do not rename the application. *)
Theorem init_app_name s :
  let run := init E true s in
  (forall a, Inputs.app_name (PS.inputs s) = Some a ->
             regex_test E (ProjectNamePattern E) a = false ->
             run = (Resolved (err (InvalidInputError "invalid app-name")), s)) /\
  (Inputs.app_name (PS.inputs s) = None ->
   exists msg, run = (Rejected (ThrowJs (TypeError msg)), s)) /\
  (forall a, KeepName E ->
             Inputs.app_name (PS.inputs s) = Some a ->
             match run with
             | (Resolved (ok _), s') => named a s'
             | _ => True
             end).
Proof.
  intros run. subst run. unfold init. split; [| split].
  - intros a Ha Hr. destruct s as [[c i [fs stg]] r l g].
    unfold _init, jsonschema_validate. run. by rewrite Ha, Hr.
  - intros Ha. destruct s as [[c i [fs stg]] r l g].
    unfold _init, jsonschema_validate. run. rewrite Ha. cbn.
    destruct (Inputs.folder i); eauto.
  - intros a K Ha. apply (_init_named E K a s Ha).
Qed.

End AddFeature.

Lemma init_app_name_witness :
  let s := sampleState sampleInputs sampleFreshFS in
  (init sampleE true s).1 = Resolved (ok (Some ["home"; "app"])) /\
  named "app" (init sampleE true s).2.
Proof.
  intros s.
  assert ((init sampleE true s).1 = Resolved (ok (Some ["home"; "app"]))) as Hrun
    by (vm_compute; reflexivity).
  split; [exact Hrun |].
  destruct (init_app_name sampleE s) as (_ & _ & H).
  specialize (H "app" sampleE_keeps eq_refl).
  destruct (init sampleE true s) as [[[p|e]|t] s']; try discriminate. exact H.
Defined.

(** ** The APIM feature *)

Section ApimFeatureFacts.

Variable E : Collaborators.
Variable A : ApimCollaborators.

(** What [execute] of [configApim] does where the project has no APIM
    component. *)
Lemma configApim_execute_absent projectSetting projectPath :
  getComponent A projectSetting (ComponentNames_APIM A) = None ->
  exists connections,
    sublist connections ["teams-tab"; "teams-bot"] /\
    configApim_execute E A projectSetting projectPath
    = (ok [FileEffect "replace" (getProjectSettingsPath E projectPath)
             "add component 'apim' in projectSettings"],
       with_component projectSetting
         (Component.mk (ComponentNames_APIM A) (Some true) (Some true)
            (Some connections))).
Proof.
  intros Habsent. unfold configApim_execute. rewrite Habsent. cbv zeta.
  destruct (defined (getComponent A _ (ComponentNames_TeamsTab A)));
    cbn [Component.push_connection Component.connections Component.name
         Component.provision Component.deploy app];
    destruct (defined (getComponent A _ (ComponentNames_TeamsBot A)));
    cbn [Component.push_connection Component.connections Component.name
         Component.provision Component.deploy app];
    eexists; (split; [| reflexivity]).
  - reflexivity.
  - by apply sublist_skip, sublist_cons, sublist_nil_l.
  - by apply sublist_cons, sublist_skip.
  - apply sublist_nil_l.
Qed.

(** X16: [execute] of [apim-feature.configApim] adds at most the APIM
    component.  The components the project had stay, in their order; with
    an APIM component among them nothing is changed and nothing reported;
    without one, a single component is appended, named APIM, provisioned and
    deployed, connected to nothing but the tab and the bot (in this order),
    and one replacement of the project settings file is reported. *)
Theorem configApim_execute_adds_apim projectSetting projectPath :
  let run := configApim_execute E A projectSetting projectPath in
  ProjectSettingsV3.appName run.2 = ProjectSettingsV3.appName projectSetting /\
  ProjectSettingsV3.components projectSetting
    `prefix_of` ProjectSettingsV3.components run.2 /\
  (is_Some (getComponent A projectSetting (ComponentNames_APIM A)) ->
   run = (ok [], projectSetting)) /\
  (getComponent A projectSetting (ComponentNames_APIM A) = None ->
   exists apim connections,
     ProjectSettingsV3.components run.2
     = ProjectSettingsV3.components projectSetting ++ [apim] /\
     Component.name apim = ComponentNames_APIM A /\
     Component.provision apim = Some true /\
     Component.deploy apim = Some true /\
     Component.connections apim = Some connections /\
     sublist connections ["teams-tab"; "teams-bot"] /\
     run.1 = ok [FileEffect "replace" (getProjectSettingsPath E projectPath)
                   "add component 'apim' in projectSettings"]).
Proof.
  intros run. subst run.
  destruct (getComponent A projectSetting (ComponentNames_APIM A)) as [c|] eqn:Hc.
  - unfold configApim_execute. rewrite Hc. cbn.
    split; [done |]. split; [done |]. split; [done |]. done.
  - destruct (configApim_execute_absent projectSetting projectPath Hc)
      as (connections & Hsub & ->). cbn.
    split; [done |]. split; [by apply prefix_app_r |].
    split; [by intros [] |]. intros _.
    eexists _, connections. repeat split; done.
Qed.

(** X17: what [ApimFeature.add] returns.  It never fails; it returns no
    action exactly when the project has an APIM component; otherwise it
    returns a sequential group that calls [teams-api.add] first if the
    project has no API, then configures APIM, then calls [bicep.init] and
    the three generators.  The plan of its one function action predicts its
    execution: the plan is empty exactly when the execution changes nothing,
    and then the execution reports nothing. *)
Theorem ApimFeature_add_plan projectSetting :
  (is_Some (getComponent A projectSetting (ComponentNames_APIM A)) ->
   ApimFeature_add E A projectSetting = ok None) /\
  (getComponent A projectSetting (ComponentNames_APIM A) = None ->
   exists actions plan execute,
     ApimFeature_add E A projectSetting
     = ok (Some (GroupAction "apim-feature.add" "sequential" actions)) /\
     call_targets (GroupAction "apim-feature.add" "sequential" actions)
     = (if hasApi A projectSetting then [] else ["teams-api.add"])
       ++ ["bicep.init"; "apim-feature.generateCode"; "apim.generateBicep";
           "apim-config.generateBicep"] /\
     function_actions (GroupAction "apim-feature.add" "sequential" actions)
     = [FunctionAction "apim-feature.configApim" plan execute] /\
     forall ps p,
       (plan ps p = ok [] <-> (execute ps p).2 = ps) /\
       (plan ps p = ok [] <-> (execute ps p).1 = ok [])).
Proof.
  split.
  - intros [c Hc]. unfold ApimFeature_add. by rewrite Hc.
  - intros Hc. unfold ApimFeature_add. rewrite Hc. cbv zeta.
    eexists _, (configApim_plan A), (configApim_execute E A).
    split; [reflexivity |].
    split; [by destruct (hasApi A projectSetting) |].
    split; [by destruct (hasApi A projectSetting) |].
    intros ps p. unfold configApim_plan.
    destruct (getComponent A ps (ComponentNames_APIM A)) as [c|] eqn:Hps.
    + unfold configApim_execute. rewrite Hps. done.
    + destruct (configApim_execute_absent ps p Hps) as (connections & _ & ->).
      cbn. split; (split; [done |]).
      * intros Heq. apply (f_equal ProjectSettingsV3.components) in Heq.
        apply (f_equal length) in Heq. cbn in Heq.
        rewrite length_app in Heq. cbn in Heq. lia.
      * done.
Qed.

(** X18: configuring APIM twice is configuring it once, if [getComponent]
    finds a component that is in the project by its name: after [execute],
    the plan is empty, a second [execute] changes and reports nothing, and
    [add] has no action left to return. *)
Theorem configApim_execute_idempotent projectSetting projectPath :
  (forall ps c,
     c ∈ ProjectSettingsV3.components ps ->
     is_Some (getComponent A ps (Component.name c))) ->
  let once := configApim_execute E A projectSetting projectPath in
  configApim_plan A once.2 projectPath = ok [] /\
  configApim_execute E A once.2 projectPath = (ok [], once.2) /\
  ApimFeature_add E A once.2 = ok None.
Proof.
  intros Hfind once.
  assert (is_Some (getComponent A once.2 (ComponentNames_APIM A))) as [c Hc].
  { subst once.
    destruct (getComponent A projectSetting (ComponentNames_APIM A))
      as [c|] eqn:Hc.
    - unfold configApim_execute. rewrite Hc. cbn. by rewrite Hc.
    - destruct (configApim_execute_absent projectSetting projectPath Hc)
        as (connections & _ & ->). cbn.
      apply (Hfind _ (Component.mk (ComponentNames_APIM A) (Some true)
                        (Some true) (Some connections))).
      cbn. apply elem_of_app. right. apply list_elem_of_here. }
  unfold configApim_plan, configApim_execute, ApimFeature_add.
  by rewrite Hc.
Qed.

End ApimFeatureFacts.

(** The sample [getComponent] finds a component by its name. *)
Lemma sampleA_finds ps c :
  c ∈ ProjectSettingsV3.components ps ->
  is_Some (getComponent sampleA ps (Component.name c)).
Proof.
  intros Hin. cbn.
  destruct (List.find _ _) as [c'|] eqn:Hf; [by eexists |].
  apply list_elem_of_In in Hin.
  pose proof (List.find_none _ _ Hf c Hin) as Hn. cbn in Hn.
  by rewrite String.eqb_refl in Hn.
Qed.

Lemma configApim_execute_idempotent_witness :
  let once := configApim_execute sampleE sampleA sampleTabProject ["home"; "app"] in
  ProjectSettingsV3.components once.2
  = [Component.mk "teams-tab" (Some true) (Some true) None;
     Component.mk "apim" (Some true) (Some true) (Some ["teams-tab"])] /\
  configApim_execute sampleE sampleA once.2 ["home"; "app"] = (ok [], once.2) /\
  ApimFeature_add sampleE sampleA once.2 = ok None.
Proof.
  intros once. split; [reflexivity |].
  apply (configApim_execute_idempotent sampleE sampleA sampleTabProject
           ["home"; "app"] sampleA_finds).
Defined.

Lemma ApimFeature_add_plan_witness :
  call_targets
    (default (CallAction None false "")
       (match ApimFeature_add sampleE sampleA sampleTabProject with
        | ok a => a
        | err _ => None
        end))
  = ["teams-api.add"; "bicep.init"; "apim-feature.generateCode";
     "apim.generateBicep"; "apim-config.generateBicep"].
Proof.
  destruct (ApimFeature_add_plan sampleE sampleA sampleTabProject) as [_ H].
  destruct (H eq_refl) as (actions & plan & execute & -> & Ht & _).
  cbn [default]. exact Ht.
Defined.

(** ** Collaboration without a project path or without a solution *)

Section PermissionEdges.

Variable E : Collaborators.

(** X19: the edge cases of grant, check and list.  Without a project path
    each of the six methods returns [ObjectIsUndefinedError("projectPath")]
    and only sets the stage.  With a project path, the V2 methods assert
    the context, the solution and its method ([ctx!.solutionV2!.m!(...)])
    without checking them: where one is missing the promise rejects with a
    [TypeError], only the stage being set (the V3 methods return an error
    result there). *)
Theorem permission_edge_cases has_ctx s :
  (truthy_path (Inputs.projectPath (PS.inputs s)) = None ->
   forall op stage,
     (op, stage) ∈ [(grantPermissionV2 E, Stage.grantPermission);
                    (checkPermissionV2 E, Stage.checkPermission);
                    (listCollaboratorV2 E, Stage.listCollaborator);
                    (grantPermissionV3 E, Stage.grantPermission);
                    (checkPermissionV3 E, Stage.checkPermission);
                    (listCollaboratorV3 E, Stage.listCollaborator)] ->
     op has_ctx s
     = (Resolved (err (ObjectIsUndefinedError "projectPath")), at_stage stage s)) /\
  (forall p op method stage,
     truthy_path (Inputs.projectPath (PS.inputs s)) = Some p ->
     (op, method, stage)
       ∈ [(grantPermissionV2 E, v2_grantPermission E, Stage.grantPermission);
          (checkPermissionV2 E, v2_checkPermission E, Stage.checkPermission);
          (listCollaboratorV2 E, v2_listCollaborator E, Stage.listCollaborator)] ->
     (has_ctx = false \/ Ctx.solutionV2 (PS.ctx s) = None \/
      exists solutionV2, Ctx.solutionV2 (PS.ctx s) = Some solutionV2 /\
                         method solutionV2 = None) ->
     exists msg,
       op has_ctx s = (Rejected (ThrowJs (TypeError msg)), at_stage stage s)).
Proof.
  assert (forall stage method,
    truthy_path (Inputs.projectPath (PS.inputs s)) = None ->
    permissionV2 stage method has_ctx s
    = (Resolved (err (ObjectIsUndefinedError "projectPath")), at_stage stage s))
    as H2.
  { intros stage method. destruct s as [[c i [fs stg]] r l g]. destruct i.
    unfold permissionV2, at_stage. run. by intros ->. }
  assert (forall stage operation,
    truthy_path (Inputs.projectPath (PS.inputs s)) = None ->
    permissionV3 stage operation has_ctx s
    = (Resolved (err (ObjectIsUndefinedError "projectPath")), at_stage stage s))
    as H3.
  { intros stage operation. destruct s as [[c i [fs stg]] r l g]. destruct i.
    unfold permissionV3, at_stage. run. by intros ->. }
  assert (forall p stage method,
    truthy_path (Inputs.projectPath (PS.inputs s)) = Some p ->
    (has_ctx = false \/ Ctx.solutionV2 (PS.ctx s) = None \/
     exists solutionV2, Ctx.solutionV2 (PS.ctx s) = Some solutionV2 /\
                        method solutionV2 = None) ->
    exists msg,
      permissionV2 stage method has_ctx s
      = (Rejected (ThrowJs (TypeError msg)), at_stage stage s)) as HT.
  { intros p stage method. clear H2 H3.
    destruct s as [[c i [fs stg]] r l g]. destruct i.
    unfold permissionV2, at_stage. run. intros -> H. run.
    destruct H as [-> | [H | (sol & H1 & H2)]]; [by eauto | |].
    - rewrite H. destruct has_ctx; by eauto.
    - destruct has_ctx; [| by eauto]. rewrite H1, H2. by eauto. }
  split.
  - intros Hp op stage Hin.
    repeat (apply elem_of_cons in Hin as [[= -> ->] | Hin]);
      try (by apply H2); try (by apply H3).
    by apply elem_of_nil in Hin.
  - intros p op method stage Hp Hin Hmiss.
    repeat (apply elem_of_cons in Hin as [[= -> -> ->] | Hin]);
      try (by apply (HT p)).
    by apply elem_of_nil in Hin.
Qed.

End PermissionEdges.

(** ** The inputs of the caller through [createProjectV3] *)

Section InputsKept.

Lemma kept_ret {A} (a : A) : inputs_kept (ret a).
Proof. done. Qed.

Lemma kept_throw {A} t : inputs_kept (@throw A t).
Proof. done. Qed.

Lemma kept_bind {A B} (m : M A) (k : A -> M B) :
  inputs_kept m -> (forall a, inputs_kept (k a)) -> inputs_kept (bind m k).
Proof.
  intros Hm Hk s. unfold bind. specialize (Hm s).
  destruct (m s) as [[a|t] s']; cbn in *; [| done]. by rewrite Hk.
Qed.

Lemma kept_bind_ok {A B} (m : M (Result A)) (k : A -> M (Result B)) :
  inputs_kept m -> (forall a, inputs_kept (k a)) -> inputs_kept (bind_ok m k).
Proof.
  intros Hm Hk. apply kept_bind; [done |].
  intros [a|e]; [apply Hk | apply kept_ret].
Qed.

Lemma kept_fs_op op : inputs_kept (fs_op op).
Proof. intros s. unfold fs_op. by destruct (op (PS.fs s)), s as [[]]. Qed.

Lemma kept_pathExists p : inputs_kept (pathExists p).
Proof. done. Qed.

Lemma kept_get_inputs : inputs_kept get_inputs.
Proof. done. Qed.

Lemma kept_get_ctx : inputs_kept get_ctx.
Proof. done. Qed.

Lemma kept_modify_ctx f : inputs_kept (modify_ctx f).
Proof. by intros [[]]. Qed.

(** Whatever is done to a copy of the inputs. *)
Lemma kept_with_inputs {A} i (m : M A) : inputs_kept (with_inputs i m).
Proof.
  intros s. unfold with_inputs. cbv zeta.
  by destruct (m (PS.set_inputs i s)) as [o [[] ? ? ?]], s as [[]].
Qed.

End InputsKept.

Create HintDb kept.
#[global] Hint Resolve kept_ret kept_throw kept_fs_op kept_pathExists
  kept_get_inputs kept_get_ctx kept_modify_ctx kept_with_inputs : kept.

Ltac keep :=
  repeat match goal with
    | |- inputs_kept (bind_ok _ _) => apply kept_bind_ok
    | |- inputs_kept (bind _ _) => apply kept_bind
    | |- forall _, _ => intro
    | |- inputs_kept _ => case_match
    end;
  eauto with kept.

Section CreateProjectInputs.

Variable E : Collaborators.

Lemma kept_scaffoldNewProjectV3 p : inputs_kept (scaffoldNewProjectV3 E p).
Proof.
  unfold scaffoldNewProjectV3, persistSettingsV3, addFeaturesV3, ensureDir,
    writeFile.
  keep.
Qed.

(** [createFromNewV3] sets the project path, or nothing. *)
Lemma createFromNewV3_inputs folder s :
  exists projectPath,
    PS.inputs (createFromNewV3 E folder s).2
    = Inputs.set_projectPath projectPath (PS.inputs s).
Proof.
  unfold createFromNewV3, bind, get_inputs, modify_inputs, modify, pathExists,
    ret. cbn.
  destruct (validateAppName E (PS.inputs s)) as [a|e].
  - cbn. destruct (bool_decide _).
    + eexists. by destruct s as [[]].
    + eexists. rewrite kept_scaffoldNewProjectV3. by destruct s as [[]].
  - exists (Inputs.projectPath (PS.inputs s)). cbn.
    by destruct s as [[c [] w]].
Qed.

#[local] Arguments createFromNewV3 : simpl never.
#[local] Arguments mkdirs : simpl never.


End CreateProjectInputs.

